(** * gapi-mcp: the credential lifecycle, the error adapter and the
      read-modify-write tools of [server.py]

    The development embeds the parts of [server.py] that carry state and
    failure semantics: [_save_creds], [_load_creds], the service factories
    [_calendar] and [_tasks], the decorator [_api_error_handler], and the
    tools [delete_event], [modify_event] and [update_task]; then the
    formatters [_fmt_event] and [_fmt_task] and the remaining tools.

    Python values are dynamically typed, so the embedding keeps them as one
    inductive type; dictionaries are finite maps with string keys.  A [str]
    is held as its UTF-8 encoding, and its length and its slices count
    characters, not bytes.  What lies
    outside the file (the token endpoint, the consent flow, the remote
    calendar and tasks services, the clock) is an environment of oracles, and
    every interaction with them is recorded in a trace.

    Three facts about the libraries are built in.  A [Credentials] object
    keeps the constructor's arguments as given and has [expiry = None]
    unless one is passed; [creds.expired] is [False] when [expiry] is
    [None], and [creds.valid] is [token is not None and not expired]
    (google-auth).  [json.loads(json.dumps(v))] is [v] for the values
    modelled here. *)

From Stdlib Require Import ZArith String List Lia.
From stdpp Require Import base option list strings pretty gmap.

Set Default Proof Using "Type".
Local Open Scope Z_scope.

(** ** Python values and exceptions *)

Module Py.

(** The values that occur in JSON documents and API resources.  Floats do not
    occur in the fields the program touches and are left out. *)
#[warnings="-register-all"]
Inductive pyval : Type :=
| PyNone
| PyBool (b : bool)
| PyInt (z : Z)
| PyStr (s : string)
| PyList (l : list pyval)
| PyDict (d : gmap string pyval).

(** [type(v).__name__] *)
Definition type_name (v : pyval) : string :=
  match v with
  | PyNone => "NoneType"
  | PyBool _ => "bool"
  | PyInt _ => "int"
  | PyStr _ => "str"
  | PyList _ => "list"
  | PyDict _ => "dict"
  end.

(** [bool(v)], the test behind [if v:], [a and b], [a or b]. *)
Definition truthy (v : pyval) : bool :=
  match v with
  | PyNone => false
  | PyBool b => b
  | PyInt z => negb (z =? 0)
  | PyStr s => negb (Nat.eqb (String.length s) 0)
  | PyList l => negb (Nat.eqb (length l) 0)
  | PyDict d => negb (Nat.eqb (size d) 0)
  end.

(** [a or b] *)
Definition py_or (a b : pyval) : pyval := if truthy a then a else b.

(** [v is not None] *)
Definition is_not_None (v : pyval) : bool :=
  match v with PyNone => false | _ => true end.

(** The exception classes the program meets that derive from [Exception]. *)
Inductive exn_class : Type :=
| RuntimeError
| JSONDecodeError
| AttributeError
| TypeError
| RefreshError
| UnicodeDecodeError
| OtherError (name : string).

(** A raised exception.  [HttpError] (googleapiclient) derives from
    [Exception] and carries [resp.status] and what [_get_reason()] returns;
    [Exception] stands for every other instance of [Exception] with its
    [str()]; [BaseException] stands for the classes that derive from
    [BaseException] only ([KeyboardInterrupt], [SystemExit],
    [GeneratorExit]), which are not faults but requests to stop. *)
Inductive pyexn : Type :=
| HttpError (status : Z) (reason : string)
| Exception (cls : exn_class) (descr : string)
| BaseException (name : string) (descr : string).

(** [isinstance(e, Exception)] *)
Definition is_Exception (e : pyexn) : bool :=
  match e with
  | HttpError _ _ | Exception _ _ => true
  | BaseException _ _ => false
  end.

(** The outcome of evaluating an expression: a value, or a raised exception. *)
Inductive result (A : Type) : Type :=
| Return (a : A)
| Raise (e : pyexn).
Arguments Return {A} a.
Arguments Raise {A} e.

Definition rbind {A B} (r : result A) (k : A -> result B) : result B :=
  match r with
  | Return a => k a
  | Raise e => Raise e
  end.

(** [obj.get(key, default)] *)
Definition py_get (obj : pyval) (key : string) (dflt : pyval) : result pyval :=
  match obj with
  | PyDict d => Return (default dflt (d !! key))
  | _ => Raise (Exception AttributeError
                  ("'" +:+ type_name obj +:+ "' object has no attribute 'get'"))
  end.

(** [obj[key] = v] with a string key; the updated object is returned. *)
Definition py_setitem (obj : pyval) (key : string) (v : pyval) : result pyval :=
  match obj with
  | PyDict d => Return (PyDict (<[key := v]> d))
  | PyList _ =>
      Raise (Exception TypeError "list indices must be integers or slices, not str")
  | _ => Raise (Exception TypeError
                  ("'" +:+ type_name obj +:+ "' object does not support item assignment"))
  end.

(** [obj.pop(key, None)] with a string key; the updated object is returned
    (the popped value is not used by the program). *)
Definition py_pop (obj : pyval) (key : string) : result pyval :=
  match obj with
  | PyDict d => Return (PyDict (delete key d))
  | PyList _ => Raise (Exception TypeError "pop expected at most 1 argument, got 2")
  | _ => Raise (Exception AttributeError
                  ("'" +:+ type_name obj +:+ "' object has no attribute 'pop'"))
  end.

(** A [str] is held as its UTF-8 encoding, one [ascii] for each byte.  A
    byte of the form [10xxxxxx] continues the character begun by an earlier
    byte; every other byte begins a character. *)
Definition is_continuation (c : Ascii.ascii) : bool :=
  match c with
  | Ascii.Ascii _ _ _ _ _ _ b6 b7 => b7 && negb b6
  end.

(** [len(s)] for a [str]: the number of its characters. *)
Fixpoint str_len (s : string) : nat :=
  match s with
  | EmptyString => 0
  | String c s' => (if is_continuation c then 0 else 1) + str_len s'
  end.

(** The characters of [s], each with all its bytes. *)
Fixpoint char_strings (s : string) : list string :=
  match s with
  | EmptyString => []
  | String c s' =>
      let rest := char_strings s' in
      match s' with
      | String c' _ =>
          if is_continuation c' then
            match rest with
            | g :: gs => String c g :: gs
            | [] => [String c EmptyString]
            end
          else String c EmptyString :: rest
      | EmptyString => [String c EmptyString]
      end
  end.

(** The one-character strings of [s], as iterating a [str] yields them. *)
Definition chars (s : string) : list pyval := PyStr <$> char_strings s.

(** [list(v)].  A dictionary yields its keys; the map does not track
    insertion order, so they come in the map's own order. *)
Definition py_list (v : pyval) : result (list pyval) :=
  match v with
  | PyList l => Return l
  | PyStr s => Return (chars s)
  | PyDict d => Return (PyStr <$> (map_to_list d).*1)
  | _ => Raise (Exception TypeError
                  ("'" +:+ type_name v +:+ "' object is not iterable"))
  end.

(** [len(s) == 10], the test for a bare date such as [2026-02-28]. *)
Definition is_date_only (s : string) : bool := Nat.eqb (str_len s) 10.

(** A string occurs inside another. *)
Definition contains (s sub : string) : Prop :=
  exists pre post : string, s = pre +:+ sub +:+ post.

End Py.
Export Py.

(** ** Time stamps *)

Module Clock.

(** A [datetime] in UTC, as microseconds since 1970-01-01T00:00:00. *)
Definition datetime := Z.

Definition us_per_second : Z := 1000000.
Definition us_per_day : Z := 86400 * us_per_second.

(** Year, month and day of the proleptic Gregorian calendar for a day
    number counted from 1970-01-01. *)
Definition civil_from_days (days : Z) : Z * Z * Z :=
  let z := days + 719468 in
  let era := z `div` 146097 in
  let doe := z - era * 146097 in
  let yoe := (doe - doe `div` 1460 + doe `div` 36524 - doe `div` 146096) `div` 365 in
  let doy := doe - (365 * yoe + yoe `div` 4 - yoe `div` 100) in
  let mp := (5 * doy + 2) `div` 153 in
  let d := doy - (153 * mp + 2) `div` 5 + 1 in
  let m := if mp <? 10 then mp + 3 else mp - 9 in
  let y := yoe + era * 400 in
  (if m <=? 2 then y + 1 else y, m, d).

Fixpoint zeros (n : nat) : string :=
  match n with
  | O => ""
  | S n' => "0" +:+ zeros n'
  end.

(** [n] in decimal, padded with zeros on the left to [width] digits. *)
Definition padded (width : nat) (n : Z) : string :=
  let digits := pretty n in
  zeros (width - String.length digits) +:+ digits.

(** [t.isoformat()].  The fraction is printed only when it is not zero, and
    the offset only for an aware value ([tzinfo=timezone.utc]). *)
Definition isoformat (aware : bool) (t : datetime) : string :=
  let '(y, m, d) := civil_from_days (t `div` us_per_day) in
  let in_day := t `mod` us_per_day in
  let secs := in_day `div` us_per_second in
  let frac := in_day `mod` us_per_second in
  padded 4 y +:+ "-" +:+ padded 2 m +:+ "-" +:+ padded 2 d +:+ "T" +:+
  padded 2 (secs `div` 3600) +:+ ":" +:+ padded 2 ((secs `div` 60) `mod` 60) +:+ ":" +:+
  padded 2 (secs `mod` 60) +:+
  (if frac =? 0 then "" else "." +:+ padded 6 frac) +:+
  (if aware then "+00:00" else "").

End Clock.
Export Clock.

(** ** The world outside the program *)

Module World.

(** A [google.oauth2.credentials.Credentials] object.  The constructor
    stores its arguments as given, whatever their type; [expiry] is [None]
    unless it is passed or set by a refresh. *)
Record Credentials : Type := mkCredentials {
  token : pyval;
  refresh_token : pyval;
  token_uri : pyval;
  client_id : pyval;
  client_secret : pyval;
  scopes : pyval;
  expiry : option datetime
}.

(** What a file holds, up to what [read_text] and [json.loads] make of it:
    a text that parses, kept as the document it parses to; a text that
    [json.loads] rejects with the given message; or bytes that are not text
    in the encoding [read_text] decodes with, which it rejects with the
    given message.  [json.dumps] produces a text of the first kind that
    parses back to the value it was given. *)
Inductive FileContent : Type :=
| JsonText (doc : pyval)
| Malformed (raw : string) (msg : string)
| Undecodable (msg : string).

Definition json_dumps (v : pyval) : FileContent := JsonText v.

(** [CREDS_PATH.read_text()] *)
Definition read_text (c : FileContent) : result FileContent :=
  match c with
  | Undecodable msg => Raise (Exception UnicodeDecodeError msg)
  | _ => Return c
  end.

(** [json.loads(text)].  (The last case does not arise in the program:
    [read_text] has raised before.) *)
Definition json_loads (c : FileContent) : result pyval :=
  match c with
  | JsonText doc => Return doc
  | Malformed _ msg => Raise (Exception JSONDecodeError msg)
  | Undecodable msg => Raise (Exception UnicodeDecodeError msg)
  end.

(** A handle returned by [googleapiclient.discovery.build]. *)
Record Service : Type := mkService {
  api_name : string;
  api_version : string;
  credentials : Credentials
}.

(** The requests the modelled tools build before calling [.execute()]. *)
Inductive ApiCall : Type :=
| EventsGet (calendarId eventId : string)
| EventsUpdate (calendarId eventId : string) (body : pyval)
| EventsDelete (calendarId eventId : string)
| TasksGet (tasklist task : string)
| TasksUpdate (tasklist task : string) (body : pyval).

(** What the program does to the outside, in the order it does it. *)
Inductive Effect : Type :=
| RefreshExchange (c : Credentials)
| ConsentFlow (requested : list string)
| WriteCreds (content : FileContent)
| RemoteCall (svc : Service) (call : ApiCall).

(** What one tool invocation finds around it.  The oracles answer for the
    collaborators: [token_endpoint c] is the state [c.refresh(Request())]
    leaves the credentials in (or what it raises), [consent_flow scopes] is
    what [InstalledAppFlow.from_client_secrets_file(..., scopes)
    .run_local_server(port=0)] returns (or raises), [remote svc call] is
    what [.execute()] returns (or raises). *)
Record Env : Type := mkEnv {
  PROJECT_DIR : string;
  client_secret_exists : bool;
  utcnow : datetime;
  REFRESH_THRESHOLD : Z;
  py_repr : pyval -> string;
  token_endpoint : Credentials -> result Credentials;
  consent_flow : list string -> result Credentials;
  remote : Service -> ApiCall -> result pyval
}.

(** The mutable part: the credential file ([None] when it does not exist)
    and the trace of effects so far, oldest first. *)
Record State : Type := mkState {
  creds_file : option FileContent;
  trace : list Effect
}.

(** Computations that read the environment, change the state and may raise;
    the state reached when an exception is raised is kept. *)
Definition M (A : Type) : Type := Env -> State -> result A * State.

Definition ret {A} (a : A) : M A := fun _ st => (Return a, st).

Definition raise {A} (e : pyexn) : M A := fun _ st => (Raise e, st).

Definition bind {A B} (c : M A) (k : A -> M B) : M B :=
  fun env st =>
    match c env st with
    | (Return a, st') => k a env st'
    | (Raise e, st') => (Raise e, st')
    end.

(** A pure outcome as a computation. *)
Definition lift {A} (r : result A) : M A := fun _ st => (r, st).

Definition ask : M Env := fun env st => (Return env, st).

Definition emit (e : Effect) : M unit :=
  fun _ st => (Return tt, {| creds_file := creds_file st; trace := trace st ++ [e] |}).

End World.
Export World.

Declare Scope py_scope.
Delimit Scope py_scope with py.
Notation "x <- c ;; k" := (bind c (fun x => k))
  (at level 100, c at next level, right associativity) : py_scope.
Notation "c ;; k" := (bind c (fun _ => k))
  (at level 100, right associativity) : py_scope.
Notation "'let?' x := r 'in' k" := (rbind r (fun x => k))
  (at level 100, x name, r at next level, right associativity) : py_scope.
Local Open Scope py_scope.

(** ** Auth: [_save_creds], [_load_creds], [_calendar], [_tasks] *)

Module Auth.

Definition SCOPES : list string :=
  [ "https://www.googleapis.com/auth/calendar";
    "https://www.googleapis.com/auth/calendar.events";
    "https://www.googleapis.com/auth/tasks" ].

(** [str(CLIENT_SECRET)], with the POSIX separator. *)
Definition CLIENT_SECRET (env : Env) : string :=
  PROJECT_DIR env +:+ "/client_secret.json".

(** [CREDS_PATH.write_text(text)] *)
Definition write_text (c : FileContent) : M unit :=
  fun _ st => (Return tt, {| creds_file := Some c; trace := trace st ++ [WriteCreds c] |}).

(** The dictionary [_save_creds] builds before the [expiry] entry. *)
Definition creds_data (creds : Credentials) (scope_list : list pyval)
  : gmap string pyval :=
  <["token" := token creds]>
  (<["refresh_token" := refresh_token creds]>
  (<["token_uri" := token_uri creds]>
  (<["client_id" := client_id creds]>
  (<["client_secret" := client_secret creds]>
  (<["scopes" := PyList scope_list]> ∅))))).

Definition _save_creds (creds : Credentials) : M unit :=
  scope_list <- lift (py_list (py_or (scopes creds) (PyList (PyStr <$> SCOPES)))) ;;
  let data := creds_data creds scope_list in
  let data :=
    match expiry creds with
    | Some e => <["expiry" := PyStr (isoformat false e)]> data
    | None => data
    end in
  write_text (json_dumps (PyDict data)).

(** The [Credentials(...)] call of [_load_creds]: six keyword arguments read
    with [data.get]; no [expiry] argument is passed. *)
Definition creds_of_data (data : pyval) : result Credentials :=
  let? tok := py_get data "token" PyNone in
  let? rtok := py_get data "refresh_token" PyNone in
  let? uri := py_get data "token_uri" (PyStr "https://oauth2.googleapis.com/token") in
  let? cid := py_get data "client_id" PyNone in
  let? csec := py_get data "client_secret" PyNone in
  let? scs := py_get data "scopes" (PyList (PyStr <$> SCOPES)) in
  Return {| token := tok; refresh_token := rtok; token_uri := uri;
            client_id := cid; client_secret := csec; scopes := scs;
            expiry := None |}.

(** Lines 51 to 62 of [_load_creds]: [creds] stays [None] when the file does
    not exist, and is built from the parsed file otherwise. *)
Definition read_creds_file : M (option Credentials) :=
  fun env st =>
    match creds_file st with
    | None => (Return None, st)
    | Some content =>
        (let? text := read_text content in
         let? data := json_loads text in
         let? creds := creds_of_data data in
         Return (Some creds), st)
    end.

(** [creds.expired] (google.auth.credentials): never, when there is no
    expiry; otherwise once the clock reaches the expiry less the library's
    allowance for clock skew. *)
Definition expired (env : Env) (c : Credentials) : bool :=
  match expiry c with
  | None => false
  | Some e => e - REFRESH_THRESHOLD env <=? utcnow env
  end.

(** [creds.valid] *)
Definition valid (env : Env) (c : Credentials) : bool :=
  is_not_None (token c) && negb (expired env c).

(** [creds.refresh(Request())]; the object is updated in place, which the
    model renders by returning the new state. *)
Definition refresh (c : Credentials) : M Credentials :=
  emit (RefreshExchange c) ;;
  env <- ask ;;
  lift (token_endpoint env c).

(** Lines 69 to 73 of [_load_creds], the body of
    [if not creds or not creds.valid]. *)
Definition authorize : M Credentials :=
  env <- ask ;;
  if client_secret_exists env then
    emit (ConsentFlow SCOPES) ;;
    creds <- lift (consent_flow env SCOPES) ;;
    _save_creds creds ;;
    ret creds
  else
    raise (Exception RuntimeError
             ("No credentials and no client_secret.json at " +:+ CLIENT_SECRET env)).

Definition _load_creds : M Credentials :=
  creds <- read_creds_file ;;
  env <- ask ;;
  creds <- match creds with
           | Some c =>
               if expired env c && truthy (refresh_token c) then
                 c' <- refresh c ;;
                 _save_creds c' ;;
                 ret (Some c')
               else ret (Some c)
           | None => ret None
           end ;;
  match creds with
  | Some c => if valid env c then ret c else authorize
  | None => authorize
  end.

(** [build(name, version, credentials=creds)] *)
Definition build (name version : string) (creds : Credentials) : Service :=
  {| api_name := name; api_version := version; credentials := creds |}.

Definition _calendar : M Service :=
  creds <- _load_creds ;; ret (build "calendar" "v3" creds).

Definition _tasks : M Service :=
  creds <- _load_creds ;; ret (build "tasks" "v1" creds).

End Auth.
Export Auth.

(** ** The error adapter and the tools *)

Module Tools.

(** [str(v)], as an f-string formats a value.  The [repr] of a list or a
    dictionary is taken from the environment. *)
Definition py_str (env : Env) (v : pyval) : string :=
  match v with
  | PyNone => "None"
  | PyBool true => "True"
  | PyBool false => "False"
  | PyInt z => pretty z
  | PyStr s => s
  | PyList _ | PyDict _ => py_repr env v
  end.

(** A line feed. *)
Definition nl : string := String (Ascii.ascii_of_nat 10) EmptyString.

(** [request.execute()] on a request built from the handle [svc]. *)
Definition execute (svc : Service) (call : ApiCall) : M pyval :=
  emit (RemoteCall svc call) ;;
  env <- ask ;;
  lift (remote env svc call).

(** The decorator: [except HttpError] first, then [except Exception]; an
    exception that is neither passes through. *)
Definition _api_error_handler {A} (func : A -> M string) : A -> M string :=
  fun args env st =>
    match func args env st with
    | (Return text, st') => (Return text, st')
    | (Raise (HttpError status reason), st') =>
        (Return ("Google API error " +:+ pretty status +:+ ": " +:+ reason), st')
    | (Raise (Exception _ descr), st') => (Return ("Error: " +:+ descr), st')
    | (Raise (BaseException name descr), st') => (Raise (BaseException name descr), st')
    end.

(** [if v is not None: obj[key] = v] *)
Definition set_if_given (key : string) (v : option pyval) (obj : pyval) : result pyval :=
  match v with
  | Some x => py_setitem obj key x
  | None => Return obj
  end.

(** *** delete_event *)

Record DeleteEventArgs : Type := {
  de_event_id : string;
  de_calendar_id : string
}.

Definition delete_event_body (a : DeleteEventArgs) : M string :=
  svc <- _calendar ;;
  execute svc (EventsDelete (de_calendar_id a) (de_event_id a)) ;;
  ret ("Event " +:+ de_event_id a +:+ " deleted.").

Definition delete_event : DeleteEventArgs -> M string :=
  _api_error_handler delete_event_body.

(** *** modify_event *)

Record ModifyEventArgs : Type := {
  me_event_id : string;
  me_summary : option string;
  me_start : option string;
  me_end : option string;
  me_description : option string;
  me_location : option string;
  me_attendees : option (list string);
  me_timezone : option string;
  me_calendar_id : string
}.

(** [{"email": e}] *)
Definition attendee (e : string) : pyval := PyDict {[ "email" := PyStr e ]}.

(** [if timezone:] on an optional string. *)
Definition timezone_given (timezone : option string) : option string :=
  match timezone with
  | Some tz => if truthy (PyStr tz) then Some tz else None
  | None => None
  end.

(** The object stored under [start] or [end]: [{"date": t}] for a bare
    date, otherwise [{"dateTime": t}] with [timeZone] added when a
    non-empty time zone was given. *)
Definition event_time (t : string) (timezone : option string) : pyval :=
  if is_date_only t then PyDict {[ "date" := PyStr t ]}
  else
    match timezone_given timezone with
    | Some tz => PyDict (<["timeZone" := PyStr tz]> {[ "dateTime" := PyStr t ]})
    | None => PyDict {[ "dateTime" := PyStr t ]}
    end.

(** Lines 284 to 307 of [modify_event]: the fetched event after the
    assignments. *)
Definition modify_event_fields (a : ModifyEventArgs) (ev : pyval) : result pyval :=
  let? ev := set_if_given "summary" (PyStr <$> me_summary a) ev in
  let? ev := set_if_given "description" (PyStr <$> me_description a) ev in
  let? ev := set_if_given "location" (PyStr <$> me_location a) ev in
  let? ev := set_if_given "attendees"
               ((fun l => PyList (attendee <$> l)) <$> me_attendees a) ev in
  let? ev := set_if_given "start"
               ((fun t => event_time t (me_timezone a)) <$> me_start a) ev in
  let? ev := set_if_given "end"
               ((fun t => event_time t (me_timezone a)) <$> me_end a) ev in
  Return ev.

Definition modify_event_body (a : ModifyEventArgs) : M string :=
  svc <- _calendar ;;
  ev <- execute svc (EventsGet (me_calendar_id a) (me_event_id a)) ;;
  ev <- lift (modify_event_fields a ev) ;;
  updated <- execute svc (EventsUpdate (me_calendar_id a) (me_event_id a) ev) ;;
  summary <- lift (py_get updated "summary" PyNone) ;;
  link <- lift (py_get updated "htmlLink" PyNone) ;;
  env <- ask ;;
  ret ("Event updated: " +:+ py_str env summary +:+ nl +:+ "Link: " +:+ py_str env link).

Definition modify_event : ModifyEventArgs -> M string :=
  _api_error_handler modify_event_body.

(** *** update_task *)

Record UpdateTaskArgs : Type := {
  ut_task_list_id : string;
  ut_task_id : string;
  ut_title : option string;
  ut_notes : option string;
  ut_status : option string;
  ut_due : option string
}.

(** Lines 506 to 511 of [update_task]: the [status] block. *)
Definition set_status (now : datetime) (status : option string) (t : pyval) : result pyval :=
  match status with
  | Some s =>
      let? t := py_setitem t "status" (PyStr s) in
      if String.eqb s "completed" then
        py_setitem t "completed" (PyStr (isoformat true now))
      else if String.eqb s "needsAction" then py_pop t "completed"
      else Return t
  | None => Return t
  end.

(** Lines 502 to 513 of [update_task]: the fetched task after the
    assignments; [now] is [datetime.now(timezone.utc)]. *)
Definition update_task_fields (now : datetime) (a : UpdateTaskArgs) (t : pyval)
  : result pyval :=
  let? t := set_if_given "title" (PyStr <$> ut_title a) t in
  let? t := set_if_given "notes" (PyStr <$> ut_notes a) t in
  let? t := set_status now (ut_status a) t in
  let? t := set_if_given "due" (PyStr <$> ut_due a) t in
  Return t.

Definition update_task_body (a : UpdateTaskArgs) : M string :=
  svc <- _tasks ;;
  t <- execute svc (TasksGet (ut_task_list_id a) (ut_task_id a)) ;;
  env <- ask ;;
  t <- lift (update_task_fields (utcnow env) a t) ;;
  updated <- execute svc (TasksUpdate (ut_task_list_id a) (ut_task_id a) t) ;;
  title <- lift (py_get updated "title" PyNone) ;;
  status <- lift (py_get updated "status" PyNone) ;;
  ret ("Task updated: " +:+ py_str env title +:+ nl +:+ "Status: " +:+ py_str env status).

Definition update_task : UpdateTaskArgs -> M string :=
  _api_error_handler update_task_body.

End Tools.
Export Tools.

(** ** Sample inputs *)

Module Samples.

(** 2026-02-28T10:00:00 *)
Definition now_2026 : datetime := 1772272800 * us_per_second.

Definition hour : Z := 3600 * us_per_second.

Definition stored_token : pyval := PyStr "ya29.stored".

(** A credential file as [_save_creds] writes it, with the given scope list
    and expiry text. *)
Definition creds_doc (scope_list : list string) (expiry_text : option string)
  : gmap string pyval :=
  let d := <["token" := stored_token]>
           (<["refresh_token" := PyStr "1//refresh"]>
           (<["token_uri" := PyStr "https://oauth2.googleapis.com/token"]>
           (<["client_id" := PyStr "client-id"]>
           (<["client_secret" := PyStr "client-secret"]>
           (<["scopes" := PyList (PyStr <$> scope_list)]> ∅))))) in
  match expiry_text with
  | Some e => <["expiry" := PyStr e]> d
  | None => d
  end.

Definition fresh_creds : Credentials :=
  {| token := PyStr "ya29.fresh"; refresh_token := PyStr "1//refresh";
     token_uri := PyStr "https://oauth2.googleapis.com/token";
     client_id := PyStr "client-id"; client_secret := PyStr "client-secret";
     scopes := PyList (PyStr <$> SCOPES); expiry := Some (now_2026 + hour) |}.

Definition sample_task : gmap string pyval :=
  <["id" := PyStr "T1"]>
  (<["title" := PyStr "Buy milk"]>
  (<["status" := PyStr "completed"]>
  (<["completed" := PyStr "2026-02-27T08:00:00+00:00"]>
  (<["etag" := PyStr "e-17"]> ∅)))).

Definition sample_event : gmap string pyval :=
  <["id" := PyStr "E1"]>
  (<["summary" := PyStr "Review"]>
  (<["start" := PyDict (<["timeZone" := PyStr "UTC"]>
                        {[ "dateTime" := PyStr "2026-03-01T09:00:00Z" ]})]>
  (<["htmlLink" := PyStr "https://calendar.example/E1"]> ∅))).

(** A remote service that knows one task and one event, accepts updates by
    echoing the body, and has no event to delete. *)
Definition sample_remote (svc : Service) (call : ApiCall) : result pyval :=
  match call with
  | EventsGet _ _ => Return (PyDict sample_event)
  | EventsUpdate _ _ body => Return body
  | EventsDelete _ _ => Raise (HttpError 404 "Not Found")
  | TasksGet _ _ => Return (PyDict sample_task)
  | TasksUpdate _ _ body => Return body
  end.

Definition sample_env (secret_exists : bool) : Env :=
  {| PROJECT_DIR := "/srv/gapi-mcp";
     client_secret_exists := secret_exists;
     utcnow := now_2026;
     REFRESH_THRESHOLD := 225 * us_per_second;
     py_repr := fun _ => "<container>";
     token_endpoint := fun c =>
       Return {| token := PyStr "ya29.refreshed"; refresh_token := refresh_token c;
                 token_uri := token_uri c; client_id := client_id c;
                 client_secret := client_secret c; scopes := scopes c;
                 expiry := Some (now_2026 + hour) |};
     consent_flow := fun _ => Return fresh_creds;
     remote := sample_remote |}.

Definition state_with (content : option FileContent) : State :=
  {| creds_file := content; trace := [] |}.

(** 2020-01-01T00:00:00 *)
Definition new_year_2020 : datetime := 1577836800 * us_per_second.

(** Credentials in memory, as a refresh or the consent flow leaves them,
    with the given expiry. *)
Definition held_creds (e : option datetime) : Credentials :=
  {| token := stored_token; refresh_token := PyStr "1//refresh";
     token_uri := PyStr "https://oauth2.googleapis.com/token";
     client_id := PyStr "client-id"; client_secret := PyStr "client-secret";
     scopes := PyList (PyStr <$> SCOPES); expiry := e |}.

(** The file holds a token that expires an hour from now. *)
Definition future_file : FileContent :=
  JsonText (PyDict (creds_doc SCOPES (Some (isoformat false (now_2026 + hour))))).

(** The file holds a token that expired in 2020, and a refresh token. *)
Definition past_file : FileContent :=
  JsonText (PyDict (creds_doc SCOPES (Some (isoformat false new_year_2020)))).

(** The file grants the calendar scope only. *)
Definition narrow_file : FileContent :=
  JsonText (PyDict (creds_doc ["https://www.googleapis.com/auth/calendar"] None)).

(** The file is the empty JSON object. *)
Definition empty_object_file : FileContent := JsonText (PyDict ∅).

(** The credentials the three sample files are read as. *)
Definition stored_creds (scope_list : list string) : Credentials :=
  {| token := stored_token; refresh_token := PyStr "1//refresh";
     token_uri := PyStr "https://oauth2.googleapis.com/token";
     client_id := PyStr "client-id"; client_secret := PyStr "client-secret";
     scopes := PyList (PyStr <$> scope_list); expiry := None |}.

(** Credentials whose scope list is empty. *)
Definition unscoped_creds : Credentials :=
  {| token := stored_token; refresh_token := PyStr "1//refresh";
     token_uri := PyStr "https://oauth2.googleapis.com/token";
     client_id := PyStr "client-id"; client_secret := PyStr "client-secret";
     scopes := PyList []; expiry := None |}.

(** A file whose text is cut off after the first key. *)
Definition truncated_file : FileContent :=
  Malformed "{ token"
    "Expecting property name enclosed in double quotes: line 1 column 3 (char 2)".

(** A file whose first byte is not the start of any text. *)
Definition binary_file : FileContent :=
  Undecodable "'utf-8' codec can't decode byte 0xff in position 0: invalid start byte".

Definition delete_E9 : DeleteEventArgs :=
  {| de_event_id := "E9"; de_calendar_id := "primary" |}.

(** Reopen task T1 and set its notes. *)
Definition reopen_T1 : UpdateTaskArgs :=
  {| ut_task_list_id := "L1"; ut_task_id := "T1"; ut_title := None;
     ut_notes := Some "2%"; ut_status := Some "needsAction"; ut_due := None |}.

(** Mark task T1 completed. *)
Definition complete_T1 : UpdateTaskArgs :=
  {| ut_task_list_id := "L1"; ut_task_id := "T1"; ut_title := None;
     ut_notes := None; ut_status := Some "completed"; ut_due := None |}.

(** Move the end of event E1 and replace its attendees. *)
Definition move_E1 : ModifyEventArgs :=
  {| me_event_id := "E1"; me_summary := None; me_start := None;
     me_end := Some "2026-03-01T10:00:00Z"; me_description := None;
     me_location := None; me_attendees := Some ["a@example.org"];
     me_timezone := Some "Europe/Amsterdam"; me_calendar_id := "primary" |}.

(** The state in which the credential file holds an unexpired token, and
    the handles the factories return in it. *)
Definition ready : State := state_with (Some future_file).

Definition calendar_handle : Service := build "calendar" "v3" (stored_creds SCOPES).

Definition tasks_handle : Service := build "tasks" "v1" (stored_creds SCOPES).

End Samples.

(** ** Notions used in the statements *)

Module Props.

(** The text the adapter returns for a fault: status and reason for a
    remote-service fault, a generic description for any other. *)
Definition fault_text (e : pyexn) (text : string) : Prop :=
  match e with
  | HttpError status reason =>
      text = "Google API error " +:+ pretty status +:+ ": " +:+ reason
  | Exception _ descr => text = "Error: " +:+ descr
  | BaseException _ _ => False
  end.

(** Partial update of one field: a given value is the one written, an
    omitted one leaves what was fetched. *)
Definition field_rule (given : option pyval) (key : string)
    (fetched body : gmap string pyval) : Prop :=
  match given with
  | Some v => body !! key = Some v
  | None => body !! key = fetched !! key
  end.

(** The credentials built from a parsed file that is a JSON object. *)
Definition creds_of_dict (d : gmap string pyval) : Credentials :=
  {| token := default PyNone (d !! "token");
     refresh_token := default PyNone (d !! "refresh_token");
     token_uri := default (PyStr "https://oauth2.googleapis.com/token") (d !! "token_uri");
     client_id := default PyNone (d !! "client_id");
     client_secret := default PyNone (d !! "client_secret");
     scopes := default (PyList (PyStr <$> SCOPES)) (d !! "scopes");
     expiry := None |}.

(** [isinstance(v, dict)] *)
Definition is_dict (v : pyval) : bool :=
  match v with PyDict _ => true | _ => false end.

(** The exception reading a credential file ends in, when it does: the
    bytes are not text, the text is not JSON, or the document is not an
    object. *)
Definition load_fault (content : FileContent) : option pyexn :=
  match content with
  | Undecodable msg => Some (Exception UnicodeDecodeError msg)
  | Malformed _ msg => Some (Exception JSONDecodeError msg)
  | JsonText doc =>
      if is_dict doc then None
      else Some (Exception AttributeError
                   ("'" +:+ type_name doc +:+ "' object has no attribute 'get'"))
  end.

(** The assignments of the update tools, on a dictionary. *)
Definition assign_if_given (key : string) (v : option pyval) (d : gmap string pyval)
  : gmap string pyval :=
  match v with
  | Some x => <[key := x]> d
  | None => d
  end.

Definition status_assigned (now : datetime) (status : option string)
    (d : gmap string pyval) : gmap string pyval :=
  match status with
  | Some s =>
      let d := <["status" := PyStr s]> d in
      if String.eqb s "completed" then <["completed" := PyStr (isoformat true now)]> d
      else if String.eqb s "needsAction" then delete "completed" d
      else d
  | None => d
  end.

Definition task_written (now : datetime) (a : UpdateTaskArgs) (t : gmap string pyval)
  : gmap string pyval :=
  assign_if_given "due" (PyStr <$> ut_due a)
    (status_assigned now (ut_status a)
      (assign_if_given "notes" (PyStr <$> ut_notes a)
        (assign_if_given "title" (PyStr <$> ut_title a) t))).

(** [[{"email": e} for e in attendees]] *)
Definition attendees_value (l : list string) : pyval := PyList (attendee <$> l).

Definition event_written (a : ModifyEventArgs) (ev : gmap string pyval)
  : gmap string pyval :=
  assign_if_given "end" ((fun t => event_time t (me_timezone a)) <$> me_end a)
    (assign_if_given "start" ((fun t => event_time t (me_timezone a)) <$> me_start a)
      (assign_if_given "attendees" (attendees_value <$> me_attendees a)
        (assign_if_given "location" (PyStr <$> me_location a)
          (assign_if_given "description" (PyStr <$> me_description a)
            (assign_if_given "summary" (PyStr <$> me_summary a) ev))))).

(** Partial update of a task: each of the four fields follows
    [field_rule]; every key other than these and [completed] is as fetched,
    and so is [completed] when no status is given; with nothing given the
    body is the fetched task. *)
Definition task_frame (a : UpdateTaskArgs) (t body : gmap string pyval) : Prop :=
  field_rule (PyStr <$> ut_title a) "title" t body /\
  field_rule (PyStr <$> ut_notes a) "notes" t body /\
  field_rule (PyStr <$> ut_status a) "status" t body /\
  field_rule (PyStr <$> ut_due a) "due" t body /\
  (forall k, k ∉ ["title"; "notes"; "status"; "due"; "completed"] ->
             body !! k = t !! k) /\
  (ut_status a = None -> body !! "completed" = t !! "completed") /\
  (ut_title a = None -> ut_notes a = None -> ut_status a = None -> ut_due a = None ->
   body = t).

(** The value the data model has under [attendees] for a list of
    addresses: one object [{"email": address}] for each, in the order
    given. *)
Definition attendee_objects (l : list string) : pyval :=
  PyList ((fun address => PyDict {[ "email" := PyStr address ]}) <$> l).

(** The value the data model has under [start] or [end] for a time given
    as text: [{"date": t}] for a text of ten characters; otherwise
    [{"dateTime": t}], with a [timeZone] entry when a time zone is given
    and is not the empty text. *)
Definition time_object (t : string) (timezone : option string) : pyval :=
  if Nat.eqb (str_len t) 10 then PyDict {[ "date" := PyStr t ]}
  else
    match timezone with
    | None | Some EmptyString => PyDict {[ "dateTime" := PyStr t ]}
    | Some tz => PyDict (<["timeZone" := PyStr tz]> {[ "dateTime" := PyStr t ]})
    end.

(** Partial update of an event: each of the six fields follows
    [field_rule], the value written for given attendees being
    [attendee_objects] and for a given start or end [time_object]; every
    other key is as fetched; with none of the six given the body is the
    fetched event. *)
Definition event_frame (a : ModifyEventArgs) (ev body : gmap string pyval) : Prop :=
  field_rule (PyStr <$> me_summary a) "summary" ev body /\
  field_rule (PyStr <$> me_description a) "description" ev body /\
  field_rule (PyStr <$> me_location a) "location" ev body /\
  field_rule (attendee_objects <$> me_attendees a) "attendees" ev body /\
  field_rule ((fun t => time_object t (me_timezone a)) <$> me_start a) "start" ev body /\
  field_rule ((fun t => time_object t (me_timezone a)) <$> me_end a) "end" ev body /\
  (forall k, k ∉ ["summary"; "description"; "location"; "attendees"; "start"; "end"] ->
             body !! k = ev !! k) /\
  (me_summary a = None -> me_description a = None -> me_location a = None ->
   me_attendees a = None -> me_start a = None -> me_end a = None ->
   body = ev).

(** The status block of [update_task], on the body written back. *)
Definition status_rule (now : datetime) (status : option string)
    (t body : gmap string pyval) : Prop :=
  match status with
  | Some s =>
      body !! "status" = Some (PyStr s) /\
      (s = "completed" -> body !! "completed" = Some (PyStr (isoformat true now))) /\
      (s = "needsAction" -> body !! "completed" = None)
  | None =>
      body !! "status" = t !! "status" /\ body !! "completed" = t !! "completed"
  end.

(** An effect that, if it is a consent flow, asks for the required scopes. *)
Definition asks_required_scopes (e : Effect) : Prop :=
  match e with
  | ConsentFlow requested => requested = SCOPES
  | _ => True
  end.

(** An effect other than a token-refresh exchange. *)
Definition is_not_refresh (e : Effect) : Prop :=
  match e with
  | RefreshExchange _ => False
  | _ => True
  end.

(** The trace of [st'] is that of [st] followed by effects that satisfy [P]. *)
Definition only_adds (P : Effect -> Prop) (st st' : State) : Prop :=
  exists effects, trace st' = trace st ++ effects /\ Forall P effects.

End Props.
Export Props.

(** ** The remaining tools: formatting, listing, creating, deleting *)

Module Listing.

(** A request as the client library builds it: a call of the method [list]
    of [svc.events()] is resource [events], method [list] and the keyword
    arguments it is given. *)
Record Request : Type := mkRequest {
  resource : string;
  method : string;
  kwargs : gmap string pyval
}.

(** [sep.join(parts)] *)
Fixpoint join (sep : string) (parts : list string) : string :=
  match parts with
  | [] => ""
  | p :: rest =>
      match rest with
      | [] => p
      | _ :: _ => p +:+ sep +:+ join sep rest
      end
  end.

(** A loop or generator that applies [f] to each element in turn and stops
    at the first exception. *)
Fixpoint for_each {A B : Type} (f : A -> result B) (l : list A) : result (list B) :=
  match l with
  | [] => Return []
  | x :: rest =>
      let? y := f x in
      let? ys := for_each f rest in
      Return (y :: ys)
  end.

(** The first [n] characters of [s]: [s[:n]].  A byte that begins a
    character is taken while characters are left to take, and the bytes
    that continue a character go with it. *)
Fixpoint take_chars (n : nat) (s : string) : string :=
  match s with
  | EmptyString => ""
  | String c s' =>
      if is_continuation c then String c (take_chars n s')
      else
        match n with
        | O => ""
        | S n' => String c (take_chars n' s')
        end
  end.

(** [if v:] on an optional string: given and not empty. *)
Definition nonempty (v : option string) : option string :=
  match v with
  | Some s => if truthy (PyStr s) then Some s else None
  | None => None
  end.

(** [if v:] on an optional list: given and not empty. *)
Definition nonempty_list {A : Type} (v : option (list A)) : option (list A) :=
  match v with
  | Some (x :: l) => Some (x :: l)
  | _ => None
  end.

(** Lines 173 to 176 of [get_events] and 340 to 343 of [freebusy]: a bare
    date is made the start of that day in UTC. *)
Definition normalize_time (t : string) : string :=
  if is_date_only t then t +:+ "T00:00:00Z" else t.

(** [t.strftime('%Y%m%d%H%M%S')] *)
Definition strftime_compact (t : datetime) : string :=
  let '(y, m, d) := civil_from_days (t `div` us_per_day) in
  let secs := (t `mod` us_per_day) `div` us_per_second in
  padded 4 y +:+ padded 2 m +:+ padded 2 d +:+
  padded 2 (secs `div` 3600) +:+ padded 2 ((secs `div` 60) `mod` 60) +:+
  padded 2 (secs `mod` 60).

(** *** _fmt_event *)

Definition _fmt_event (env : Env) (ev : pyval) : result string :=
  let? start := py_get ev "start" (PyDict ∅) in
  let? end_ := py_get ev "end" (PyDict ∅) in
  let? s_date := py_get start "date" (PyStr "?") in
  let? s := py_get start "dateTime" s_date in
  let? e_date := py_get end_ "date" (PyStr "?") in
  let? e := py_get end_ "dateTime" e_date in
  let? summary := py_get ev "summary" (PyStr "(no title)") in
  let? eid := py_get ev "id" (PyStr "") in
  let? link := py_get ev "htmlLink" (PyStr "") in
  let parts := [ "- " +:+ py_str env summary;
                 "  Start: " +:+ py_str env s;
                 "  End: " +:+ py_str env e;
                 "  ID: " +:+ py_str env eid ] in
  let parts := if truthy link then parts ++ ["  Link: " +:+ py_str env link] else parts in
  let? loc := py_get ev "location" PyNone in
  let parts := if truthy loc then parts ++ ["  Location: " +:+ py_str env loc] else parts in
  Return (join nl parts).

(** *** _fmt_task *)

(** A double quote. *)
Definition dq : string := String (Ascii.ascii_of_nat 34) EmptyString.

(** [len(v)] *)
Definition py_len (v : pyval) : result nat :=
  match v with
  | PyStr s => Return (str_len s)
  | PyList l => Return (length l)
  | PyDict d => Return (size d)
  | _ => Raise (Exception TypeError
                  ("object of type '" +:+ type_name v +:+ "' has no len()"))
  end.

(** [notes[:200] + "..."].  Only a string can be sliced and joined to a
    string; a list raises at the [+], and a dictionary at the slice (with
    [TypeError] up to Python 3.11, which is what is given here). *)
Definition py_head_with_dots (v : pyval) : result pyval :=
  match v with
  | PyStr s => Return (PyStr (take_chars 200 s +:+ "..."))
  | PyList _ =>
      Raise (Exception TypeError
               ("can only concatenate list (not " +:+ dq +:+ "str" +:+ dq +:+ ") to list"))
  | PyDict _ => Raise (Exception TypeError "unhashable type: 'slice'")
  | _ => Raise (Exception TypeError
                  ("'" +:+ type_name v +:+ "' object is not subscriptable"))
  end.

(** [notes[:200] + "..." if len(notes) > 200 else notes] *)
Definition notes_preview (notes : pyval) : result pyval :=
  let? n := py_len notes in
  if (200 <? n)%nat then py_head_with_dots notes else Return notes.

Definition _fmt_task (env : Env) (t : pyval) : result string :=
  let? title := py_get t "title" (PyStr "(no title)") in
  let? status := py_get t "status" (PyStr "?") in
  let? tid := py_get t "id" (PyStr "") in
  let? due := py_get t "due" PyNone in
  let? notes := py_get t "notes" PyNone in
  let parts := [ "- [" +:+ py_str env status +:+ "] " +:+ py_str env title;
                 "  ID: " +:+ py_str env tid ] in
  let parts := if truthy due then parts ++ ["  Due: " +:+ py_str env due] else parts in
  let? parts :=
    if truthy notes then
      let? preview := notes_preview notes in
      Return (parts ++ ["  Notes: " +:+ py_str env preview])
    else Return parts in
  Return (join nl parts).

(** *** Requests and result texts of the remaining tools *)

(** [result.get("items", [])] *)
Definition items_of (response : pyval) : result pyval :=
  py_get response "items" (PyList []).

(** One entry of [list_calendars]. *)
Definition calendar_line (env : Env) (cal : pyval) : result string :=
  let? primary := py_get cal "primary" PyNone in
  let marker := if truthy primary then " (primary)" else "" in
  let? summary := py_get cal "summary" (PyStr "?") in
  let? cid := py_get cal "id" (PyStr "?") in
  Return ("- " +:+ py_str env summary +:+ marker +:+ nl +:+ "  ID: " +:+ py_str env cid).

(** Lines 144 to 151 of [list_calendars]. *)
Definition list_calendars_text (env : Env) (response : pyval) : result string :=
  let? items := items_of response in
  if negb (truthy items) then Return "No calendars found."
  else
    let? cals := py_list items in
    let? lines := for_each (calendar_line env) cals in
    Return (join nl lines).

(** Lines 173 to 187 of [get_events]: the keyword arguments of the listing. *)
Record GetEventsArgs : Type := {
  ge_time_min : string;
  ge_time_max : string;
  ge_calendar_id : string;
  ge_query : option string;
  ge_max_results : Z
}.

Definition get_events_kwargs (a : GetEventsArgs) : gmap string pyval :=
  let kwargs : gmap string pyval :=
    <["calendarId" := PyStr (ge_calendar_id a)]>
    (<["timeMin" := PyStr (normalize_time (ge_time_min a))]>
    (<["timeMax" := PyStr (normalize_time (ge_time_max a))]>
    (<["maxResults" := PyInt (ge_max_results a)]>
    (<["singleEvents" := PyBool true]>
    (<["orderBy" := PyStr "startTime"]> ∅))))) in
  match nonempty (ge_query a) with
  | Some q => <["q" := PyStr q]> kwargs
  | None => kwargs
  end.

(** Lines 190 to 193 of [get_events]. *)
Definition get_events_text (env : Env) (response : pyval) : result string :=
  let? items := items_of response in
  if negb (truthy items) then Return "No events found in the specified range."
  else
    let? evs := py_list items in
    let? blocks := for_each (_fmt_event env) evs in
    Return (join (nl +:+ nl) blocks).

Record CreateEventArgs : Type := {
  ce_summary : string;
  ce_start : string;
  ce_end : string;
  ce_description : option string;
  ce_location : option string;
  ce_attendees : option (list string);
  ce_timezone : option string;
  ce_add_meet : bool;
  ce_calendar_id : string
}.

(** [{"dateTime": t}], with [timeZone] when a non-empty zone is given. *)
Definition date_time_object (t : string) (timezone : option string) : pyval :=
  match nonempty timezone with
  | Some tz => PyDict (<["timeZone" := PyStr tz]> {[ "dateTime" := PyStr t ]})
  | None => PyDict {[ "dateTime" := PyStr t ]}
  end.

(** Lines 222 to 245 of [create_event]: the event sent; [now] is
    [datetime.now(timezone.utc)]. *)
Definition create_event_data (now : datetime) (a : CreateEventArgs)
  : gmap string pyval :=
  let is_allday := is_date_only (ce_start a) in
  let body : gmap string pyval := {[ "summary" := PyStr (ce_summary a) ]} in
  let body :=
    if is_allday then
      <["end" := PyDict {[ "date" := PyStr (ce_end a) ]}]>
        (<["start" := PyDict {[ "date" := PyStr (ce_start a) ]}]> body)
    else
      <["end" := date_time_object (ce_end a) (ce_timezone a)]>
        (<["start" := date_time_object (ce_start a) (ce_timezone a)]> body) in
  let body :=
    match nonempty (ce_description a) with
    | Some d => <["description" := PyStr d]> body
    | None => body
    end in
  let body :=
    match nonempty (ce_location a) with
    | Some l => <["location" := PyStr l]> body
    | None => body
    end in
  let body :=
    match nonempty_list (ce_attendees a) with
    | Some l => <["attendees" := PyList (attendee <$> l)]> body
    | None => body
    end in
  if ce_add_meet a then
    <["conferenceData" :=
        PyDict {[ "createRequest" :=
                    PyDict {[ "requestId" := PyStr ("meet-" +:+ strftime_compact now) ]} ]}]>
      body
  else body.

(** Lines 247 to 249 of [create_event]. *)
Definition create_event_kwargs (now : datetime) (a : CreateEventArgs)
  : gmap string pyval :=
  let kwargs : gmap string pyval :=
    <["calendarId" := PyStr (ce_calendar_id a)]>
    {[ "body" := PyDict (create_event_data now a) ]} in
  if ce_add_meet a then <["conferenceDataVersion" := PyInt 1]> kwargs else kwargs.

(** Line 252 of [create_event]. *)
Definition create_event_text (env : Env) (ev : pyval) : result string :=
  let? summary := py_get ev "summary" PyNone in
  let? link := py_get ev "htmlLink" PyNone in
  let? eid := py_get ev "id" PyNone in
  Return ("Event created: " +:+ py_str env summary +:+ nl +:+
          "Link: " +:+ py_str env link +:+ nl +:+ "ID: " +:+ py_str env eid).

(** Lines 340 to 350 of [freebusy]: the query sent.  (The text made of the
    answer walks a dictionary in insertion order, which the value model
    does not keep, and is not modelled.) *)
Definition freebusy_body (time_min time_max : string) (calendar_ids : option (list string))
  : gmap string pyval :=
  let ids := match nonempty_list calendar_ids with
             | Some l => l
             | None => ["primary"]
             end in
  <["timeMin" := PyStr (normalize_time time_min)]>
  (<["timeMax" := PyStr (normalize_time time_max)]>
  {[ "items" := PyList ((fun cid => PyDict {[ "id" := PyStr cid ]}) <$> ids) ]}).

(** One entry of [list_task_lists]. *)
Definition task_list_line (env : Env) (tl : pyval) : result string :=
  let? title := py_get tl "title" (PyStr "?") in
  let? lid := py_get tl "id" (PyStr "?") in
  Return ("- " +:+ py_str env title +:+ nl +:+ "  ID: " +:+ py_str env lid).

(** Lines 374 to 380 of [list_task_lists]. *)
Definition list_task_lists_text (env : Env) (response : pyval) : result string :=
  let? items := items_of response in
  if negb (truthy items) then Return "No task lists found."
  else
    let? lists := py_list items in
    let? lines := for_each (task_list_line env) lists in
    Return (join nl lines).

Record ListTasksArgs : Type := {
  lt_task_list_id : string;
  lt_max_results : Z;
  lt_show_completed : bool;
  lt_show_hidden : bool;
  lt_due_max : option string;
  lt_due_min : option string
}.

(** Lines 403 to 412 of [list_tasks]. *)
Definition list_tasks_kwargs (a : ListTasksArgs) : gmap string pyval :=
  let kwargs : gmap string pyval :=
    <["tasklist" := PyStr (lt_task_list_id a)]>
    (<["maxResults" := PyInt (lt_max_results a)]>
    (<["showCompleted" := PyBool (lt_show_completed a)]>
    (<["showHidden" := PyBool (lt_show_hidden a)]> ∅))) in
  let kwargs :=
    match nonempty (lt_due_max a) with
    | Some d => <["dueMax" := PyStr d]> kwargs
    | None => kwargs
    end in
  match nonempty (lt_due_min a) with
  | Some d => <["dueMin" := PyStr d]> kwargs
  | None => kwargs
  end.

(** Lines 415 to 418 of [list_tasks]. *)
Definition list_tasks_text (env : Env) (response : pyval) : result string :=
  let? items := items_of response in
  if negb (truthy items) then Return "No tasks found."
  else
    let? ts := py_list items in
    let? blocks := for_each (_fmt_task env) ts in
    Return (join (nl +:+ nl) blocks).

(** A line of [get_task] that is printed only when the field is truthy:
    [if t.get(key): parts.append(f"{label}: {t[key]}")]. *)
Definition optional_line (env : Env) (t : pyval) (key label : string)
    (parts : list string) : result (list string) :=
  let? v := py_get t key PyNone in
  Return (if truthy v then parts ++ [label +:+ ": " +:+ py_str env v] else parts).

(** Lines 431 to 444 of [get_task]. *)
Definition get_task_text (env : Env) (t : pyval) : result string :=
  let? title := py_get t "title" (PyStr "?") in
  let? status := py_get t "status" (PyStr "?") in
  let? tid := py_get t "id" (PyStr "?") in
  let parts := [ "Title: " +:+ py_str env title;
                 "Status: " +:+ py_str env status;
                 "ID: " +:+ py_str env tid ] in
  let? parts := optional_line env t "due" "Due" parts in
  let? parts := optional_line env t "notes" "Notes" parts in
  let? parts := optional_line env t "completed" "Completed" parts in
  let? parts := optional_line env t "parent" "Parent" parts in
  Return (join nl parts).

Record CreateTaskArgs : Type := {
  ct_task_list_id : string;
  ct_title : string;
  ct_notes : option string;
  ct_due : option string;
  ct_parent : option string
}.

(** Lines 465 to 469 of [create_task]: the task sent. *)
Definition create_task_data (a : CreateTaskArgs) : gmap string pyval :=
  let body : gmap string pyval := {[ "title" := PyStr (ct_title a) ]} in
  let body :=
    match nonempty (ct_notes a) with
    | Some n => <["notes" := PyStr n]> body
    | None => body
    end in
  match nonempty (ct_due a) with
  | Some d => <["due" := PyStr d]> body
  | None => body
  end.

(** Lines 471 to 473 of [create_task]. *)
Definition create_task_kwargs (a : CreateTaskArgs) : gmap string pyval :=
  let kwargs : gmap string pyval :=
    <["tasklist" := PyStr (ct_task_list_id a)]>
    {[ "body" := PyDict (create_task_data a) ]} in
  match nonempty (ct_parent a) with
  | Some p => <["parent" := PyStr p]> kwargs
  | None => kwargs
  end.

(** Line 476 of [create_task]. *)
Definition create_task_text (env : Env) (t : pyval) : result string :=
  let? title := py_get t "title" PyNone in
  let? tid := py_get t "id" PyNone in
  Return ("Task created: " +:+ py_str env title +:+ nl +:+ "ID: " +:+ py_str env tid).

(** The two arguments of [get_task] and of [delete_task]. *)
Record TaskRef : Type := {
  tr_task_list_id : string;
  tr_task_id : string
}.

(** The keyword arguments of [tasks().get] and [tasks().delete]. *)
Definition task_ref_kwargs (a : TaskRef) : gmap string pyval :=
  <["tasklist" := PyStr (tr_task_list_id a)]> {[ "task" := PyStr (tr_task_id a) ]}.

(** *** The requests of the tools *)

Definition list_calendars_request : Request :=
  {| resource := "calendarList"; method := "list"; kwargs := ∅ |}.

Definition get_events_request (a : GetEventsArgs) : Request :=
  {| resource := "events"; method := "list"; kwargs := get_events_kwargs a |}.

Definition create_event_request (now : datetime) (a : CreateEventArgs) : Request :=
  {| resource := "events"; method := "insert"; kwargs := create_event_kwargs now a |}.

Definition list_task_lists_request : Request :=
  {| resource := "tasklists"; method := "list";
     kwargs := {[ "maxResults" := PyInt 100 ]} |}.

Definition list_tasks_request (a : ListTasksArgs) : Request :=
  {| resource := "tasks"; method := "list"; kwargs := list_tasks_kwargs a |}.

Definition get_task_request (a : TaskRef) : Request :=
  {| resource := "tasks"; method := "get"; kwargs := task_ref_kwargs a |}.

Definition create_task_request (a : CreateTaskArgs) : Request :=
  {| resource := "tasks"; method := "insert"; kwargs := create_task_kwargs a |}.

Definition delete_task_request (a : TaskRef) : Request :=
  {| resource := "tasks"; method := "delete"; kwargs := task_ref_kwargs a |}.

(** *** The tools, over a service that answers their requests *)

Section Answered.

(** What [.execute()] returns (or raises) for a request built from a
    handle. *)
Context (answers : Service -> Request -> result pyval).

Definition call (svc : Service) (req : Request) : M pyval :=
  lift (answers svc req).

Definition list_calendars_body (_ : unit) : M string :=
  svc <- _calendar ;;
  response <- call svc list_calendars_request ;;
  env <- ask ;;
  lift (list_calendars_text env response).

Definition list_calendars : unit -> M string :=
  _api_error_handler list_calendars_body.

Definition get_events_body (a : GetEventsArgs) : M string :=
  svc <- _calendar ;;
  response <- call svc (get_events_request a) ;;
  env <- ask ;;
  lift (get_events_text env response).

Definition get_events : GetEventsArgs -> M string :=
  _api_error_handler get_events_body.

Definition create_event_body (a : CreateEventArgs) : M string :=
  env <- ask ;;
  svc <- _calendar ;;
  ev <- call svc (create_event_request (utcnow env) a) ;;
  lift (create_event_text env ev).

Definition create_event : CreateEventArgs -> M string :=
  _api_error_handler create_event_body.

Definition list_task_lists_body (_ : unit) : M string :=
  svc <- _tasks ;;
  response <- call svc list_task_lists_request ;;
  env <- ask ;;
  lift (list_task_lists_text env response).

Definition list_task_lists : unit -> M string :=
  _api_error_handler list_task_lists_body.

Definition list_tasks_body (a : ListTasksArgs) : M string :=
  svc <- _tasks ;;
  response <- call svc (list_tasks_request a) ;;
  env <- ask ;;
  lift (list_tasks_text env response).

Definition list_tasks : ListTasksArgs -> M string :=
  _api_error_handler list_tasks_body.

Definition get_task_body (a : TaskRef) : M string :=
  svc <- _tasks ;;
  t <- call svc (get_task_request a) ;;
  env <- ask ;;
  lift (get_task_text env t).

Definition get_task : TaskRef -> M string :=
  _api_error_handler get_task_body.

Definition create_task_body (a : CreateTaskArgs) : M string :=
  svc <- _tasks ;;
  t <- call svc (create_task_request a) ;;
  env <- ask ;;
  lift (create_task_text env t).

Definition create_task : CreateTaskArgs -> M string :=
  _api_error_handler create_task_body.

Definition delete_task_body (a : TaskRef) : M string :=
  svc <- _tasks ;;
  call svc (delete_task_request a) ;;
  ret ("Task " +:+ tr_task_id a +:+ " deleted.").

Definition delete_task : TaskRef -> M string :=
  _api_error_handler delete_task_body.

End Answered.

(** The shape the tools above share: obtain a handle, execute one request,
    make the text of the answer. *)
Definition one_call (answers : Service -> Request -> result pyval)
    (factory : M Service) (req : Env -> Request)
    (text : Env -> pyval -> result string) : M string :=
  fun env st =>
    match factory env st with
    | (Return svc, st1) => (rbind (answers svc (req env)) (text env), st1)
    | (Raise e, st1) => (Raise e, st1)
    end.

(** An event [_fmt_event] can print: an object whose [start] and [end], when
    present, are objects. *)
Definition printable_event (ev : pyval) : bool :=
  match ev with
  | PyDict d =>
      is_dict (default (PyDict ∅) (d !! "start")) &&
      is_dict (default (PyDict ∅) (d !! "end"))
  | _ => false
  end.

(** The time shown for [start] or [end]: its [dateTime], else its [date],
    else a question mark. *)
Definition shown_time (when : gmap string pyval) : pyval :=
  default (default (PyStr "?") (when !! "date")) (when !! "dateTime").

(** The lines [_fmt_event] prints for an event [d] whose start and end
    objects are [sd] and [ed]. *)
Definition event_lines (env : Env) (d sd ed : gmap string pyval) : list string :=
  [ "- " +:+ py_str env (default (PyStr "(no title)") (d !! "summary"));
    "  Start: " +:+ py_str env (shown_time sd);
    "  End: " +:+ py_str env (shown_time ed);
    "  ID: " +:+ py_str env (default (PyStr "") (d !! "id")) ] ++
  (if truthy (default (PyStr "") (d !! "htmlLink"))
   then ["  Link: " +:+ py_str env (default (PyStr "") (d !! "htmlLink"))] else []) ++
  (if truthy (default PyNone (d !! "location"))
   then ["  Location: " +:+ py_str env (default PyNone (d !! "location"))] else []).

(** What the adapter makes of the outcome of a tool body. *)
Definition adapted (r : result string) : result string :=
  match r with
  | Return text => Return text
  | Raise (HttpError status reason) =>
      Return ("Google API error " +:+ pretty status +:+ ": " +:+ reason)
  | Raise (Exception _ descr) => Return ("Error: " +:+ descr)
  | Raise (BaseException name descr) => Raise (BaseException name descr)
  end.

End Listing.
Export Listing.

(** ** Sample services for the remaining tools *)

Module ListingSamples.

(** A service with nothing in it: every answer is the empty object. *)
Definition empty_service (svc : Service) (req : Request) : result pyval :=
  Return (PyDict ∅).

(** A service that stores what is inserted and answers with it, under the
    id [T1]. *)
Definition echo_service (svc : Service) (req : Request) : result pyval :=
  match kwargs req !! "body" with
  | Some (PyDict body) => Return (PyDict (<["id" := PyStr "T1"]> body))
  | _ => Return (PyDict ∅)
  end.

(** A service that knows no resource. *)
Definition missing_service (svc : Service) (req : Request) : result pyval :=
  Raise (HttpError 404 "Not Found").

(** An all-day event without a link. *)
Definition holiday : gmap string pyval :=
  <["id" := PyStr "E2"]>
  (<["summary" := PyStr "Holiday"]>
  (<["start" := PyDict {[ "date" := PyStr "2026-03-02" ]}]>
  (<["end" := PyDict {[ "date" := PyStr "2026-03-03" ]}]> ∅))).

(** A service whose every listing holds the sample event and the holiday. *)
Definition two_events_service (svc : Service) (req : Request) : result pyval :=
  Return (PyDict {[ "items" := PyList [PyDict Samples.sample_event; PyDict holiday] ]}).

(** A service whose listings hold the sample event and a null. *)
Definition broken_service (svc : Service) (req : Request) : result pyval :=
  Return (PyDict {[ "items" := PyList [PyDict Samples.sample_event; PyNone] ]}).

Definition weekend : GetEventsArgs :=
  {| ge_time_min := "2026-02-28"; ge_time_max := "2026-03-01";
     ge_calendar_id := "primary"; ge_query := None; ge_max_results := 25 |}.

Definition buy_milk : CreateTaskArgs :=
  {| ct_task_list_id := "L1"; ct_title := "Buy milk"; ct_notes := None;
     ct_due := None; ct_parent := None |}.

Definition task_T1 : TaskRef := {| tr_task_list_id := "L1"; tr_task_id := "T1" |}.

(** The sample environment, over a remote service that knows no resource. *)
Definition missing_env : Env :=
  {| PROJECT_DIR := "/srv/gapi-mcp";
     client_secret_exists := true;
     utcnow := Samples.now_2026;
     REFRESH_THRESHOLD := 225 * us_per_second;
     py_repr := fun _ => "<container>";
     token_endpoint := fun c => Return c;
     consent_flow := fun _ => Return Samples.fresh_creds;
     remote := fun _ _ => Raise (HttpError 404 "Not Found") |}.

(** [n] times the text [s]. *)
Fixpoint times (n : nat) (s : string) : string :=
  match n with
  | O => ""
  | S n' => s +:+ times n' s
  end.

(** The sample task with a note of 201 accented letters, of two bytes
    each. *)
Definition long_noted_task : gmap string pyval :=
  <["notes" := PyStr (times 201 "é")]> Samples.sample_task.

(** The sample task with a note. *)
Definition noted_task : gmap string pyval :=
  <["notes" := PyStr "2% fat"]> Samples.sample_task.

(** A stand-up meeting with a video link. *)
Definition standup : CreateEventArgs :=
  {| ce_summary := "Stand-up"; ce_start := "2026-03-02T09:00:00+01:00";
     ce_end := "2026-03-02T09:15:00+01:00"; ce_description := None;
     ce_location := None; ce_attendees := Some ["a@example.org"];
     ce_timezone := Some "Europe/Amsterdam"; ce_add_meet := true;
     ce_calendar_id := "primary" |}.

End ListingSamples.

(** * Facts *)

(** ** Time stamps *)

Example isoformat_epoch : isoformat false 0 = "1970-01-01T00:00:00".
Proof. reflexivity. Qed.

Example isoformat_leap_day :
  isoformat true (1709210096 * us_per_second + 250) = "2024-02-29T12:34:56.000250+00:00".
Proof. vm_compute. reflexivity. Qed.

Example isoformat_now_2026 : isoformat false Samples.now_2026 = "2026-02-28T10:00:00".
Proof. vm_compute. reflexivity. Qed.

Example isoformat_new_year_2020 :
  isoformat false Samples.new_year_2020 = "2020-01-01T00:00:00".
Proof. vm_compute. reflexivity. Qed.

(** ** Strings *)

Lemma append_assoc (a b c : string) : (a +:+ b) +:+ c = a +:+ b +:+ c.
Proof.
  induction a as [|ch a IH]; [reflexivity|].
  change (String ch ((a +:+ b) +:+ c) = String ch (a +:+ b +:+ c)). now rewrite IH.
Qed.

Lemma append_empty_r (a : string) : a +:+ "" = a.
Proof.
  induction a as [|ch a IH]; [reflexivity|].
  change (String ch (a +:+ "") = String ch a). now rewrite IH.
Qed.

Lemma contains_inside (pre sub post : string) : contains (pre +:+ sub +:+ post) sub.
Proof. now exists pre, post. Qed.

Lemma contains_at_end (pre sub : string) : contains (pre +:+ sub) sub.
Proof. exists pre, "". now rewrite append_empty_r. Qed.

Lemma fault_text_http (status : Z) (reason text : string) :
  fault_text (HttpError status reason) text ->
  contains text (pretty status) /\ contains text reason.
Proof.
  unfold fault_text. intros ->. split; [apply contains_inside|].
  exists ("Google API error " +:+ pretty status +:+ ": "), "".
  now rewrite append_empty_r, !append_assoc.
Qed.

(** ** The credential path *)

Section AuthFacts.
Context (env : Env).

Lemma creds_of_data_dict (d : gmap string pyval) :
  creds_of_data (PyDict d) = Return (creds_of_dict d).
Proof. reflexivity. Qed.

Lemma creds_of_data_not_dict (doc : pyval) :
  is_dict doc = false ->
  creds_of_data doc =
  Raise (Exception AttributeError
           ("'" +:+ type_name doc +:+ "' object has no attribute 'get'")).
Proof. destruct doc; (reflexivity || discriminate). Qed.

Lemma creds_of_data_no_expiry (data : pyval) (c : Credentials) :
  creds_of_data data = Return c -> expiry c = None.
Proof.
  destruct data; try discriminate.
  rewrite creds_of_data_dict. intros [= <-]. reflexivity.
Qed.

(** Reading the file and parsing what was read: bytes that are not text
    are rejected by [read_text], every other content goes to [json_loads]
    as it is. *)
Lemma read_text_then {A : Type} (content : FileContent) (k : pyval -> result A) :
  rbind (read_text content) (fun text => rbind (json_loads text) k) =
  rbind (json_loads content) k.
Proof. now destruct content. Qed.

(** Whatever the file holds, the credentials read from it carry no expiry. *)
Lemma read_creds_file_no_expiry (st st' : State) (c : Credentials) :
  read_creds_file env st = (Return (Some c), st') -> expiry c = None /\ st' = st.
Proof.
  unfold read_creds_file. destruct (creds_file st) as [content|]; [|discriminate].
  rewrite read_text_then.
  destruct (json_loads content) as [data|e]; cbn; [|discriminate].
  destruct (creds_of_data data) as [c0|e] eqn:Hc; cbn; [|discriminate].
  intros [= <- <-]. split; [|reflexivity]. exact (creds_of_data_no_expiry _ _ Hc).
Qed.

Lemma never_expired_without_expiry (c : Credentials) :
  expiry c = None -> expired env c = false.
Proof. unfold expired. now intros ->. Qed.

(** A file that is a JSON object: the token decides between returning the
    credentials as read and authorizing anew; the refresh branch is not
    taken. *)
Lemma load_creds_of_object (st : State) (d : gmap string pyval) :
  creds_file st = Some (JsonText (PyDict d)) ->
  _load_creds env st =
  if is_not_None (default PyNone (d !! "token")) then (Return (creds_of_dict d), st)
  else authorize env st.
Proof.
  intros Hfile. unfold _load_creds, bind, read_creds_file. rewrite Hfile. cbn.
  unfold valid, expired. cbn. rewrite andb_true_r.
  destruct (is_not_None _); reflexivity.
Qed.

Lemma load_creds_no_file (st : State) :
  creds_file st = None -> _load_creds env st = authorize env st.
Proof.
  intros Hfile. unfold _load_creds, bind, read_creds_file. now rewrite Hfile.
Qed.

Lemma load_creds_unreadable (st : State) (content : FileContent) (e : pyexn) :
  creds_file st = Some content ->
  rbind (json_loads content) creds_of_data = Raise e ->
  _load_creds env st = (Raise e, st).
Proof.
  intros Hfile He. unfold _load_creds, bind, read_creds_file. rewrite Hfile.
  rewrite read_text_then.
  destruct (json_loads content) as [data|e0]; cbn in *.
  - now rewrite He.
  - now injection He as ->.
Qed.

Lemma authorize_without_secret (st : State) :
  client_secret_exists env = false ->
  authorize env st =
  (Raise (Exception RuntimeError
            ("No credentials and no client_secret.json at " +:+ CLIENT_SECRET env)), st).
Proof. intros Hs. unfold authorize, bind, ask. now rewrite Hs. Qed.

End AuthFacts.

(** ** The error adapter *)

Section AdapterFacts.
Context {A : Type} (func : A -> M string) (a : A) (env : Env) (st st' : State).

Lemma handler_passes_text (text : string) :
  func a env st = (Return text, st') ->
  _api_error_handler func a env st = (Return text, st').
Proof. unfold _api_error_handler. now intros ->. Qed.

Lemma handler_turns_fault_into_text (e : pyexn) :
  func a env st = (Raise e, st') -> is_Exception e = true ->
  exists text, _api_error_handler func a env st = (Return text, st') /\ fault_text e text.
Proof.
  unfold _api_error_handler. intros -> He.
  destruct e as [status reason|cls descr|name descr]; [| |discriminate];
    (eexists; split; reflexivity).
Qed.

Lemma handler_raises_no_fault (e : pyexn) :
  _api_error_handler func a env st = (Raise e, st') -> is_Exception e = false.
Proof.
  unfold _api_error_handler.
  destruct (func a env st) as [[text|[status reason|cls descr|name descr]] st0];
    intros [= <- _]; reflexivity || discriminate.
Qed.

End AdapterFacts.

Lemma delete_event_remote_fault (env : Env) (st st1 : State) (a : DeleteEventArgs)
    (svc : Service) (e : pyexn) :
  _calendar env st = (Return svc, st1) ->
  remote env svc (EventsDelete (de_calendar_id a) (de_event_id a)) = Raise e ->
  delete_event_body a env st =
  (Raise e, {| creds_file := creds_file st1;
               trace := trace st1 ++
                 [RemoteCall svc (EventsDelete (de_calendar_id a) (de_event_id a))] |}).
Proof.
  intros Hcal Hrem. unfold delete_event_body, bind at 1. rewrite Hcal.
  unfold execute, bind, emit, ask, lift. cbn. now rewrite Hrem.
Qed.

(** * The claims *)

(** C1. The error adapter turns every fault into text: for any wrapped
    operation, a fault raised inside it (an instance of [Exception]) gives a
    returned text, with status and reason for a remote-service fault and
    [Error: <description>] for any other; a returned text is passed on; no
    fault leaves the wrapper.  In particular, when the remote service
    answers [delete_event] with status 404 and reason [Not Found], the tool
    returns a text containing both. *)
Theorem error_adapter_returns_text :
  (forall (A : Type) (func : A -> M string) (a : A) (env : Env) (st st' : State)
          (e : pyexn),
      func a env st = (Raise e, st') -> is_Exception e = true ->
      exists text, _api_error_handler func a env st = (Return text, st') /\
                   fault_text e text) /\
  (forall (A : Type) (func : A -> M string) (a : A) (env : Env) (st st' : State)
          (text : string),
      func a env st = (Return text, st') ->
      _api_error_handler func a env st = (Return text, st')) /\
  (forall (A : Type) (func : A -> M string) (a : A) (env : Env) (st st' : State)
          (e : pyexn),
      _api_error_handler func a env st = (Raise e, st') -> is_Exception e = false) /\
  (forall (env : Env) (st st1 : State) (a : DeleteEventArgs) (svc : Service),
      _calendar env st = (Return svc, st1) ->
      remote env svc (EventsDelete (de_calendar_id a) (de_event_id a)) =
        Raise (HttpError 404 "Not Found") ->
      exists text st2,
        delete_event a env st = (Return text, st2) /\
        contains text "404" /\ contains text "Not Found").
Proof.
  split; [|split; [|split]].
  - intros A func a env st st' e. apply handler_turns_fault_into_text.
  - intros A func a env st st' text. apply handler_passes_text.
  - intros A func a env st st' e. apply handler_raises_no_fault.
  - intros env st st1 a svc Hcal Hrem.
    pose proof (delete_event_remote_fault env st st1 a svc _ Hcal Hrem) as Hbody.
    destruct (handler_turns_fault_into_text delete_event_body a env st _ _ Hbody eq_refl)
      as (text & Hrun & Htext).
    exists text. eexists. split; [exact Hrun|].
    exact (fault_text_http 404 "Not Found" text Htext).
Qed.

Lemma error_adapter_returns_text_witness :
  exists text st2,
    delete_event Samples.delete_E9
      (Samples.sample_env true) (Samples.state_with (Some Samples.future_file))
      = (Return text, st2) /\
    contains text "404" /\ contains text "Not Found".
Proof.
  apply (proj2 (proj2 (proj2 error_adapter_returns_text))
           (Samples.sample_env true) (Samples.state_with (Some Samples.future_file))
           (Samples.state_with (Some Samples.future_file))
           Samples.delete_E9
           (build "calendar" "v3" (Samples.stored_creds SCOPES)));
    vm_compute; reflexivity.
Defined.

(** C5. With no credential file and no [client_secret.json], [_load_creds]
    raises the [RuntimeError] that names the missing descriptor, and leaves
    the state as it was: no refresh exchange, no consent flow, no write. *)
Theorem no_file_no_client_secret (env : Env) (st : State) :
  creds_file st = None ->
  client_secret_exists env = false ->
  _load_creds env st =
  (Raise (Exception RuntimeError
            ("No credentials and no client_secret.json at " +:+ CLIENT_SECRET env)), st).
Proof.
  intros Hfile Hsecret. rewrite (load_creds_no_file env st Hfile).
  now apply authorize_without_secret.
Qed.

Lemma no_file_no_client_secret_witness :
  _load_creds (Samples.sample_env false) (Samples.state_with None) =
  (Raise (Exception RuntimeError
            "No credentials and no client_secret.json at /srv/gapi-mcp/client_secret.json"),
   Samples.state_with None).
Proof.
  apply (no_file_no_client_secret (Samples.sample_env false) (Samples.state_with None));
    reflexivity.
Defined.

(** C3 (the code at a failing input).  A credential set with an expiry one
    hour ahead is saved and the file is loaded again: no refresh, no
    consent flow and no write happen and the token is returned as stored,
    but the credentials returned carry no expiry, since [_load_creds] never
    reads the [expiry] entry that [_save_creds] wrote. *)
Example unexpired_file_loses_expiry :
  let env := Samples.sample_env true in
  let st := Samples.state_with (Some Samples.future_file) in
  let saved := Samples.held_creds (Some (Samples.now_2026 + Samples.hour)) in
  _save_creds saved env (Samples.state_with None) =
    (Return tt, {| creds_file := Some Samples.future_file;
                   trace := [WriteCreds Samples.future_file] |}) /\
  expired env saved = false /\
  (exists c, _load_creds env st = (Return c, st) /\
             token c = token saved /\ expiry c = None) /\
  expiry saved = Some (Samples.now_2026 + Samples.hour).
Proof.
  cbv zeta. split; [vm_compute; reflexivity|]. split; [vm_compute; reflexivity|].
  split; [|reflexivity].
  exists (Samples.stored_creds SCOPES).
  split; [vm_compute; reflexivity|split; reflexivity].
Qed.

(** C4 (the code at a failing input).  A credential set that expired in
    2020 and holds a refresh token is saved and the file is loaded again at
    a later time: the stale token is returned with no refresh exchange and
    no write, although the token endpoint would have answered. *)
Example expired_file_is_not_refreshed :
  let env := Samples.sample_env true in
  let st := Samples.state_with (Some Samples.past_file) in
  let saved := Samples.held_creds (Some Samples.new_year_2020) in
  _save_creds saved env (Samples.state_with None) =
    (Return tt, {| creds_file := Some Samples.past_file;
                   trace := [WriteCreds Samples.past_file] |}) /\
  expired env saved = true /\
  truthy (refresh_token saved) = true /\
  (exists c', token_endpoint env saved = Return c') /\
  _load_creds env st = (Return (Samples.stored_creds SCOPES), st) /\
  trace st = [] /\
  token (Samples.stored_creds SCOPES) = Samples.stored_token.
Proof.
  cbv zeta. split; [vm_compute; reflexivity|]. split; [vm_compute; reflexivity|].
  split; [reflexivity|]. split; [eexists; reflexivity|].
  split; [vm_compute; reflexivity|]. split; reflexivity.
Qed.

(** ** What the credential path adds to the trace *)

Section TraceFacts.
Context (P : Effect -> Prop).

Lemma only_adds_refl (st : State) : only_adds P st st.
Proof. exists []. split; [now rewrite app_nil_r | constructor]. Qed.

Lemma only_adds_trans (st1 st2 st3 : State) :
  only_adds P st1 st2 -> only_adds P st2 st3 -> only_adds P st1 st3.
Proof.
  intros (e1 & H1 & F1) (e2 & H2 & F2). exists (e1 ++ e2). split.
  - now rewrite H2, H1, app_assoc.
  - now apply Forall_app.
Qed.

Lemma only_adds_one (st : State) (e : Effect) (content : option FileContent) :
  P e -> only_adds P st {| creds_file := content; trace := trace st ++ [e] |}.
Proof. intros He. exists [e]. split; [reflexivity | now repeat constructor]. Qed.

End TraceFacts.

Lemma save_creds_adds_writes (P : Effect -> Prop) (env : Env) (st st' : State)
    (c : Credentials) (r : result unit) :
  (forall content, P (WriteCreds content)) ->
  _save_creds c env st = (r, st') -> only_adds P st st'.
Proof.
  intros HP. unfold _save_creds, bind, lift, write_text.
  destruct (py_list _) as [l|e]; intros [= _ <-].
  - now apply only_adds_one.
  - apply only_adds_refl.
Qed.

Lemma authorize_effects (P : Effect -> Prop) (env : Env) (st st' : State)
    (r : result Credentials) :
  P (ConsentFlow SCOPES) -> (forall content, P (WriteCreds content)) ->
  authorize env st = (r, st') -> only_adds P st st'.
Proof.
  intros Hflow Hwrite. unfold authorize, bind, ask, emit, lift, raise, ret.
  destruct (client_secret_exists env); [|intros [= _ <-]; apply only_adds_refl].
  destruct (consent_flow env SCOPES) as [c|e].
  - destruct (_save_creds c env _) as [[[]|e] st2] eqn:Hsave; intros [= _ <-];
      (eapply only_adds_trans;
       [apply (only_adds_one _ st (ConsentFlow SCOPES)); exact Hflow
       |eapply save_creds_adds_writes; [exact Hwrite|exact Hsave]]).
  - intros [= _ <-]. now apply only_adds_one.
Qed.

(** Whatever the file holds, [_load_creds] adds to the trace at most a
    consent flow asking for [SCOPES] and writes of the credential file. *)
Lemma load_creds_effects (P : Effect -> Prop) (env : Env) (st st' : State)
    (r : result Credentials) :
  P (ConsentFlow SCOPES) -> (forall content, P (WriteCreds content)) ->
  _load_creds env st = (r, st') -> only_adds P st st'.
Proof.
  intros Hflow Hwrite.
  destruct (creds_file st) as [content|] eqn:Hfile.
  - destruct (json_loads content) as [data|e] eqn:Hjson.
    + destruct (creds_of_data data) as [c|e] eqn:Hdata.
      * destruct data; try discriminate.
        destruct content as [doc|raw msg|msg]; [|discriminate|discriminate].
        injection Hjson as ->.
        rewrite (load_creds_of_object env st d Hfile).
        destruct (is_not_None _).
        -- intros [= _ <-]. apply only_adds_refl.
        -- now apply authorize_effects.
      * rewrite (load_creds_unreadable env st content e Hfile)
          by (now rewrite Hjson).
        intros [= _ <-]. apply only_adds_refl.
    + rewrite (load_creds_unreadable env st content e Hfile)
        by (now rewrite Hjson).
      intros [= _ <-]. apply only_adds_refl.
  - rewrite (load_creds_no_file env st Hfile). now apply authorize_effects.
Qed.

Lemma load_creds_asks_required_scopes (env : Env) (st st' : State)
    (r : result Credentials) :
  _load_creds env st = (r, st') -> only_adds asks_required_scopes st st'.
Proof. apply load_creds_effects; [reflexivity | now intros]. Qed.

(** C6 (counterexample).  A file that grants the calendar scope only is
    returned as it is: the tasks scope is missing from the credentials
    returned, and no consent flow was started. *)
Lemma narrow_scopes_are_returned :
  exists c,
    _load_creds (Samples.sample_env true) (Samples.state_with (Some Samples.narrow_file)) =
      (Return c, Samples.state_with (Some Samples.narrow_file)) /\
    scopes c = PyList [PyStr "https://www.googleapis.com/auth/calendar"] /\
    ("https://www.googleapis.com/auth/tasks" ∈ SCOPES) /\
    (PyStr "https://www.googleapis.com/auth/tasks"
       ∉ [PyStr "https://www.googleapis.com/auth/calendar"]) /\
    trace (Samples.state_with (Some Samples.narrow_file)) = [].
Proof.
  exists (Samples.stored_creds ["https://www.googleapis.com/auth/calendar"]).
  split; [vm_compute; reflexivity|]. split; [reflexivity|].
  split; [unfold SCOPES; set_solver|]. split; [|reflexivity].
  intros [=]%list_elem_of_singleton.
Qed.

(** C6 (amended).  No scope check is made on a loaded credential set: when
    the file is a JSON object with a token and no [expiry] entry,
    [_load_creds] returns the credential set as stored, with the scope list
    stored in the file whatever it holds (the three required scopes when
    the file has no [scopes] entry), and the state is untouched.  The
    required scopes are what every consent flow that [_load_creds] starts
    asks for.  (A file with an [expiry] entry is the matter of C3 and
    C4.) *)
Theorem loaded_scopes_are_not_checked :
  (forall (env : Env) (st : State) (d : gmap string pyval),
      creds_file st = Some (JsonText (PyDict d)) ->
      is_not_None (default PyNone (d !! "token")) = true ->
      d !! "expiry" = None ->
      exists c, _load_creds env st = (Return c, st) /\
                scopes c = default (PyList (PyStr <$> SCOPES)) (d !! "scopes") /\
                token c = default PyNone (d !! "token") /\
                refresh_token c = default PyNone (d !! "refresh_token") /\
                expiry c = None) /\
  (forall (env : Env) (st st' : State) (r : result Credentials),
      _load_creds env st = (r, st') -> only_adds asks_required_scopes st st').
Proof.
  split.
  - intros env st d Hfile Htoken _. exists (creds_of_dict d).
    rewrite (load_creds_of_object env st d Hfile), Htoken.
    split; [reflexivity|]. split; [reflexivity|]. split; [reflexivity|].
    split; reflexivity.
  - apply load_creds_asks_required_scopes.
Qed.

Lemma loaded_scopes_are_not_checked_witness :
  exists c,
    _load_creds (Samples.sample_env true) (Samples.state_with (Some Samples.narrow_file)) =
      (Return c, Samples.state_with (Some Samples.narrow_file)) /\
    scopes c =
      default (PyList (PyStr <$> SCOPES))
        (Samples.creds_doc ["https://www.googleapis.com/auth/calendar"] None !! "scopes") /\
    token c =
      default PyNone
        (Samples.creds_doc ["https://www.googleapis.com/auth/calendar"] None !! "token") /\
    refresh_token c =
      default PyNone
        (Samples.creds_doc ["https://www.googleapis.com/auth/calendar"] None
           !! "refresh_token") /\
    expiry c = None.
Proof.
  apply (proj1 loaded_scopes_are_not_checked (Samples.sample_env true)
           (Samples.state_with (Some Samples.narrow_file))
           (Samples.creds_doc ["https://www.googleapis.com/auth/calendar"] None));
    vm_compute; reflexivity.
Defined.

(** ** Faults of the credential path reach the tools *)

Section AuthFaults.
Context (env : Env) (st st' : State) (e : pyexn).
Hypothesis Hload : _load_creds env st = (Raise e, st').

Lemma calendar_raises : _calendar env st = (Raise e, st').
Proof using Hload. unfold _calendar, bind. now rewrite Hload. Qed.

Lemma tasks_raises : _tasks env st = (Raise e, st').
Proof using Hload. unfold _tasks, bind. now rewrite Hload. Qed.

Lemma delete_event_body_raises (a : DeleteEventArgs) :
  delete_event_body a env st = (Raise e, st').
Proof using Hload. unfold delete_event_body, bind at 1. now rewrite calendar_raises. Qed.

Lemma modify_event_body_raises (a : ModifyEventArgs) :
  modify_event_body a env st = (Raise e, st').
Proof using Hload. unfold modify_event_body, bind at 1. now rewrite calendar_raises. Qed.

Lemma update_task_body_raises (a : UpdateTaskArgs) :
  update_task_body a env st = (Raise e, st').
Proof using Hload. unfold update_task_body, bind at 1. now rewrite tasks_raises. Qed.

End AuthFaults.

Lemma load_fault_raises (env : Env) (st : State) (content : FileContent) (e : pyexn) :
  creds_file st = Some content -> load_fault content = Some e ->
  _load_creds env st = (Raise e, st).
Proof.
  intros Hfile Hfault. apply (load_creds_unreadable env st content e Hfile).
  destruct content as [doc|raw msg|msg]; cbn in *.
  - destruct (is_dict doc) eqn:Hd; [discriminate|]. injection Hfault as <-.
    now apply creds_of_data_not_dict.
  - now injection Hfault as <-.
  - now injection Hfault as <-.
Qed.

Lemma load_fault_is_fault (content : FileContent) (e : pyexn) :
  load_fault content = Some e -> exists cls descr, e = Exception cls descr.
Proof.
  destruct content as [doc|raw msg|msg]; cbn.
  - destruct (is_dict doc); [discriminate|]. intros [= <-]. eauto.
  - intros [= <-]. eauto.
  - intros [= <-]. eauto.
Qed.

(** The consent step does not look at the credential file: had the file
    been absent, it would return the same and add the same effects, and it
    would leave the same state whenever it returns credentials. *)
Lemma authorize_ignores_file (env : Env) (st : State) :
  fst (authorize env st) = fst (authorize env {| creds_file := None; trace := trace st |}) /\
  trace (snd (authorize env st)) =
    trace (snd (authorize env {| creds_file := None; trace := trace st |})) /\
  (forall c, fst (authorize env st) = Return c ->
             snd (authorize env st) =
             snd (authorize env {| creds_file := None; trace := trace st |})).
Proof.
  unfold authorize, bind, ask, emit, lift, raise, ret.
  destruct (client_secret_exists env);
    [|cbn; split; [reflexivity|]; split; [reflexivity|discriminate]].
  destruct (consent_flow env SCOPES) as [c|e]; cbn;
    [|split; [reflexivity|]; split; [reflexivity|discriminate]].
  unfold _save_creds, bind, lift, write_text.
  destruct (py_list _) as [l|e]; cbn;
    split; try reflexivity; split; try reflexivity; discriminate.
Qed.

(** C8 (counterexample).  A credential file holding the empty JSON object
    has none of the expected fields, yet reading it raises nothing and
    [_load_creds] does exactly what it does when the file is absent: it
    starts the consent flow, or complains of missing credentials when
    [client_secret.json] is absent too. *)
Lemma empty_object_is_treated_as_absent :
  load_fault Samples.empty_object_file = None /\
  _load_creds (Samples.sample_env true) (Samples.state_with (Some Samples.empty_object_file)) =
    _load_creds (Samples.sample_env true) (Samples.state_with None) /\
  (exists st', _load_creds (Samples.sample_env true)
                 (Samples.state_with (Some Samples.empty_object_file)) =
                 (Return Samples.fresh_creds, st') /\
               exists content, trace st' = [ConsentFlow SCOPES; WriteCreds content]) /\
  _load_creds (Samples.sample_env false) (Samples.state_with (Some Samples.empty_object_file)) =
    (Raise (Exception RuntimeError
              "No credentials and no client_secret.json at /srv/gapi-mcp/client_secret.json"),
     Samples.state_with (Some Samples.empty_object_file)).
Proof.
  split; [reflexivity|]. split; [vm_compute; reflexivity|].
  split; [|vm_compute; reflexivity].
  eexists. split; [vm_compute; reflexivity|]. eexists. reflexivity.
Qed.

(** C8 (amended).  When the credential file exists and its bytes are not
    text, or its text is not JSON, or is JSON but not an object,
    [_load_creds] raises ([UnicodeDecodeError], [JSONDecodeError],
    [AttributeError]) and leaves the state as it was: nothing is refreshed,
    no consent flow starts, nothing is written.  The fault reaches the
    caller of a tool as the text [Error: <description>].

    A JSON object is never rejected for its structure.  Reading it raises
    nothing: each of the six fields read is the entry of the file, or its
    default when the entry is missing.  An object with no token and no
    [expiry] entry goes on to the consent step as when the file is absent:
    the same outcome, the same effects, and the same state after
    credentials are returned. *)
Theorem unreadable_file_is_surfaced (env : Env) (st : State) :
  (forall (content : FileContent) (e : pyexn),
     creds_file st = Some content ->
     load_fault content = Some e ->
     _load_creds env st = (Raise e, st) /\
     exists text, fault_text e text /\
       (forall a, delete_event a env st = (Return text, st)) /\
       (forall a, modify_event a env st = (Return text, st)) /\
       (forall a, update_task a env st = (Return text, st))) /\
  (forall d : gmap string pyval,
     creds_file st = Some (JsonText (PyDict d)) ->
     load_fault (JsonText (PyDict d)) = None /\
     (exists c,
        read_creds_file env st = (Return (Some c), st) /\
        token c = default PyNone (d !! "token") /\
        refresh_token c = default PyNone (d !! "refresh_token") /\
        token_uri c =
          default (PyStr "https://oauth2.googleapis.com/token") (d !! "token_uri") /\
        client_id c = default PyNone (d !! "client_id") /\
        client_secret c = default PyNone (d !! "client_secret") /\
        scopes c =
          default (PyList [ PyStr "https://www.googleapis.com/auth/calendar";
                            PyStr "https://www.googleapis.com/auth/calendar.events";
                            PyStr "https://www.googleapis.com/auth/tasks" ])
                  (d !! "scopes")) /\
     (default PyNone (d !! "token") = PyNone ->
      d !! "expiry" = None ->
      fst (_load_creds env st) =
        fst (_load_creds env {| creds_file := None; trace := trace st |}) /\
      trace (snd (_load_creds env st)) =
        trace (snd (_load_creds env {| creds_file := None; trace := trace st |})) /\
      (forall c, fst (_load_creds env st) = Return c ->
                 snd (_load_creds env st) =
                 snd (_load_creds env {| creds_file := None; trace := trace st |})))).
Proof.
  split.
  - intros content e Hfile Hfault.
    pose proof (load_fault_raises env st content e Hfile Hfault) as Hload.
    split; [exact Hload|].
    destruct (load_fault_is_fault content e Hfault) as (cls & descr & ->).
    exists ("Error: " +:+ descr). split; [reflexivity|].
    split; [|split]; intros a.
    + unfold delete_event, _api_error_handler.
      now rewrite (delete_event_body_raises env st st _ Hload a).
    + unfold modify_event, _api_error_handler.
      now rewrite (modify_event_body_raises env st st _ Hload a).
    + unfold update_task, _api_error_handler.
      now rewrite (update_task_body_raises env st st _ Hload a).
  - intros d Hfile. split; [reflexivity|]. split.
    + exists (creds_of_dict d). unfold read_creds_file. rewrite Hfile.
      split; [reflexivity|]. split; [reflexivity|]. split; [reflexivity|].
      split; [reflexivity|]. split; [reflexivity|]. split; reflexivity.
    + intros Htoken _.
      rewrite (load_creds_of_object env st d Hfile), Htoken. cbn [is_not_None].
      rewrite (load_creds_no_file env {| creds_file := None; trace := trace st |} eq_refl).
      apply authorize_ignores_file.
Qed.

(** A credential file that is not text: the fault is [UnicodeDecodeError],
    raised by [read_text] before anything is parsed. *)
Example undecodable_file_is_surfaced :
  _load_creds (Samples.sample_env true) (Samples.state_with (Some Samples.binary_file)) =
    (Raise (Exception UnicodeDecodeError
              "'utf-8' codec can't decode byte 0xff in position 0: invalid start byte"),
     Samples.state_with (Some Samples.binary_file)) /\
  delete_event Samples.delete_E9 (Samples.sample_env true)
    (Samples.state_with (Some Samples.binary_file)) =
    (Return "Error: 'utf-8' codec can't decode byte 0xff in position 0: invalid start byte",
     Samples.state_with (Some Samples.binary_file)).
Proof. split; vm_compute; reflexivity. Qed.

Lemma unreadable_file_is_surfaced_witness :
  _load_creds (Samples.sample_env true) (Samples.state_with (Some Samples.truncated_file)) =
    (Raise (Exception JSONDecodeError
              "Expecting property name enclosed in double quotes: line 1 column 3 (char 2)"),
     Samples.state_with (Some Samples.truncated_file)) /\
  exists text,
    fault_text (Exception JSONDecodeError
                  "Expecting property name enclosed in double quotes: line 1 column 3 (char 2)")
      text /\
    (forall a, delete_event a (Samples.sample_env true)
                 (Samples.state_with (Some Samples.truncated_file)) =
               (Return text, Samples.state_with (Some Samples.truncated_file))) /\
    (forall a, modify_event a (Samples.sample_env true)
                 (Samples.state_with (Some Samples.truncated_file)) =
               (Return text, Samples.state_with (Some Samples.truncated_file))) /\
    (forall a, update_task a (Samples.sample_env true)
                 (Samples.state_with (Some Samples.truncated_file)) =
               (Return text, Samples.state_with (Some Samples.truncated_file))).
Proof.
  apply (proj1 (unreadable_file_is_surfaced (Samples.sample_env true)
                  (Samples.state_with (Some Samples.truncated_file)))
           Samples.truncated_file);
    reflexivity.
Defined.

(** ** Saving and reading back *)

Lemma save_creds_writes (env : Env) (st : State) (X : Credentials) (l : list pyval) :
  py_list (py_or (scopes X) (PyList (PyStr <$> SCOPES))) = Return l ->
  _save_creds X env st =
  (Return tt,
   let content :=
     json_dumps (PyDict (match expiry X with
                         | Some e => <["expiry" := PyStr (isoformat false e)]>
                                       (creds_data X l)
                         | None => creds_data X l
                         end)) in
   {| creds_file := Some content; trace := trace st ++ [WriteCreds content] |}).
Proof. intros Hl. unfold _save_creds, bind, lift. now rewrite Hl. Qed.

Lemma creds_of_saved (X : Credentials) (l : list pyval) (d : gmap string pyval) :
  d = creds_data X l \/
  (exists e, d = <["expiry" := PyStr (isoformat false e)]> (creds_data X l)) ->
  creds_of_dict d =
  {| token := token X; refresh_token := refresh_token X; token_uri := token_uri X;
     client_id := client_id X; client_secret := client_secret X;
     scopes := PyList l; expiry := None |}.
Proof.
  intros [->|[e ->]]; unfold creds_of_dict, creds_data; now simplify_map_eq.
Qed.

Lemma read_creds_file_object (env : Env) (st : State) (d : gmap string pyval) :
  creds_file st = Some (JsonText (PyDict d)) ->
  read_creds_file env st = (Return (Some (creds_of_dict d)), st).
Proof. intros Hfile. unfold read_creds_file. now rewrite Hfile. Qed.

Lemma scope_list_saved (X : Credentials) :
  scopes X = PyNone \/ (exists l, scopes X = PyList l) ->
  exists l, py_list (py_or (scopes X) (PyList (PyStr <$> SCOPES))) = Return l /\
            PyList l = py_or (scopes X) (PyList (PyStr <$> SCOPES)).
Proof.
  intros [->|[l ->]].
  - eexists. split; reflexivity.
  - unfold py_or. destruct (truthy (PyList l)); eexists; split; reflexivity.
Qed.

(** C2 (counterexample).  A credential set with an empty scope list is
    saved and read back: the scope list read is the three required
    scopes, not the empty list that was saved. *)
Lemma empty_scope_list_does_not_round_trip :
  exists st1 Y,
    _save_creds Samples.unscoped_creds (Samples.sample_env true) (Samples.state_with None) =
      (Return tt, st1) /\
    read_creds_file (Samples.sample_env true) st1 = (Return (Some Y), st1) /\
    scopes Samples.unscoped_creds = PyList [] /\
    scopes Y = PyList (PyStr <$> SCOPES) /\
    Y <> Samples.unscoped_creds.
Proof.
  eexists. eexists. split; [vm_compute; reflexivity|].
  split; [vm_compute; reflexivity|]. split; [reflexivity|]. split; [reflexivity|].
  discriminate.
Qed.

(** C2 (amended).  For every credential set whose scopes are a list or
    [None], [_save_creds] succeeds and the file it writes is read back with
    the same token, refresh token, token endpoint, client id and client
    secret; the scope list read back is the one saved when that is a
    non-empty list, and the three required scopes when it is empty or
    [None].  The file holds an [expiry] entry exactly when the credential
    set has an expiry, in ISO format. *)
Theorem save_then_read (env : Env) (st : State) (X : Credentials) :
  scopes X = PyNone \/ (exists l, scopes X = PyList l) ->
  exists st1 Y d,
    _save_creds X env st = (Return tt, st1) /\
    creds_file st1 = Some (JsonText (PyDict d)) /\
    d !! "expiry" = (fun e => PyStr (isoformat false e)) <$> expiry X /\
    read_creds_file env st1 = (Return (Some Y), st1) /\
    token Y = token X /\
    refresh_token Y = refresh_token X /\
    token_uri Y = token_uri X /\
    client_id Y = client_id X /\
    client_secret Y = client_secret X /\
    scopes Y = py_or (scopes X) (PyList (PyStr <$> SCOPES)).
Proof.
  intros Hscopes. destruct (scope_list_saved X Hscopes) as (l & Hl & Hor).
  rewrite (save_creds_writes env st X l Hl). cbv zeta.
  set (d := match expiry X with
            | Some e => <["expiry" := PyStr (isoformat false e)]> (creds_data X l)
            | None => creds_data X l
            end).
  assert (Hread : creds_of_dict d =
                  {| token := token X; refresh_token := refresh_token X;
                     token_uri := token_uri X; client_id := client_id X;
                     client_secret := client_secret X; scopes := PyList l;
                     expiry := None |}).
  { apply creds_of_saved. subst d.
    destruct (expiry X) as [e|]; [right; now exists e | now left]. }
  eexists. exists (creds_of_dict d), d.
  split; [reflexivity|]. split; [reflexivity|]. split.
  { subst d. destruct (expiry X) as [e|]; unfold creds_data; now simplify_map_eq. }
  split; [now apply read_creds_file_object|].
  rewrite Hread. repeat (split; [reflexivity|]). exact Hor.
Qed.

Lemma save_then_read_witness :
  exists st1 Y d,
    _save_creds (Samples.held_creds (Some Samples.new_year_2020))
      (Samples.sample_env true) (Samples.state_with None) = (Return tt, st1) /\
    creds_file st1 = Some (JsonText (PyDict d)) /\
    d !! "expiry" = Some (PyStr (isoformat false Samples.new_year_2020)) /\
    read_creds_file (Samples.sample_env true) st1 = (Return (Some Y), st1) /\
    token Y = Samples.stored_token /\
    refresh_token Y = PyStr "1//refresh" /\
    token_uri Y = PyStr "https://oauth2.googleapis.com/token" /\
    client_id Y = PyStr "client-id" /\
    client_secret Y = PyStr "client-secret" /\
    scopes Y = PyList (PyStr <$> SCOPES).
Proof.
  apply (save_then_read (Samples.sample_env true) (Samples.state_with None)
           (Samples.held_creds (Some Samples.new_year_2020))).
  right. eexists. reflexivity.
Defined.

(** ** The update tools *)

Lemma set_if_given_dict (key : string) (v : option pyval) (d : gmap string pyval) :
  set_if_given key v (PyDict d) = Return (PyDict (assign_if_given key v d)).
Proof. now destruct v. Qed.

Lemma set_status_dict (now : datetime) (status : option string) (d : gmap string pyval) :
  set_status now status (PyDict d) = Return (PyDict (status_assigned now status d)).
Proof.
  destruct status as [s|]; [|reflexivity]. cbn.
  destruct (String.eqb s "completed"); [reflexivity|].
  destruct (String.eqb s "needsAction"); reflexivity.
Qed.

Lemma update_task_fields_dict (now : datetime) (a : UpdateTaskArgs)
    (t : gmap string pyval) :
  update_task_fields now a (PyDict t) = Return (PyDict (task_written now a t)).
Proof.
  unfold update_task_fields, task_written.
  repeat (rewrite ?set_if_given_dict, ?set_status_dict; cbn [rbind]). reflexivity.
Qed.

Lemma modify_event_fields_dict (a : ModifyEventArgs) (ev : gmap string pyval) :
  modify_event_fields a (PyDict ev) = Return (PyDict (event_written a ev)).
Proof.
  unfold modify_event_fields, event_written.
  repeat (rewrite set_if_given_dict; cbn [rbind]). reflexivity.
Qed.

Lemma assign_if_given_same (key : string) (v : option pyval) (d : gmap string pyval) :
  field_rule v key d (assign_if_given key v d).
Proof. destruct v; cbn; [apply lookup_insert_eq | reflexivity]. Qed.

Lemma assign_if_given_other (key k : string) (v : option pyval) (d : gmap string pyval) :
  key <> k -> assign_if_given key v d !! k = d !! k.
Proof. intros Hne. destruct v; cbn; [now apply lookup_insert_ne | reflexivity]. Qed.

Lemma status_assigned_other (now : datetime) (status : option string) (k : string)
    (d : gmap string pyval) :
  k <> "status" -> k <> "completed" -> status_assigned now status d !! k = d !! k.
Proof.
  intros H1 H2. destruct status as [s|]; [|reflexivity]. cbn.
  destruct (String.eqb s "completed"); [|destruct (String.eqb s "needsAction")].
  - rewrite lookup_insert_ne by congruence. now rewrite lookup_insert_ne by congruence.
  - rewrite lookup_delete_ne by congruence. now rewrite lookup_insert_ne by congruence.
  - now rewrite lookup_insert_ne by congruence.
Qed.

Lemma status_assigned_status (now : datetime) (status : option string)
    (d : gmap string pyval) :
  field_rule (PyStr <$> status) "status" d (status_assigned now status d).
Proof.
  destruct status as [s|]; [|reflexivity]. cbn.
  destruct (String.eqb s "completed"); [|destruct (String.eqb s "needsAction")].
  - rewrite lookup_insert_ne by discriminate. apply lookup_insert_eq.
  - rewrite lookup_delete_ne by discriminate. apply lookup_insert_eq.
  - apply lookup_insert_eq.
Qed.

(** The [completed] entry after the status block. *)
Lemma status_assigned_completed (now : datetime) (status : option string)
    (d : gmap string pyval) :
  status_assigned now status d !! "completed" =
  match status with
  | Some s =>
      if String.eqb s "completed" then Some (PyStr (isoformat true now))
      else if String.eqb s "needsAction" then None
      else d !! "completed"
  | None => d !! "completed"
  end.
Proof.
  destruct status as [s|]; [|reflexivity]. cbn.
  destruct (String.eqb s "completed"); [|destruct (String.eqb s "needsAction")].
  - apply lookup_insert_eq.
  - apply lookup_delete_eq.
  - now rewrite lookup_insert_ne by discriminate.
Qed.

Lemma handler_keeps_state {A : Type} (func : A -> M string) (a : A) (env : Env)
    (st st' : State) (r : result string) :
  func a env st = (r, st') ->
  exists out, _api_error_handler func a env st = (out, st').
Proof.
  unfold _api_error_handler. intros ->.
  destruct r as [text|[status reason|cls descr|name descr]]; eauto.
Qed.

Lemma update_task_run (env : Env) (st st1 : State) (a : UpdateTaskArgs) (svc : Service)
    (t : gmap string pyval) :
  _tasks env st = (Return svc, st1) ->
  remote env svc (TasksGet (ut_task_list_id a) (ut_task_id a)) = Return (PyDict t) ->
  exists out st2,
    update_task a env st = (out, st2) /\
    trace st2 = trace st1 ++
      [ RemoteCall svc (TasksGet (ut_task_list_id a) (ut_task_id a));
        RemoteCall svc (TasksUpdate (ut_task_list_id a) (ut_task_id a)
                          (PyDict (task_written (utcnow env) a t))) ].
Proof.
  intros Htasks Hget.
  assert (exists r, update_task_body a env st =
            (r, {| creds_file := creds_file st1;
                   trace := (trace st1 ++
                     [RemoteCall svc (TasksGet (ut_task_list_id a) (ut_task_id a))]) ++
                     [RemoteCall svc (TasksUpdate (ut_task_list_id a) (ut_task_id a)
                        (PyDict (task_written (utcnow env) a t)))] |})) as [r Hbody].
  { unfold update_task_body, bind at 1. rewrite Htasks.
    unfold execute, bind, emit, ask, lift. cbn. rewrite Hget.
    rewrite update_task_fields_dict.
    destruct (remote env svc (TasksUpdate _ _ _)) as [updated|e]; [|eauto].
    destruct (py_get updated "title" PyNone); [|eauto].
    destruct (py_get updated "status" PyNone); eauto. }
  destruct (handler_keeps_state _ _ _ _ _ _ Hbody) as [out Hout].
  exists out. eexists. split; [exact Hout|]. cbn. now rewrite <- app_assoc.
Qed.

Lemma modify_event_run (env : Env) (st st1 : State) (a : ModifyEventArgs) (svc : Service)
    (ev : gmap string pyval) :
  _calendar env st = (Return svc, st1) ->
  remote env svc (EventsGet (me_calendar_id a) (me_event_id a)) = Return (PyDict ev) ->
  exists out st2,
    modify_event a env st = (out, st2) /\
    trace st2 = trace st1 ++
      [ RemoteCall svc (EventsGet (me_calendar_id a) (me_event_id a));
        RemoteCall svc (EventsUpdate (me_calendar_id a) (me_event_id a)
                          (PyDict (event_written a ev))) ].
Proof.
  intros Hcal Hget.
  assert (exists r, modify_event_body a env st =
            (r, {| creds_file := creds_file st1;
                   trace := (trace st1 ++
                     [RemoteCall svc (EventsGet (me_calendar_id a) (me_event_id a))]) ++
                     [RemoteCall svc (EventsUpdate (me_calendar_id a) (me_event_id a)
                        (PyDict (event_written a ev)))] |})) as [r Hbody].
  { unfold modify_event_body, bind at 1. rewrite Hcal.
    unfold execute, bind, emit, ask, lift. cbn. rewrite Hget.
    rewrite modify_event_fields_dict.
    destruct (remote env svc (EventsUpdate _ _ _)) as [updated|e]; [|eauto].
    destruct (py_get updated "summary" PyNone); [|eauto].
    destruct (py_get updated "htmlLink" PyNone); eauto. }
  destruct (handler_keeps_state _ _ _ _ _ _ Hbody) as [out Hout].
  exists out. eexists. split; [exact Hout|]. cbn. now rewrite <- app_assoc.
Qed.

(** ** The body written back *)

Lemma field_rule_through (v : option pyval) (key : string)
    (fetched before after body : gmap string pyval) :
  before !! key = fetched !! key ->
  field_rule v key before after ->
  body !! key = after !! key ->
  field_rule v key fetched body.
Proof. destruct v; cbn; congruence. Qed.

Ltac other_keys :=
  repeat first
    [ rewrite assign_if_given_other by congruence
    | rewrite status_assigned_other by congruence ].

(** The rule for one key, from the assignment that sets it. *)
Ltac field_by lem :=
  eapply field_rule_through; cycle 1;
  [ apply lem | now other_keys | now other_keys ].

Lemma task_written_frame (now : datetime) (a : UpdateTaskArgs) (t : gmap string pyval) :
  task_frame a t (task_written now a t).
Proof.
  unfold task_frame, task_written.
  split; [|split; [|split; [|split; [|split; [|split]]]]].
  - field_by assign_if_given_same.
  - field_by assign_if_given_same.
  - field_by status_assigned_status.
  - field_by assign_if_given_same.
  - intros k Hk. repeat (apply not_elem_of_cons in Hk as [? Hk]). now other_keys.
  - intros Hs. rewrite Hs. cbn. now other_keys.
  - intros -> -> -> ->. reflexivity.
Qed.

(** What [modify_event] stores under [attendees], [start] and [end] is
    what the data model has there. *)
Lemma attendees_are_objects (l : list string) :
  PyList (attendee <$> l) = attendee_objects l.
Proof. reflexivity. Qed.

Lemma event_time_is_time_object (t : string) (timezone : option string) :
  event_time t timezone = time_object t timezone.
Proof.
  unfold event_time, time_object, is_date_only.
  destruct (Nat.eqb (str_len t) 10); [reflexivity|].
  destruct timezone as [[|c tz]|]; reflexivity.
Qed.

Lemma event_times_are_time_objects (t : option string) (timezone : option string) :
  (fun t => time_object t timezone) <$> t = (fun t => event_time t timezone) <$> t.
Proof. destruct t; cbn; [now rewrite event_time_is_time_object | reflexivity]. Qed.

Lemma event_written_frame (a : ModifyEventArgs) (ev : gmap string pyval) :
  event_frame a ev (event_written a ev).
Proof.
  unfold event_frame, event_written. rewrite !event_times_are_time_objects.
  change (attendee_objects <$> me_attendees a) with (attendees_value <$> me_attendees a).
  split; [|split; [|split; [|split; [|split; [|split; [|split]]]]]].
  1-6: field_by assign_if_given_same.
  - intros k Hk. repeat (apply not_elem_of_cons in Hk as [? Hk]). now other_keys.
  - intros -> -> -> -> -> ->. reflexivity.
Qed.

Lemma task_written_status (now : datetime) (a : UpdateTaskArgs) (t : gmap string pyval) :
  status_rule now (ut_status a) t (task_written now a t).
Proof.
  unfold status_rule, task_written.
  pose proof (status_assigned_status now (ut_status a)
                (assign_if_given "notes" (PyStr <$> ut_notes a)
                   (assign_if_given "title" (PyStr <$> ut_title a) t))) as Hst.
  pose proof (status_assigned_completed now (ut_status a)
                (assign_if_given "notes" (PyStr <$> ut_notes a)
                   (assign_if_given "title" (PyStr <$> ut_title a) t))) as Hco.
  rewrite !(assign_if_given_other "due") by discriminate.
  destruct (ut_status a) as [s|].
  - split; [exact Hst|]. split; intros ->; exact Hco.
  - cbn [status_assigned]. split; now other_keys.
Qed.

(** C7. Partial update.  When the factory returns a handle and the remote
    service answers the fetch with a resource, [update_task] and
    [modify_event] issue the fetch and then one update whose body obeys the
    frame: a field whose parameter is omitted is as fetched, a field whose
    parameter is given holds the given value, every key without a
    parameter is as fetched, and with all of them omitted the body is the
    fetched resource.  The value held for a given text is that text; for
    given attendees, one object [{"email": address}] for each address in
    order; for a given start or end, [{"date": t}] when the text has ten
    characters and otherwise [{"dateTime": t}], with the [timeZone] when a
    non-empty one is given. *)
Theorem partial_update_frame :
  (forall (env : Env) (st st1 : State) (a : UpdateTaskArgs) (svc : Service)
          (t : gmap string pyval),
      _tasks env st = (Return svc, st1) ->
      remote env svc (TasksGet (ut_task_list_id a) (ut_task_id a)) = Return (PyDict t) ->
      exists body out st2,
        update_task a env st = (out, st2) /\
        trace st2 = trace st1 ++
          [ RemoteCall svc (TasksGet (ut_task_list_id a) (ut_task_id a));
            RemoteCall svc (TasksUpdate (ut_task_list_id a) (ut_task_id a) (PyDict body)) ] /\
        task_frame a t body) /\
  (forall (env : Env) (st st1 : State) (a : ModifyEventArgs) (svc : Service)
          (ev : gmap string pyval),
      _calendar env st = (Return svc, st1) ->
      remote env svc (EventsGet (me_calendar_id a) (me_event_id a)) = Return (PyDict ev) ->
      exists body out st2,
        modify_event a env st = (out, st2) /\
        trace st2 = trace st1 ++
          [ RemoteCall svc (EventsGet (me_calendar_id a) (me_event_id a));
            RemoteCall svc (EventsUpdate (me_calendar_id a) (me_event_id a) (PyDict body)) ] /\
        event_frame a ev body).
Proof.
  split.
  - intros env st st1 a svc t Htasks Hget.
    destruct (update_task_run env st st1 a svc t Htasks Hget) as (out & st2 & Hrun & Htr).
    exists (task_written (utcnow env) a t), out, st2.
    split; [exact Hrun|]. split; [exact Htr|]. apply task_written_frame.
  - intros env st st1 a svc ev Hcal Hget.
    destruct (modify_event_run env st st1 a svc ev Hcal Hget) as (out & st2 & Hrun & Htr).
    exists (event_written a ev), out, st2.
    split; [exact Hrun|]. split; [exact Htr|]. apply event_written_frame.
Qed.

Lemma partial_update_frame_witness :
  exists body out st2,
    modify_event Samples.move_E1 (Samples.sample_env true) Samples.ready = (out, st2) /\
    trace st2 = trace Samples.ready ++
      [ RemoteCall Samples.calendar_handle (EventsGet "primary" "E1");
        RemoteCall Samples.calendar_handle (EventsUpdate "primary" "E1" (PyDict body)) ] /\
    event_frame Samples.move_E1 Samples.sample_event body.
Proof.
  apply (proj2 partial_update_frame (Samples.sample_env true) Samples.ready Samples.ready
           Samples.move_E1 Samples.calendar_handle Samples.sample_event);
    vm_compute; reflexivity.
Defined.

(** C10. The status block of [update_task].  When the factory returns a
    handle and the remote service answers the fetch with a task, the body
    written back has: for status [completed], a [completed] entry holding
    the current UTC time in ISO format; for status [needsAction], no
    [completed] entry; and the given status under [status] in either case.
    With the status omitted, [status] and [completed] are as fetched. *)
Theorem update_task_status_block (env : Env) (st st1 : State) (a : UpdateTaskArgs)
    (svc : Service) (t : gmap string pyval) :
  _tasks env st = (Return svc, st1) ->
  remote env svc (TasksGet (ut_task_list_id a) (ut_task_id a)) = Return (PyDict t) ->
  exists body out st2,
    update_task a env st = (out, st2) /\
    trace st2 = trace st1 ++
      [ RemoteCall svc (TasksGet (ut_task_list_id a) (ut_task_id a));
        RemoteCall svc (TasksUpdate (ut_task_list_id a) (ut_task_id a) (PyDict body)) ] /\
    status_rule (utcnow env) (ut_status a) t body.
Proof.
  intros Htasks Hget.
  destruct (update_task_run env st st1 a svc t Htasks Hget) as (out & st2 & Hrun & Htr).
  exists (task_written (utcnow env) a t), out, st2.
  split; [exact Hrun|]. split; [exact Htr|]. apply task_written_status.
Qed.

Lemma update_task_status_block_witness :
  exists body out st2,
    update_task Samples.complete_T1 (Samples.sample_env true) Samples.ready = (out, st2) /\
    trace st2 = trace Samples.ready ++
      [ RemoteCall Samples.tasks_handle (TasksGet "L1" "T1");
        RemoteCall Samples.tasks_handle (TasksUpdate "L1" "T1" (PyDict body)) ] /\
    status_rule Samples.now_2026 (Some "completed") Samples.sample_task body.
Proof.
  apply (update_task_status_block (Samples.sample_env true) Samples.ready Samples.ready
           Samples.complete_T1 Samples.tasks_handle Samples.sample_task);
    vm_compute; reflexivity.
Defined.

(** ** Runs of the update tools on the sample service *)

(** Reopening task T1 with new notes: [completed] goes, [notes] and
    [status] are set, and the keys without a parameter stay. *)
Example reopen_T1_body :
  let body := task_written Samples.now_2026 Samples.reopen_T1 Samples.sample_task in
  update_task_fields Samples.now_2026 Samples.reopen_T1 (PyDict Samples.sample_task) =
    Return (PyDict body) /\
  body !! "completed" = None /\
  body !! "status" = Some (PyStr "needsAction") /\
  body !! "notes" = Some (PyStr "2%") /\
  body !! "title" = Some (PyStr "Buy milk") /\
  body !! "etag" = Some (PyStr "e-17").
Proof. cbv zeta. repeat (split; [vm_compute; reflexivity|]). vm_compute. reflexivity. Qed.

(** Completing task T1 at 2026-02-28T10:00:00 UTC. *)
Example complete_T1_body :
  task_written Samples.now_2026 Samples.complete_T1 Samples.sample_task !! "completed" =
  Some (PyStr "2026-02-28T10:00:00+00:00").
Proof. vm_compute. reflexivity. Qed.

(** Moving the end of event E1 with a time zone: [end] is replaced by the
    date-time with that zone, [attendees] by the given list, and [start]
    keeps the zone it had. *)
Example move_E1_body :
  let body := event_written Samples.move_E1 Samples.sample_event in
  body !! "end" =
    Some (PyDict (<["timeZone" := PyStr "Europe/Amsterdam"]>
                    {[ "dateTime" := PyStr "2026-03-01T10:00:00Z" ]})) /\
  body !! "attendees" = Some (PyList [PyDict {[ "email" := PyStr "a@example.org" ]}]) /\
  body !! "start" = Samples.sample_event !! "start" /\
  body !! "summary" = Some (PyStr "Review").
Proof. cbv zeta. repeat (split; [vm_compute; reflexivity|]). vm_compute. reflexivity. Qed.

(** The time zone is written only inside a given date-time [start] or
    [end]: given alone it changes nothing, and with a bare date it is left
    out. *)
Example timezone_only_with_start_or_end :
  (forall (a : ModifyEventArgs) (ev : gmap string pyval),
      me_summary a = None -> me_description a = None -> me_location a = None ->
      me_attendees a = None -> me_start a = None -> me_end a = None ->
      modify_event_fields a (PyDict ev) = Return (PyDict ev)) /\
  event_time "2026-03-01" (Some "Europe/Amsterdam") =
    PyDict {[ "date" := PyStr "2026-03-01" ]}.
Proof.
  split; [|reflexivity].
  intros a ev Hs Hd Hl Ha Hst He. rewrite modify_event_fields_dict.
  unfold event_written. now rewrite Hs, Hd, Hl, Ha, Hst, He.
Qed.

(** ** More on the credential path *)

(** X1. [_load_creds] never performs a token-refresh exchange: the
    credentials it reads from the file carry no expiry and so never count
    as expired, whatever the file holds and whatever the time. *)
Theorem load_creds_never_refreshes (env : Env) (st : State) :
  only_adds is_not_refresh st (snd (_load_creds env st)).
Proof.
  destruct (_load_creds env st) as [r st'] eqn:Hload.
  apply (load_creds_effects is_not_refresh env st st' r); [exact I | now intros | exact Hload].
Qed.

(** X2. The common case.  When the credential file is a JSON object with a
    token, whatever else it holds, [_load_creds] returns the credentials as
    read from it and leaves the state as it was: no refresh exchange, no
    consent flow, no write. *)
Theorem stored_token_is_returned_as_read (env : Env) (st : State)
    (d : gmap string pyval) :
  creds_file st = Some (JsonText (PyDict d)) ->
  is_not_None (default PyNone (d !! "token")) = true ->
  _load_creds env st = (Return (creds_of_dict d), st).
Proof.
  intros Hfile Htoken. now rewrite (load_creds_of_object env st d Hfile), Htoken.
Qed.

Lemma stored_token_is_returned_as_read_witness :
  _load_creds (Samples.sample_env false) (Samples.state_with (Some Samples.past_file)) =
  (Return (creds_of_dict
             (Samples.creds_doc SCOPES (Some (isoformat false Samples.new_year_2020)))),
   Samples.state_with (Some Samples.past_file)).
Proof.
  apply (stored_token_is_returned_as_read (Samples.sample_env false)
           (Samples.state_with (Some Samples.past_file))
           (Samples.creds_doc SCOPES (Some (isoformat false Samples.new_year_2020))));
    vm_compute; reflexivity.
Defined.

(** X3. First authorization.  With no credential file, [client_secret.json]
    present and a consent flow that returns credentials whose scopes can be
    listed, [_load_creds] runs the flow once with the required scopes,
    writes the credential file once and returns those credentials.  The
    file written is a JSON object that holds the six fields of the
    credentials, the scope list as listed, the expiry in ISO format exactly
    when the credentials have one, and nothing else. *)
Theorem absent_file_runs_consent_flow (env : Env) (st : State) (c : Credentials)
    (l : list pyval) :
  creds_file st = None ->
  client_secret_exists env = true ->
  consent_flow env SCOPES = Return c ->
  py_list (py_or (scopes c) (PyList (PyStr <$> SCOPES))) = Return l ->
  exists d,
    _load_creds env st =
      (Return c, {| creds_file := Some (JsonText (PyDict d));
                    trace := trace st ++
                      [ConsentFlow SCOPES; WriteCreds (JsonText (PyDict d))] |}) /\
    d !! "token" = Some (token c) /\
    d !! "refresh_token" = Some (refresh_token c) /\
    d !! "token_uri" = Some (token_uri c) /\
    d !! "client_id" = Some (client_id c) /\
    d !! "client_secret" = Some (client_secret c) /\
    d !! "scopes" = Some (PyList l) /\
    d !! "expiry" = (fun e => PyStr (isoformat false e)) <$> expiry c /\
    (forall k, k ∉ ["token"; "refresh_token"; "token_uri"; "client_id"; "client_secret";
                    "scopes"; "expiry"] -> d !! k = None).
Proof.
  intros Hfile Hsecret Hflow Hl.
  exists (match expiry c with
          | Some e => <["expiry" := PyStr (isoformat false e)]> (creds_data c l)
          | None => creds_data c l
          end).
  split.
  { rewrite (load_creds_no_file env st Hfile).
    unfold authorize, bind at 1, ask. rewrite Hsecret.
    unfold bind, emit, lift, ret. rewrite Hflow.
    rewrite (save_creds_writes env _ c l Hl). cbv zeta. cbn [trace creds_file].
    rewrite <- app_assoc. reflexivity. }
  unfold creds_data.
  destruct (expiry c) as [e|]; cbn [fmap option_fmap option_map];
    (repeat split; [simplify_map_eq; reflexivity ..|];
     intros k Hk; repeat (apply not_elem_of_cons in Hk as [? Hk]);
     now simplify_map_eq).
Qed.

Lemma absent_file_runs_consent_flow_witness :
  exists d,
    _load_creds (Samples.sample_env true) (Samples.state_with None) =
      (Return Samples.fresh_creds,
       {| creds_file := Some (JsonText (PyDict d));
          trace := [ConsentFlow SCOPES; WriteCreds (JsonText (PyDict d))] |}) /\
    d !! "token" = Some (PyStr "ya29.fresh") /\
    d !! "expiry" = Some (PyStr "2026-02-28T11:00:00").
Proof.
  destruct (absent_file_runs_consent_flow (Samples.sample_env true)
              (Samples.state_with None) Samples.fresh_creds (PyStr <$> SCOPES)
              eq_refl eq_refl eq_refl eq_refl)
    as (d & Hrun & Htoken & _ & _ & _ & _ & _ & Hexpiry & _).
  exists d. split; [exact Hrun|]. split; [exact Htoken|].
  rewrite Hexpiry. vm_compute. reflexivity.
Defined.

(** * The remaining tools *)

(** ** Loops, joins and containment *)

Lemma for_each_all {A B : Type} (f : A -> result B) (g : A -> B) (l : list A) :
  (forall x, x ∈ l -> f x = Return (g x)) -> for_each f l = Return (g <$> l).
Proof.
  induction l as [|x l IH]; intros Hall; [reflexivity|]. cbn.
  rewrite (Hall x) by left. cbn.
  rewrite IH by (intros y Hy; apply Hall; now right). reflexivity.
Qed.

Lemma for_each_first_failure {A B : Type} (f : A -> result B) (l : list A) (x : A)
    (e : pyexn) :
  x ∈ l -> f x = Raise e ->
  exists y e', y ∈ l /\ f y = Raise e' /\ for_each f l = Raise e'.
Proof.
  induction l as [|z l IH]; intros Hin Hx; [now apply elem_of_nil in Hin|].
  cbn. destruct (f z) as [b|e0] eqn:Hz.
  - apply elem_of_cons in Hin as [->|Hin]; [congruence|].
    destruct (IH Hin Hx) as (y & e' & Hy & Hfy & Hrest).
    exists y, e'. split; [now right|]. split; [exact Hfy|]. cbn. now rewrite Hrest.
  - exists z, e0. split; [left|]. split; [exact Hz|reflexivity].
Qed.

Lemma for_each_length {A B : Type} (f : A -> result B) (l : list A) (ys : list B) :
  for_each f l = Return ys -> length ys = length l.
Proof.
  revert ys. induction l as [|x l IH]; intros ys; cbn.
  - now intros [= <-].
  - destruct (f x) as [y|e]; cbn; [|discriminate].
    destruct (for_each f l) as [ys'|e]; cbn; [|discriminate].
    intros [= <-]. cbn. now rewrite (IH ys').
Qed.

Lemma join_cons (sep p : string) (rest : list string) :
  rest <> [] -> join sep (p :: rest) = p +:+ sep +:+ join sep rest.
Proof. destruct rest; [congruence | reflexivity]. Qed.

Lemma contains_refl (s : string) : contains s s.
Proof. exists "", "". now rewrite append_empty_r. Qed.

Lemma contains_trans (s t u : string) : contains s t -> contains t u -> contains s u.
Proof.
  intros (p1 & q1 & ->) (p2 & q2 & ->). exists (p1 +:+ p2), (q2 +:+ q1).
  now rewrite !append_assoc.
Qed.

Lemma contains_append_l (a b x : string) : contains a x -> contains (a +:+ b) x.
Proof.
  intros (p & q & ->). exists p, (q +:+ b). now rewrite !append_assoc.
Qed.

Lemma contains_append_r (a b x : string) : contains b x -> contains (a +:+ b) x.
Proof.
  intros (p & q & ->). exists (a +:+ p), q. now rewrite !append_assoc.
Qed.

Lemma contains_join (sep : string) (parts : list string) (p : string) :
  p ∈ parts -> contains (join sep parts) p.
Proof.
  induction parts as [|q parts IH]; intros Hin; [now apply elem_of_nil in Hin|].
  destruct parts as [|r parts].
  - apply list_elem_of_singleton in Hin as ->. apply contains_refl.
  - rewrite join_cons by discriminate.
    apply elem_of_cons in Hin as [->|Hin].
    + apply contains_append_l, contains_refl.
    + apply contains_append_r, contains_append_r, IH, Hin.
Qed.

(** ** One request per tool *)

Section OneCall.
Context (answers : Service -> Request -> result pyval).

Lemma one_call_run (factory : M Service) (req : Env -> Request)
    (text : Env -> pyval -> result string) (env : Env) (st st1 : State) (svc : Service) :
  factory env st = (Return svc, st1) ->
  one_call answers factory req text env st =
  (rbind (answers svc (req env)) (text env), st1).
Proof. unfold one_call. now intros ->. Qed.

Lemma one_call_no_handle (factory : M Service) (req : Env -> Request)
    (text : Env -> pyval -> result string) (env : Env) (st st1 : State) (e : pyexn) :
  factory env st = (Raise e, st1) ->
  one_call answers factory req text env st = (Raise e, st1).
Proof. unfold one_call. now intros ->. Qed.

Ltac shape :=
  intros; unfold one_call, bind, call, lift, ask, ret;
  repeat match goal with
         | |- context [match ?c ?env ?st with _ => _ end] =>
             destruct (c env st) as [[?|?] ?]
         | |- context [match answers ?svc ?req with _ => _ end] =>
             destruct (answers svc req)
         end; reflexivity.

Lemma list_calendars_shape (u : unit) (env : Env) (st : State) :
  list_calendars_body answers u env st =
  one_call answers _calendar (fun _ => list_calendars_request) list_calendars_text env st.
Proof. unfold list_calendars_body. shape. Qed.

Lemma get_events_shape (a : GetEventsArgs) (env : Env) (st : State) :
  get_events_body answers a env st =
  one_call answers _calendar (fun _ => get_events_request a) get_events_text env st.
Proof. unfold get_events_body. shape. Qed.

Lemma create_event_shape (a : CreateEventArgs) (env : Env) (st : State) :
  create_event_body answers a env st =
  one_call answers _calendar (fun env => create_event_request (utcnow env) a)
    create_event_text env st.
Proof. unfold create_event_body. shape. Qed.

Lemma list_task_lists_shape (u : unit) (env : Env) (st : State) :
  list_task_lists_body answers u env st =
  one_call answers _tasks (fun _ => list_task_lists_request) list_task_lists_text env st.
Proof. unfold list_task_lists_body. shape. Qed.

Lemma list_tasks_shape (a : ListTasksArgs) (env : Env) (st : State) :
  list_tasks_body answers a env st =
  one_call answers _tasks (fun _ => list_tasks_request a) list_tasks_text env st.
Proof. unfold list_tasks_body. shape. Qed.

Lemma get_task_shape (a : TaskRef) (env : Env) (st : State) :
  get_task_body answers a env st =
  one_call answers _tasks (fun _ => get_task_request a) get_task_text env st.
Proof. unfold get_task_body. shape. Qed.

Lemma create_task_shape (a : CreateTaskArgs) (env : Env) (st : State) :
  create_task_body answers a env st =
  one_call answers _tasks (fun _ => create_task_request a) create_task_text env st.
Proof. unfold create_task_body. shape. Qed.

Lemma delete_task_shape (a : TaskRef) (env : Env) (st : State) :
  delete_task_body answers a env st =
  one_call answers _tasks (fun _ => delete_task_request a)
    (fun _ _ => Return ("Task " +:+ tr_task_id a +:+ " deleted.")) env st.
Proof. unfold delete_task_body. shape. Qed.

End OneCall.

(** ** The tools behind the adapter *)

Lemma handler_adapts {A : Type} (func : A -> M string) (a : A) (env : Env)
    (st st' : State) (r : result string) :
  func a env st = (r, st') -> _api_error_handler func a env st = (adapted r, st').
Proof.
  unfold _api_error_handler. intros ->.
  now destruct r as [text|[status reason|cls descr|name descr]].
Qed.

Lemma adapted_fault (e : pyexn) :
  is_Exception e = true -> exists text, adapted (Raise e) = Return text /\ fault_text e text.
Proof.
  destruct e as [status reason|cls descr|name descr]; [| |discriminate];
    intros _; (eexists; split; reflexivity).
Qed.

Section ToolRuns.
Context (answers : Service -> Request -> result pyval) (env : Env) (st st1 : State).

(** With a handle, each tool returns what the adapter makes of the answer
    to its one request, and the state is as the factory left it. *)
Lemma calendar_tools_run (svc : Service) :
  _calendar env st = (Return svc, st1) ->
  list_calendars answers tt env st =
    (adapted (rbind (answers svc list_calendars_request) (list_calendars_text env)), st1) /\
  (forall a, get_events answers a env st =
    (adapted (rbind (answers svc (get_events_request a)) (get_events_text env)), st1)) /\
  (forall a, create_event answers a env st =
    (adapted (rbind (answers svc (create_event_request (utcnow env) a))
                (create_event_text env)), st1)).
Proof.
  intros Hcal. split; [|split]; intros.
  - apply handler_adapts. rewrite list_calendars_shape. now apply one_call_run.
  - apply handler_adapts. rewrite get_events_shape. now apply one_call_run.
  - apply handler_adapts. rewrite create_event_shape.
    now apply (one_call_run answers _calendar
                 (fun env => create_event_request (utcnow env) a)).
Qed.

Lemma tasks_tools_run (svc : Service) :
  _tasks env st = (Return svc, st1) ->
  list_task_lists answers tt env st =
    (adapted (rbind (answers svc list_task_lists_request) (list_task_lists_text env)), st1) /\
  (forall a, list_tasks answers a env st =
    (adapted (rbind (answers svc (list_tasks_request a)) (list_tasks_text env)), st1)) /\
  (forall a, get_task answers a env st =
    (adapted (rbind (answers svc (get_task_request a)) (get_task_text env)), st1)) /\
  (forall a, create_task answers a env st =
    (adapted (rbind (answers svc (create_task_request a)) (create_task_text env)), st1)) /\
  (forall a, delete_task answers a env st =
    (adapted (rbind (answers svc (delete_task_request a))
                (fun _ => Return ("Task " +:+ tr_task_id a +:+ " deleted."))), st1)).
Proof.
  intros Htasks. split; [|split; [|split; [|split]]]; intros.
  - apply handler_adapts. rewrite list_task_lists_shape. now apply one_call_run.
  - apply handler_adapts. rewrite list_tasks_shape. now apply one_call_run.
  - apply handler_adapts. rewrite get_task_shape. now apply one_call_run.
  - apply handler_adapts. rewrite create_task_shape. now apply one_call_run.
  - apply handler_adapts. rewrite delete_task_shape.
    now apply (one_call_run answers _tasks (fun _ => delete_task_request a)
                 (fun _ _ => Return ("Task " +:+ tr_task_id a +:+ " deleted."))).
Qed.

(** Without credentials no tool gets as far as its request. *)
Lemma tools_without_credentials (e : pyexn) :
  _load_creds env st = (Raise e, st1) ->
  list_calendars answers tt env st = (adapted (Raise e), st1) /\
  (forall a, get_events answers a env st = (adapted (Raise e), st1)) /\
  (forall a, create_event answers a env st = (adapted (Raise e), st1)) /\
  list_task_lists answers tt env st = (adapted (Raise e), st1) /\
  (forall a, list_tasks answers a env st = (adapted (Raise e), st1)) /\
  (forall a, get_task answers a env st = (adapted (Raise e), st1)) /\
  (forall a, create_task answers a env st = (adapted (Raise e), st1)) /\
  (forall a, delete_task answers a env st = (adapted (Raise e), st1)).
Proof.
  intros Hload.
  pose proof (calendar_raises env st st1 e Hload) as Hcal.
  pose proof (tasks_raises env st st1 e Hload) as Htasks.
  repeat match goal with |- _ /\ _ => split end; intros; apply handler_adapts.
  - rewrite list_calendars_shape. now apply one_call_no_handle.
  - rewrite get_events_shape. now apply one_call_no_handle.
  - rewrite create_event_shape. now apply one_call_no_handle.
  - rewrite list_task_lists_shape. now apply one_call_no_handle.
  - rewrite list_tasks_shape. now apply one_call_no_handle.
  - rewrite get_task_shape. now apply one_call_no_handle.
  - rewrite create_task_shape. now apply one_call_no_handle.
  - rewrite delete_task_shape. now apply one_call_no_handle.
Qed.

End ToolRuns.

Lemma factories_return (env : Env) (st st1 : State) (c : Credentials) :
  _load_creds env st = (Return c, st1) ->
  _calendar env st = (Return (build "calendar" "v3" c), st1) /\
  _tasks env st = (Return (build "tasks" "v1" c), st1).
Proof. intros Hload. unfold _calendar, _tasks, bind. now rewrite Hload. Qed.

(** X4. Without credentials no tool reaches the remote service: when
    [_load_creds] raises a fault, each of [list_calendars], [get_events],
    [create_event], [list_task_lists], [list_tasks], [get_task],
    [create_task] and [delete_task] returns the text of that fault, whatever
    the service would have answered, and the state is as [_load_creds] left
    it. *)
Theorem no_request_without_credentials
    (answers : Service -> Request -> result pyval) (env : Env) (st st1 : State)
    (e : pyexn) :
  _load_creds env st = (Raise e, st1) ->
  is_Exception e = true ->
  exists text,
    fault_text e text /\
    list_calendars answers tt env st = (Return text, st1) /\
    (forall a, get_events answers a env st = (Return text, st1)) /\
    (forall a, create_event answers a env st = (Return text, st1)) /\
    list_task_lists answers tt env st = (Return text, st1) /\
    (forall a, list_tasks answers a env st = (Return text, st1)) /\
    (forall a, get_task answers a env st = (Return text, st1)) /\
    (forall a, create_task answers a env st = (Return text, st1)) /\
    (forall a, delete_task answers a env st = (Return text, st1)).
Proof.
  intros Hload He. destruct (adapted_fault e He) as (text & Had & Htext).
  exists text. split; [exact Htext|]. rewrite <- Had.
  exact (tools_without_credentials answers env st st1 e Hload).
Qed.

Lemma no_request_without_credentials_witness :
  exists text,
    fault_text
      (Exception RuntimeError
         "No credentials and no client_secret.json at /srv/gapi-mcp/client_secret.json")
      text /\
    list_calendars ListingSamples.empty_service tt (Samples.sample_env false)
      (Samples.state_with None) = (Return text, Samples.state_with None) /\
    (forall a, get_events ListingSamples.empty_service a (Samples.sample_env false)
                 (Samples.state_with None) = (Return text, Samples.state_with None)) /\
    (forall a, create_event ListingSamples.empty_service a (Samples.sample_env false)
                 (Samples.state_with None) = (Return text, Samples.state_with None)) /\
    list_task_lists ListingSamples.empty_service tt (Samples.sample_env false)
      (Samples.state_with None) = (Return text, Samples.state_with None) /\
    (forall a, list_tasks ListingSamples.empty_service a (Samples.sample_env false)
                 (Samples.state_with None) = (Return text, Samples.state_with None)) /\
    (forall a, get_task ListingSamples.empty_service a (Samples.sample_env false)
                 (Samples.state_with None) = (Return text, Samples.state_with None)) /\
    (forall a, create_task ListingSamples.empty_service a (Samples.sample_env false)
                 (Samples.state_with None) = (Return text, Samples.state_with None)) /\
    (forall a, delete_task ListingSamples.empty_service a (Samples.sample_env false)
                 (Samples.state_with None) = (Return text, Samples.state_with None)).
Proof.
  apply (no_request_without_credentials ListingSamples.empty_service
           (Samples.sample_env false) (Samples.state_with None) (Samples.state_with None));
    reflexivity.
Defined.

(** X5. A remote-service fault in any of the eight tools becomes text: when
    credentials are obtained and the service answers the tool's request by
    raising [HttpError] with a status and a reason, the tool returns
    [Google API error <status>: <reason>]. *)
Theorem remote_fault_becomes_text
    (answers : Service -> Request -> result pyval) (env : Env) (st st1 : State)
    (c : Credentials) (status : Z) (reason : string) :
  _load_creds env st = (Return c, st1) ->
  (forall svc req, answers svc req = Raise (HttpError status reason)) ->
  let text := "Google API error " +:+ pretty status +:+ ": " +:+ reason in
  list_calendars answers tt env st = (Return text, st1) /\
  (forall a, get_events answers a env st = (Return text, st1)) /\
  (forall a, create_event answers a env st = (Return text, st1)) /\
  list_task_lists answers tt env st = (Return text, st1) /\
  (forall a, list_tasks answers a env st = (Return text, st1)) /\
  (forall a, get_task answers a env st = (Return text, st1)) /\
  (forall a, create_task answers a env st = (Return text, st1)) /\
  (forall a, delete_task answers a env st = (Return text, st1)).
Proof.
  intros Hload Hfault text.
  destruct (factories_return env st st1 c Hload) as [Hcal Htasks].
  destruct (calendar_tools_run answers env st st1 _ Hcal) as (H1 & H2 & H3).
  destruct (tasks_tools_run answers env st st1 _ Htasks) as (H4 & H5 & H6 & H7 & H8).
  repeat match goal with |- _ /\ _ => split end; intros;
    first [rewrite H1 | rewrite H2 | rewrite H3 | rewrite H4 | rewrite H5
          | rewrite H6 | rewrite H7 | rewrite H8];
    now rewrite Hfault.
Qed.

Lemma remote_fault_becomes_text_witness :
  let text := "Google API error " +:+ pretty 404 +:+ ": " +:+ "Not Found" in
  list_calendars ListingSamples.missing_service tt (Samples.sample_env true) Samples.ready
    = (Return text, Samples.ready) /\
  (forall a, get_events ListingSamples.missing_service a (Samples.sample_env true)
               Samples.ready = (Return text, Samples.ready)) /\
  (forall a, create_event ListingSamples.missing_service a (Samples.sample_env true)
               Samples.ready = (Return text, Samples.ready)) /\
  list_task_lists ListingSamples.missing_service tt (Samples.sample_env true)
    Samples.ready = (Return text, Samples.ready) /\
  (forall a, list_tasks ListingSamples.missing_service a (Samples.sample_env true)
               Samples.ready = (Return text, Samples.ready)) /\
  (forall a, get_task ListingSamples.missing_service a (Samples.sample_env true)
               Samples.ready = (Return text, Samples.ready)) /\
  (forall a, create_task ListingSamples.missing_service a (Samples.sample_env true)
               Samples.ready = (Return text, Samples.ready)) /\
  (forall a, delete_task ListingSamples.missing_service a (Samples.sample_env true)
               Samples.ready = (Return text, Samples.ready)).
Proof.
  apply (remote_fault_becomes_text ListingSamples.missing_service
           (Samples.sample_env true) Samples.ready Samples.ready
           (Samples.stored_creds SCOPES) 404 "Not Found");
    [vm_compute; reflexivity | reflexivity].
Defined.

(** X6. An empty listing says so.  When credentials are obtained and the
    answer holds no items ([items] missing, null or empty), [list_calendars],
    [get_events], [list_task_lists] and [list_tasks] return their fixed
    sentences. *)
Theorem empty_listings_say_so
    (answers : Service -> Request -> result pyval) (env : Env) (st st1 : State)
    (c : Credentials) (response items : pyval) :
  _load_creds env st = (Return c, st1) ->
  (forall svc req, answers svc req = Return response) ->
  items_of response = Return items ->
  truthy items = false ->
  list_calendars answers tt env st = (Return "No calendars found.", st1) /\
  (forall a, get_events answers a env st =
             (Return "No events found in the specified range.", st1)) /\
  list_task_lists answers tt env st = (Return "No task lists found.", st1) /\
  (forall a, list_tasks answers a env st = (Return "No tasks found.", st1)).
Proof.
  intros Hload Hans Hitems Hempty.
  destruct (factories_return env st st1 c Hload) as [Hcal Htasks].
  destruct (calendar_tools_run answers env st st1 _ Hcal) as (H1 & H2 & _).
  destruct (tasks_tools_run answers env st st1 _ Htasks) as (H4 & H5 & _).
  repeat match goal with |- _ /\ _ => split end; intros;
    first [rewrite H1 | rewrite H2 | rewrite H4 | rewrite H5];
    rewrite Hans; cbn [rbind];
    unfold list_calendars_text, get_events_text, list_task_lists_text, list_tasks_text;
    rewrite Hitems; cbn [rbind]; now rewrite Hempty.
Qed.

Lemma empty_listings_say_so_witness :
  list_calendars ListingSamples.empty_service tt (Samples.sample_env true) Samples.ready =
    (Return "No calendars found.", Samples.ready) /\
  (forall a, get_events ListingSamples.empty_service a (Samples.sample_env true)
               Samples.ready =
             (Return "No events found in the specified range.", Samples.ready)) /\
  list_task_lists ListingSamples.empty_service tt (Samples.sample_env true) Samples.ready =
    (Return "No task lists found.", Samples.ready) /\
  (forall a, list_tasks ListingSamples.empty_service a (Samples.sample_env true)
               Samples.ready = (Return "No tasks found.", Samples.ready)).
Proof.
  apply (empty_listings_say_so ListingSamples.empty_service (Samples.sample_env true)
           Samples.ready Samples.ready (Samples.stored_creds SCOPES)
           (PyDict ∅) (PyList []));
    first [vm_compute; reflexivity | reflexivity].
Defined.

(** X7. A deletion is confirmed with the id that was asked for, whatever
    the service answers, as long as it does not raise: [delete_task] returns
    [Task <id> deleted.] and [delete_event] returns [Event <id> deleted.],
    the latter after exactly one request, the deletion. *)
Theorem deletions_are_confirmed
    (answers : Service -> Request -> result pyval) (env : Env) (st st1 : State)
    (c : Credentials) :
  _load_creds env st = (Return c, st1) ->
  (forall (a : TaskRef) (v : pyval),
      answers (build "tasks" "v1" c) (delete_task_request a) = Return v ->
      delete_task answers a env st =
      (Return ("Task " +:+ tr_task_id a +:+ " deleted."), st1)) /\
  (forall (a : DeleteEventArgs) (v : pyval),
      remote env (build "calendar" "v3" c)
        (EventsDelete (de_calendar_id a) (de_event_id a)) = Return v ->
      delete_event a env st =
      (Return ("Event " +:+ de_event_id a +:+ " deleted."),
       {| creds_file := creds_file st1;
          trace := trace st1 ++
            [RemoteCall (build "calendar" "v3" c)
               (EventsDelete (de_calendar_id a) (de_event_id a))] |})).
Proof.
  intros Hload. destruct (factories_return env st st1 c Hload) as [Hcal Htasks].
  split.
  - intros a v Hans.
    destruct (tasks_tools_run answers env st st1 _ Htasks) as (_ & _ & _ & _ & H).
    rewrite H, Hans. reflexivity.
  - intros a v Hans. apply handler_adapts with (r := Return _).
    unfold delete_event_body, bind at 1. rewrite Hcal.
    unfold execute, bind, emit, ask, lift, ret. cbn. now rewrite Hans.
Qed.

Lemma deletions_are_confirmed_witness :
  delete_task ListingSamples.empty_service ListingSamples.task_T1
    (Samples.sample_env true) Samples.ready =
  (Return "Task T1 deleted.", Samples.ready).
Proof.
  eapply eq_trans.
  - apply (proj1 (deletions_are_confirmed ListingSamples.empty_service
                    (Samples.sample_env true) Samples.ready Samples.ready
                    (Samples.stored_creds SCOPES) ltac:(vm_compute; reflexivity))
             ListingSamples.task_T1 (PyDict ∅)).
    reflexivity.
  - reflexivity.
Defined.

(** X8. A creation reports what the service answered, not what was asked:
    [create_task] and [create_event] print the [title] and [id] (the
    [summary], [htmlLink] and [id]) of the answer, and [None] for a field
    the answer lacks. *)
Theorem creations_report_the_answer
    (answers : Service -> Request -> result pyval) (env : Env) (st st1 : State)
    (c : Credentials) :
  _load_creds env st = (Return c, st1) ->
  (forall (a : CreateTaskArgs) (r : gmap string pyval),
      answers (build "tasks" "v1" c) (create_task_request a) = Return (PyDict r) ->
      create_task answers a env st =
      (Return ("Task created: " +:+ py_str env (default PyNone (r !! "title")) +:+ nl +:+
               "ID: " +:+ py_str env (default PyNone (r !! "id"))), st1)) /\
  (forall (a : CreateEventArgs) (r : gmap string pyval),
      answers (build "calendar" "v3" c) (create_event_request (utcnow env) a) =
        Return (PyDict r) ->
      create_event answers a env st =
      (Return ("Event created: " +:+ py_str env (default PyNone (r !! "summary")) +:+ nl +:+
               "Link: " +:+ py_str env (default PyNone (r !! "htmlLink")) +:+ nl +:+
               "ID: " +:+ py_str env (default PyNone (r !! "id"))), st1)).
Proof.
  intros Hload. destruct (factories_return env st st1 c Hload) as [Hcal Htasks].
  split.
  - intros a r Hans.
    destruct (tasks_tools_run answers env st st1 _ Htasks) as (_ & _ & _ & H & _).
    rewrite H, Hans. reflexivity.
  - intros a r Hans.
    destruct (calendar_tools_run answers env st st1 _ Hcal) as (_ & _ & H).
    rewrite H, Hans. reflexivity.
Qed.

Lemma creations_report_the_answer_witness :
  create_task ListingSamples.echo_service ListingSamples.buy_milk
    (Samples.sample_env true) Samples.ready =
  (Return ("Task created: Buy milk" +:+ nl +:+ "ID: T1"), Samples.ready).
Proof.
  eapply eq_trans.
  - apply (proj1 (creations_report_the_answer ListingSamples.echo_service
                    (Samples.sample_env true) Samples.ready Samples.ready
                    (Samples.stored_creds SCOPES) ltac:(vm_compute; reflexivity))
             ListingSamples.buy_milk
             (<["id" := PyStr "T1"]> (create_task_data ListingSamples.buy_milk))).
    vm_compute. reflexivity.
  - vm_compute. reflexivity.
Defined.

(** ** What is printed for an event *)

Lemma fmt_event_printable (env : Env) (d sd ed : gmap string pyval) :
  default (PyDict ∅) (d !! "start") = PyDict sd ->
  default (PyDict ∅) (d !! "end") = PyDict ed ->
  _fmt_event env (PyDict d) = Return (join nl (event_lines env d sd ed)).
Proof.
  intros Hs He. unfold _fmt_event, event_lines. cbn [py_get rbind].
  rewrite Hs, He. cbn [py_get rbind]. fold (shown_time sd). fold (shown_time ed).
  destruct (truthy (default (PyStr "") (d !! "htmlLink")));
    destruct (truthy (default PyNone (d !! "location"))); reflexivity.
Qed.

Lemma fmt_event_unprintable (env : Env) (ev : pyval) :
  printable_event ev = false ->
  exists descr, _fmt_event env ev = Raise (Exception AttributeError descr).
Proof.
  destruct ev as [| | | | |d]; try (intros _; eexists; reflexivity).
  cbn [printable_event]. unfold _fmt_event. cbn [py_get rbind].
  destruct (default (PyDict ∅) (d !! "start")) as [| | | | |sd];
    try (intros _; destruct (default (PyDict ∅) (d !! "end")); eexists; reflexivity).
  destruct (default (PyDict ∅) (d !! "end")) as [| | | | |ed];
    try (intros _; eexists; reflexivity).
  discriminate.
Qed.

Lemma fmt_event_raises (env : Env) (ev : pyval) (e : pyexn) :
  _fmt_event env ev = Raise e -> exists descr, e = Exception AttributeError descr.
Proof.
  intros H. destruct (printable_event ev) eqn:Hp.
  - destruct ev as [| | | | |d]; try discriminate. cbn in Hp.
    apply andb_prop in Hp as [Hs He].
    destruct (default (PyDict ∅) (d !! "start")) as [| | | | |sd] eqn:Hsd; try discriminate.
    destruct (default (PyDict ∅) (d !! "end")) as [| | | | |ed] eqn:Hed; try discriminate.
    rewrite (fmt_event_printable env d sd ed Hsd Hed) in H. discriminate.
  - destruct (fmt_event_unprintable env ev Hp) as [descr Hd].
    rewrite Hd in H. injection H as <-. eauto.
Qed.

(** X9. [_fmt_event] fails exactly on an event that is not an object, or
    whose [start] or [end] is present without being an object (null
    included); it then raises [AttributeError].  Every other event is
    printed. *)
Theorem fmt_event_fails_iff_unprintable (env : Env) (ev : pyval) :
  match _fmt_event env ev with
  | Return _ => printable_event ev = true
  | Raise e => printable_event ev = false /\
               exists descr, e = Exception AttributeError descr
  end.
Proof.
  destruct (printable_event ev) eqn:Hp.
  - destruct ev as [| | | | |d]; try discriminate. cbn in Hp.
    apply andb_prop in Hp as [Hs He].
    destruct (default (PyDict ∅) (d !! "start")) as [| | | | |sd] eqn:Hsd; try discriminate.
    destruct (default (PyDict ∅) (d !! "end")) as [| | | | |ed] eqn:Hed; try discriminate.
    now rewrite (fmt_event_printable env d sd ed Hsd Hed).
  - destruct (fmt_event_unprintable env ev Hp) as [descr ->]. eauto.
Qed.

(** X10. The block printed for an event whose start and end are objects
    (or missing) is exactly: the title, start, end and id lines, then a
    [Link] line when [htmlLink] is not empty, then a [Location] line when
    [location] is not empty, joined by line feeds.  The time shown is the
    [dateTime] of the start (end) object when it has one, otherwise its
    [date], otherwise a question mark; a missing summary is shown as
    [(no title)]. *)
Theorem fmt_event_block (env : Env) (d sd ed : gmap string pyval) :
  default (PyDict ∅) (d !! "start") = PyDict sd ->
  default (PyDict ∅) (d !! "end") = PyDict ed ->
  _fmt_event env (PyDict d) =
  Return (join nl
    ([ "- " +:+ py_str env (default (PyStr "(no title)") (d !! "summary"));
       "  Start: " +:+
         py_str env (default (default (PyStr "?") (sd !! "date")) (sd !! "dateTime"));
       "  End: " +:+
         py_str env (default (default (PyStr "?") (ed !! "date")) (ed !! "dateTime"));
       "  ID: " +:+ py_str env (default (PyStr "") (d !! "id")) ] ++
     (if truthy (default (PyStr "") (d !! "htmlLink"))
      then ["  Link: " +:+ py_str env (default (PyStr "") (d !! "htmlLink"))]
      else []) ++
     (if truthy (default PyNone (d !! "location"))
      then ["  Location: " +:+ py_str env (default PyNone (d !! "location"))]
      else []))).
Proof. intros Hs He. now apply fmt_event_printable. Qed.

Lemma fmt_event_block_witness :
  _fmt_event (Samples.sample_env true) (PyDict Samples.sample_event) =
  Return (join nl [ "- Review"; "  Start: 2026-03-01T09:00:00Z"; "  End: ?"; "  ID: E1";
                    "  Link: https://calendar.example/E1" ]).
Proof.
  assert (Hs : default (PyDict ∅) (Samples.sample_event !! "start") =
               PyDict (<["timeZone" := PyStr "UTC"]>
                         {[ "dateTime" := PyStr "2026-03-01T09:00:00Z" ]}))
    by (vm_compute; reflexivity).
  assert (He : default (PyDict ∅) (Samples.sample_event !! "end") = PyDict ∅)
    by (vm_compute; reflexivity).
  rewrite (fmt_event_block (Samples.sample_env true) Samples.sample_event _ _ Hs He).
  vm_compute. reflexivity.
Defined.

(** ** Listings *)

Lemma for_each_Forall2 {A B : Type} (f : A -> result B) (l : list A) (ys : list B) :
  Forall2 (fun x y => f x = Return y) l ys -> for_each f l = Return ys.
Proof.
  induction 1 as [|x y l ys Hx _ IH]; [reflexivity|]. cbn. now rewrite Hx, IH.
Qed.

Lemma nonempty_list_truthy (items : list pyval) :
  items <> [] -> truthy (PyList items) = true.
Proof. now destruct items. Qed.

Lemma items_of_list (r : gmap string pyval) (items : list pyval) :
  r !! "items" = Some (PyList items) -> items_of (PyDict r) = Return (PyList items).
Proof. intros H. unfold items_of. cbn. now rewrite H. Qed.

(** X11. A listing prints one block per item, in the order of the answer:
    when the answer holds a non-empty list of items and each item is
    printed as a block, [list_calendars] and [list_task_lists] return the
    blocks joined by a line feed, [get_events] and [list_tasks] the blocks
    joined by an empty line. *)
Theorem listings_print_items_in_order
    (answers : Service -> Request -> result pyval) (env : Env) (st st1 : State)
    (c : Credentials) (r : gmap string pyval) (items : list pyval) :
  _load_creds env st = (Return c, st1) ->
  (forall svc req, answers svc req = Return (PyDict r)) ->
  r !! "items" = Some (PyList items) ->
  items <> [] ->
  (forall blocks,
      Forall2 (fun item block => calendar_line env item = Return block) items blocks ->
      list_calendars answers tt env st = (Return (join nl blocks), st1)) /\
  (forall blocks a,
      Forall2 (fun item block => _fmt_event env item = Return block) items blocks ->
      get_events answers a env st = (Return (join (nl +:+ nl) blocks), st1)) /\
  (forall blocks,
      Forall2 (fun item block => task_list_line env item = Return block) items blocks ->
      list_task_lists answers tt env st = (Return (join nl blocks), st1)) /\
  (forall blocks a,
      Forall2 (fun item block => _fmt_task env item = Return block) items blocks ->
      list_tasks answers a env st = (Return (join (nl +:+ nl) blocks), st1)).
Proof.
  intros Hload Hans Hitems Hne.
  destruct (factories_return env st st1 c Hload) as [Hcal Htasks].
  destruct (calendar_tools_run answers env st st1 _ Hcal) as (H1 & H2 & _).
  destruct (tasks_tools_run answers env st st1 _ Htasks) as (H4 & H5 & _).
  pose proof (items_of_list r items Hitems) as Hio.
  pose proof (nonempty_list_truthy items Hne) as Htr.
  repeat match goal with |- _ /\ _ => split end; intros blocks;
    [intros Hb | intros a Hb | intros Hb | intros a Hb];
    first [rewrite H1 | rewrite H2 | rewrite H4 | rewrite H5];
    rewrite Hans; cbn [rbind];
    unfold list_calendars_text, get_events_text, list_task_lists_text, list_tasks_text;
    rewrite Hio; cbn [rbind]; rewrite Htr; cbn [negb py_list rbind];
    rewrite (for_each_Forall2 _ _ _ Hb); reflexivity.
Qed.

Lemma listings_print_items_in_order_witness :
  get_events ListingSamples.two_events_service ListingSamples.weekend
    (Samples.sample_env true) Samples.ready =
  (Return (join (nl +:+ nl)
             [ join nl [ "- Review"; "  Start: 2026-03-01T09:00:00Z"; "  End: ?";
                         "  ID: E1"; "  Link: https://calendar.example/E1" ];
               join nl [ "- Holiday"; "  Start: 2026-03-02"; "  End: 2026-03-03";
                         "  ID: E2" ] ]),
   Samples.ready).
Proof.
  assert (Hload : _load_creds (Samples.sample_env true) Samples.ready =
                  (Return (Samples.stored_creds SCOPES), Samples.ready))
    by (vm_compute; reflexivity).
  assert (Hitems : ({[ "items" := PyList [PyDict Samples.sample_event;
                                          PyDict ListingSamples.holiday] ]}
                      : gmap string pyval) !! "items" =
                   Some (PyList [PyDict Samples.sample_event;
                                 PyDict ListingSamples.holiday]))
    by (vm_compute; reflexivity).
  apply (proj1 (proj2 (listings_print_items_in_order ListingSamples.two_events_service
                         (Samples.sample_env true) Samples.ready Samples.ready
                         _ _ _ Hload (fun _ _ => eq_refl) Hitems
                         ltac:(discriminate)))).
  repeat constructor; vm_compute; reflexivity.
Defined.

(** What the line functions raise is an instance of [Exception]. *)
Lemma py_get_raises (obj : pyval) (key : string) (dflt : pyval) (e : pyexn) :
  py_get obj key dflt = Raise e -> exists descr, e = Exception AttributeError descr.
Proof. destruct obj; cbn; intros [= <-]; eauto. Qed.

Lemma py_get_not_dict (obj : pyval) (key : string) (dflt : pyval) :
  is_dict obj = false ->
  py_get obj key dflt =
  Raise (Exception AttributeError
           ("'" +:+ type_name obj +:+ "' object has no attribute 'get'")).
Proof. destruct obj; (reflexivity || discriminate). Qed.

Lemma notes_preview_raises (notes : pyval) (e : pyexn) :
  notes_preview notes = Raise e -> exists descr, e = Exception TypeError descr.
Proof.
  unfold notes_preview.
  destruct notes as [| | | s|l|d]; cbn [py_len rbind];
    try (intros [= <-]; eexists; reflexivity).
  - destruct (200 <? str_len s)%nat; discriminate.
  - destruct (200 <? length l)%nat; [intros [= <-]; eexists; reflexivity | discriminate].
  - destruct (200 <? size d)%nat; [intros [= <-]; eexists; reflexivity | discriminate].
Qed.

Lemma line_functions_raise_faults (env : Env) (item : pyval) (e : pyexn) :
  calendar_line env item = Raise e \/ task_list_line env item = Raise e \/
  _fmt_event env item = Raise e \/ _fmt_task env item = Raise e ->
  exists cls descr, e = Exception cls descr.
Proof.
  intros [H|[H|[H|H]]].
  - destruct item; cbn in H; try (injection H as <-; eauto). discriminate.
  - destruct item; cbn in H; try (injection H as <-; eauto). discriminate.
  - destruct (fmt_event_raises env item e H) as [descr ->]. eauto.
  - destruct item as [| | | | |t]; cbn in H; try (injection H as <-; eauto).
    unfold _fmt_task in H. cbn [py_get rbind] in H.
    destruct (truthy (default PyNone (t !! "notes"))); [|discriminate].
    destruct (notes_preview _) as [p|e0] eqn:Hn; cbn in H; [discriminate|].
    injection H as <-. destruct (notes_preview_raises _ _ Hn) as [descr ->]. eauto.
Qed.

Lemma not_dict_line_fails (env : Env) (item : pyval) :
  is_dict item = false ->
  (exists e, calendar_line env item = Raise e) /\
  (exists e, task_list_line env item = Raise e) /\
  (exists e, _fmt_task env item = Raise e).
Proof.
  intros Hd. destruct item; try discriminate;
    (split; [|split]); eexists; reflexivity.
Qed.

Lemma listing_with_failure (env : Env) (f : pyval -> result string) (sep : string)
    (items : list pyval) (item : pyval) (e : pyexn) :
  item ∈ items -> f item = Raise e ->
  (forall y e', f y = Raise e' -> exists cls descr, e' = Exception cls descr) ->
  exists descr,
    adapted (let? its := py_list (PyList items) in
             let? blocks := for_each f its in
             Return (join sep blocks)) = Return ("Error: " +:+ descr).
Proof.
  intros Hin Hf Hfaults.
  destruct (for_each_first_failure f items item e Hin Hf) as (y & e' & _ & Hy & Hrun).
  destruct (Hfaults y e' Hy) as (cls & descr & ->).
  exists descr. cbn [py_list rbind]. now rewrite Hrun.
Qed.

(** X12. One item that cannot be printed spoils the whole listing: when the
    answer holds a list of items and one of them is not an object (for
    [get_events]: is not a printable event), the tool returns an [Error:]
    text and none of the other items. *)
Theorem one_bad_item_spoils_the_listing
    (answers : Service -> Request -> result pyval) (env : Env) (st st1 : State)
    (c : Credentials) (r : gmap string pyval) (items : list pyval) (item : pyval) :
  _load_creds env st = (Return c, st1) ->
  (forall svc req, answers svc req = Return (PyDict r)) ->
  r !! "items" = Some (PyList items) ->
  item ∈ items ->
  (printable_event item = false ->
   forall a, exists descr,
     get_events answers a env st = (Return ("Error: " +:+ descr), st1)) /\
  (is_dict item = false ->
   (exists descr, list_calendars answers tt env st = (Return ("Error: " +:+ descr), st1)) /\
   (exists descr, list_task_lists answers tt env st = (Return ("Error: " +:+ descr), st1)) /\
   (forall a, exists descr,
      list_tasks answers a env st = (Return ("Error: " +:+ descr), st1))).
Proof.
  intros Hload Hans Hitems Hin.
  destruct (factories_return env st st1 c Hload) as [Hcal Htasks].
  destruct (calendar_tools_run answers env st st1 _ Hcal) as (H1 & H2 & _).
  destruct (tasks_tools_run answers env st st1 _ Htasks) as (H4 & H5 & _).
  pose proof (items_of_list r items Hitems) as Hio.
  assert (Htr : truthy (PyList items) = true).
  { apply nonempty_list_truthy. intros ->. now apply elem_of_nil in Hin. }
  split.
  - intros Hbad a. destruct (fmt_event_unprintable env item Hbad) as [d0 Hf].
    destruct (listing_with_failure env (_fmt_event env) (nl +:+ nl) items item _ Hin Hf)
      as [descr Hd].
    { intros y e' Hy. apply (line_functions_raise_faults env y). auto. }
    exists descr. rewrite H2, Hans. cbn [rbind]. unfold get_events_text.
    rewrite Hio. cbn [rbind]. rewrite Htr. cbn [negb]. now rewrite Hd.
  - intros Hbad. destruct (not_dict_line_fails env item Hbad) as ([e1 Hc] & [e2 Hl] & [e3 Ht]).
    split; [|split; [|intros a]].
    + destruct (listing_with_failure env (calendar_line env) nl items item _ Hin Hc)
        as [descr Hd].
      { intros y e' Hy. apply (line_functions_raise_faults env y). auto. }
      exists descr. rewrite H1, Hans. cbn [rbind]. unfold list_calendars_text.
      rewrite Hio. cbn [rbind]. rewrite Htr. cbn [negb]. now rewrite Hd.
    + destruct (listing_with_failure env (task_list_line env) nl items item _ Hin Hl)
        as [descr Hd].
      { intros y e' Hy. apply (line_functions_raise_faults env y). auto. }
      exists descr. rewrite H4, Hans. cbn [rbind]. unfold list_task_lists_text.
      rewrite Hio. cbn [rbind]. rewrite Htr. cbn [negb]. now rewrite Hd.
    + destruct (listing_with_failure env (_fmt_task env) (nl +:+ nl) items item _ Hin Ht)
        as [descr Hd].
      { intros y e' Hy. apply (line_functions_raise_faults env y). auto. }
      exists descr. rewrite H5, Hans. cbn [rbind]. unfold list_tasks_text.
      rewrite Hio. cbn [rbind]. rewrite Htr. cbn [negb]. now rewrite Hd.
Qed.

Lemma one_bad_item_spoils_the_listing_witness :
  exists descr,
    get_events ListingSamples.broken_service ListingSamples.weekend
      (Samples.sample_env true) Samples.ready =
    (Return ("Error: " +:+ descr), Samples.ready).
Proof.
  assert (Hload : _load_creds (Samples.sample_env true) Samples.ready =
                  (Return (Samples.stored_creds SCOPES), Samples.ready))
    by (vm_compute; reflexivity).
  assert (Hitems : ({[ "items" := PyList [PyDict Samples.sample_event; PyNone] ]}
                      : gmap string pyval) !! "items" =
                   Some (PyList [PyDict Samples.sample_event; PyNone]))
    by (vm_compute; reflexivity).
  assert (Hin : PyNone ∈ [PyDict Samples.sample_event; PyNone])
    by (right; left).
  exact (proj1 (one_bad_item_spoils_the_listing ListingSamples.broken_service
                  (Samples.sample_env true) Samples.ready Samples.ready
                  _ _ _ _ Hload (fun _ _ => eq_refl) Hitems Hin) eq_refl
           ListingSamples.weekend).
Defined.

(** ** Notes: cut in a listing, whole in [get_task] *)

Lemma str_len_append (a b : string) :
  str_len (a +:+ b) = (str_len a + str_len b)%nat.
Proof.
  induction a as [|ch a IH]; [reflexivity|].
  change (str_len (String ch (a +:+ b)) = (str_len (String ch a) + str_len b)%nat).
  cbn [str_len]. rewrite IH. lia.
Qed.

Lemma str_len_take_chars (n : nat) (s : string) :
  str_len (take_chars n s) = Nat.min n (str_len s).
Proof.
  revert n. induction s as [|ch s IH]; intros n; [cbn; lia|].
  cbn [take_chars str_len]. destruct (is_continuation ch) eqn:Hc.
  - cbn [str_len]. rewrite Hc, IH. cbv iota. lia.
  - destruct n as [|n]; [cbn; lia|].
    cbn [str_len]. rewrite Hc, IH. cbv iota. lia.
Qed.

(** What [take_chars] leaves begins a character. *)
Lemma take_chars_split (n : nat) (s : string) :
  exists rest,
    s = take_chars n s +:+ rest /\
    match rest with
    | EmptyString => True
    | String c _ => is_continuation c = false
    end.
Proof.
  revert n. induction s as [|ch s IH]; intros n.
  { exists "". split; [reflexivity | exact I]. }
  cbn [take_chars]. destruct (is_continuation ch) eqn:Hc.
  - destruct (IH n) as (rest & Hs & Hr). exists rest. split; [|exact Hr].
    change (String ch s = String ch (take_chars n s +:+ rest)). now rewrite <- Hs.
  - destruct n as [|n].
    + exists (String ch s). split; [reflexivity | exact Hc].
    + destruct (IH n) as (rest & Hs & Hr). exists rest. split; [|exact Hr].
      change (String ch s = String ch (take_chars n s +:+ rest)). now rewrite <- Hs.
Qed.

Lemma take_chars_short (n : nat) (s : string) :
  (str_len s <= n)%nat -> take_chars n s = s.
Proof.
  revert n. induction s as [|ch s IH]; intros n Hs; [reflexivity|].
  cbn [take_chars]. cbn [str_len] in Hs. destruct (is_continuation ch); cbv iota in Hs.
  - rewrite IH; [reflexivity | lia].
  - destruct n as [|n]; [lia|]. rewrite IH; [reflexivity | lia].
Qed.

Lemma nonempty_string_truthy (s : string) : s <> "" -> truthy (PyStr s) = true.
Proof. destruct s; [congruence | reflexivity]. Qed.

(** The preview of string notes. *)
Lemma notes_preview_string (s : string) :
  notes_preview (PyStr s) =
  Return (PyStr (if (200 <? str_len s)%nat then take_chars 200 s +:+ "..." else s)).
Proof.
  unfold notes_preview. cbn [py_len rbind].
  destruct (200 <? str_len s)%nat; reflexivity.
Qed.

(** X13. In a task listing the notes are cut.  For a task whose notes are
    a non-empty string, the block [_fmt_task] prints is exactly the title
    and id lines, a [Due] line when [due] is not empty, and a last line
    [Notes] that holds the notes themselves when they have at most 200
    characters, and otherwise their first 200 characters followed by three
    dots.  Characters are counted, not bytes: the cut never falls inside a
    character. *)
Theorem fmt_task_notes_are_cut (env : Env) (t : gmap string pyval) (s : string) :
  t !! "notes" = Some (PyStr s) ->
  s <> "" ->
  exists shown,
    _fmt_task env (PyDict t) =
      Return (join nl
        ([ "- [" +:+ py_str env (default (PyStr "?") (t !! "status")) +:+ "] " +:+
             py_str env (default (PyStr "(no title)") (t !! "title"));
           "  ID: " +:+ py_str env (default (PyStr "") (t !! "id")) ] ++
         (if truthy (default PyNone (t !! "due"))
          then ["  Due: " +:+ py_str env (default PyNone (t !! "due"))] else []) ++
         ["  Notes: " +:+ shown])) /\
    (str_len shown <= 203)%nat /\
    ((str_len s <= 200)%nat -> shown = s) /\
    ((200 < str_len s)%nat ->
     exists head c rest,
       s = head +:+ String c rest /\ str_len head = 200%nat /\
       is_continuation c = false /\
       shown = head +:+ "...").
Proof.
  intros Hnotes Hne.
  exists (if (200 <? str_len s)%nat then take_chars 200 s +:+ "..." else s). split.
  { unfold _fmt_task. cbn [py_get rbind]. rewrite Hnotes.
    change (default PyNone (Some (PyStr s))) with (PyStr s).
    rewrite (nonempty_string_truthy s Hne), notes_preview_string. cbn [rbind].
    destruct (truthy (default PyNone (t !! "due"))); reflexivity. }
  destruct (Nat.ltb_spec 200 (str_len s)) as [Hlong|Hshort].
  - assert (Hlen : str_len (take_chars 200 s) = 200%nat)
      by (rewrite str_len_take_chars; lia).
    split.
    { rewrite str_len_append, Hlen. change (str_len "...") with 3%nat. lia. }
    split; [lia|]. intros _.
    destruct (take_chars_split 200 s) as (rest & Hs & Hrest).
    destruct rest as [|c rest].
    { exfalso. rewrite append_empty_r in Hs. rewrite <- Hs in Hlen. lia. }
    exists (take_chars 200 s), c, rest.
    split; [exact Hs|]. split; [exact Hlen|]. split; [exact Hrest | reflexivity].
  - split; [lia|]. split; [reflexivity|]. lia.
Qed.

(** X14. [get_task] prints notes in full: for a task whose notes are a
    non-empty string, whatever their length, the text holds a [Notes] line
    with all of them. *)
Theorem get_task_prints_whole_notes (env : Env) (t : gmap string pyval) (s : string) :
  t !! "notes" = Some (PyStr s) ->
  s <> "" ->
  exists text,
    get_task_text env (PyDict t) = Return text /\
    contains text ("Notes: " +:+ s).
Proof.
  intros Hnotes Hne. eexists. split.
  { unfold get_task_text, optional_line. cbn [py_get rbind]. rewrite Hnotes.
    change (default PyNone (Some (PyStr s))) with (PyStr s).
    rewrite (nonempty_string_truthy s Hne). reflexivity. }
  apply contains_join.
  destruct (truthy (default PyNone (t !! "parent")));
    destruct (truthy (default PyNone (t !! "completed")));
    repeat (apply elem_of_app; first [right; now left | left]).
Qed.

Lemma fmt_task_notes_are_cut_witness :
  exists shown head c rest,
    _fmt_task (Samples.sample_env true) (PyDict ListingSamples.long_noted_task) =
      Return (join nl ["- [completed] Buy milk"; "  ID: T1"; "  Notes: " +:+ shown]) /\
    ListingSamples.times 201 "é" = head +:+ String c rest /\
    str_len head = 200%nat /\
    shown = head +:+ "...".
Proof.
  assert (Hnotes : ListingSamples.long_noted_task !! "notes" =
                   Some (PyStr (ListingSamples.times 201 "é")))
    by (vm_compute; reflexivity).
  assert (Hne : ListingSamples.times 201 "é" <> "") by (vm_compute; discriminate).
  destruct (fmt_task_notes_are_cut (Samples.sample_env true) _ _ Hnotes Hne)
    as (shown & Htext & _ & _ & Hlong).
  destruct (Hlong ltac:(vm_compute; lia)) as (head & c & rest & Hs & Hlen & _ & Hshown).
  exists shown, head, c, rest.
  split; [rewrite Htext; vm_compute; reflexivity|].
  split; [exact Hs|]. split; [exact Hlen | exact Hshown].
Defined.

(** The cut counts characters: a note of 201 two-byte letters is shown as
    its first 200 letters and three dots. *)
Example long_notes_are_cut_by_characters :
  _fmt_task (Samples.sample_env true) (PyDict ListingSamples.long_noted_task) =
  Return (join nl [ "- [completed] Buy milk"; "  ID: T1";
                    "  Notes: " +:+ ListingSamples.times 200 "é" +:+ "..." ]).
Proof. vm_compute. reflexivity. Qed.

Lemma get_task_prints_whole_notes_witness :
  exists text,
    get_task_text (Samples.sample_env true) (PyDict ListingSamples.noted_task) =
      Return text /\
    contains text "Notes: 2% fat".
Proof.
  assert (Hnotes : ListingSamples.noted_task !! "notes" = Some (PyStr "2% fat"))
    by (vm_compute; reflexivity).
  assert (Hne : "2% fat" <> "") by discriminate.
  exact (get_task_prints_whole_notes (Samples.sample_env true) _ _ Hnotes Hne).
Defined.

(** ** A failed read writes nothing *)

Lemma update_task_stops (env : Env) (st st1 : State) (svc : Service) (e : pyexn)
    (a : UpdateTaskArgs) :
  is_Exception e = true ->
  _tasks env st = (Return svc, st1) ->
  rbind (remote env svc (TasksGet (ut_task_list_id a) (ut_task_id a)))
        (update_task_fields (utcnow env) a) = Raise e ->
  exists text st2,
    update_task a env st = (Return text, st2) /\ fault_text e text /\
    creds_file st2 = creds_file st1 /\
    trace st2 = trace st1 ++ [RemoteCall svc (TasksGet (ut_task_list_id a) (ut_task_id a))].
Proof.
  intros He Htasks Hstop.
  unfold update_task, _api_error_handler, update_task_body, bind at 1. rewrite Htasks.
  unfold execute, bind, emit, ask, lift. cbn.
  destruct (remote env svc (TasksGet _ _)) as [t|e0]; cbn in Hstop.
  - rewrite Hstop.
    destruct e as [status reason|cls descr|name descr]; [| |discriminate];
      (eexists; eexists; split; [reflexivity|]; split; [reflexivity|]; split; reflexivity).
  - injection Hstop as ->.
    destruct e as [status reason|cls descr|name descr]; [| |discriminate];
      (eexists; eexists; split; [reflexivity|]; split; [reflexivity|]; split; reflexivity).
Qed.

Lemma modify_event_stops (env : Env) (st st1 : State) (svc : Service) (e : pyexn)
    (a : ModifyEventArgs) :
  is_Exception e = true ->
  _calendar env st = (Return svc, st1) ->
  rbind (remote env svc (EventsGet (me_calendar_id a) (me_event_id a)))
        (modify_event_fields a) = Raise e ->
  exists text st2,
    modify_event a env st = (Return text, st2) /\ fault_text e text /\
    creds_file st2 = creds_file st1 /\
    trace st2 = trace st1 ++ [RemoteCall svc (EventsGet (me_calendar_id a) (me_event_id a))].
Proof.
  intros He Hcal Hstop.
  unfold modify_event, _api_error_handler, modify_event_body, bind at 1. rewrite Hcal.
  unfold execute, bind, emit, ask, lift. cbn.
  destruct (remote env svc (EventsGet _ _)) as [ev|e0]; cbn in Hstop.
  - rewrite Hstop.
    destruct e as [status reason|cls descr|name descr]; [| |discriminate];
      (eexists; eexists; split; [reflexivity|]; split; [reflexivity|]; split; reflexivity).
  - injection Hstop as ->.
    destruct e as [status reason|cls descr|name descr]; [| |discriminate];
      (eexists; eexists; split; [reflexivity|]; split; [reflexivity|]; split; reflexivity).
Qed.

(** X15. The update tools never write after a failed read.  When the
    handle is obtained and the fetch raises a fault, or the fetched value
    does not take the assignments (it is not an object and a field is
    given), [update_task] and [modify_event] return the text of that fault,
    and the only request sent is the fetch: no update request follows, and
    the credential file is untouched. *)
Theorem failed_read_sends_no_update (env : Env) (st st1 : State) (svc : Service)
    (e : pyexn) :
  is_Exception e = true ->
  (forall a : UpdateTaskArgs,
     _tasks env st = (Return svc, st1) ->
     rbind (remote env svc (TasksGet (ut_task_list_id a) (ut_task_id a)))
           (update_task_fields (utcnow env) a) = Raise e ->
     exists text st2,
       update_task a env st = (Return text, st2) /\ fault_text e text /\
       creds_file st2 = creds_file st1 /\
       trace st2 =
         trace st1 ++ [RemoteCall svc (TasksGet (ut_task_list_id a) (ut_task_id a))]) /\
  (forall a : ModifyEventArgs,
     _calendar env st = (Return svc, st1) ->
     rbind (remote env svc (EventsGet (me_calendar_id a) (me_event_id a)))
           (modify_event_fields a) = Raise e ->
     exists text st2,
       modify_event a env st = (Return text, st2) /\ fault_text e text /\
       creds_file st2 = creds_file st1 /\
       trace st2 =
         trace st1 ++ [RemoteCall svc (EventsGet (me_calendar_id a) (me_event_id a))]).
Proof.
  intros He. split; intros a Hsvc Hstop.
  - now apply update_task_stops.
  - now apply modify_event_stops.
Qed.

Lemma failed_read_sends_no_update_witness :
  exists st2,
    update_task Samples.complete_T1 ListingSamples.missing_env Samples.ready =
      (Return "Google API error 404: Not Found", st2) /\
    trace st2 = [RemoteCall Samples.tasks_handle (TasksGet "L1" "T1")].
Proof.
  assert (Htasks : _tasks ListingSamples.missing_env Samples.ready =
                   (Return Samples.tasks_handle, Samples.ready))
    by (vm_compute; reflexivity).
  destruct (proj1 (failed_read_sends_no_update ListingSamples.missing_env Samples.ready
                     Samples.ready Samples.tasks_handle (HttpError 404 "Not Found")
                     eq_refl)
              Samples.complete_T1 Htasks eq_refl)
    as (text & st2 & Hrun & Htext & _ & Htrace).
  exists st2. split; [|exact Htrace].
  rewrite Hrun. cbn in Htext. rewrite Htext. vm_compute. reflexivity.
Defined.

(** ** Sending an update again *)

Lemma task_rewritten (now now' : datetime) (a : UpdateTaskArgs) (t : gmap string pyval)
    (k : string) :
  k <> "completed" ->
  task_written now' a (task_written now a t) !! k = task_written now a t !! k.
Proof.
  intros Hk.
  destruct (task_written_frame now a t) as (Ht & Hn & Hs & Hd & _).
  destruct (task_written_frame now' a (task_written now a t))
    as (Ht' & Hn' & Hs' & Hd' & Ho' & _).
  destruct (decide (k = "title")) as [->|?].
  { destruct (ut_title a); cbn in Ht, Ht'; congruence. }
  destruct (decide (k = "notes")) as [->|?].
  { destruct (ut_notes a); cbn in Hn, Hn'; congruence. }
  destruct (decide (k = "status")) as [->|?].
  { destruct (ut_status a); cbn in Hs, Hs'; congruence. }
  destruct (decide (k = "due")) as [->|?].
  { destruct (ut_due a); cbn in Hd, Hd'; congruence. }
  apply Ho'. repeat (apply not_elem_of_cons; split; [assumption|]). apply not_elem_of_nil.
Qed.

Lemma task_rewritten_completed (now : datetime) (a : UpdateTaskArgs)
    (t : gmap string pyval) :
  task_written now a (task_written now a t) !! "completed" =
  task_written now a t !! "completed".
Proof.
  unfold task_written at 1. rewrite assign_if_given_other by discriminate.
  rewrite status_assigned_completed.
  destruct (ut_status a) as [s|] eqn:Hst.
  - destruct (String.eqb s "completed") eqn:Hc;
      [|destruct (String.eqb s "needsAction") eqn:Hn].
    + unfold task_written. rewrite assign_if_given_other by discriminate.
      rewrite status_assigned_completed, Hst, Hc. reflexivity.
    + unfold task_written. rewrite assign_if_given_other by discriminate.
      rewrite status_assigned_completed, Hst, Hc, Hn. reflexivity.
    + now other_keys.
  - now other_keys.
Qed.

Lemma task_written_again (now : datetime) (a : UpdateTaskArgs) (t : gmap string pyval) :
  task_written now a (task_written now a t) = task_written now a t.
Proof.
  apply map_eq. intros k. destruct (decide (k = "completed")) as [->|Hk].
  - apply task_rewritten_completed.
  - now apply task_rewritten.
Qed.

Lemma event_written_again (a : ModifyEventArgs) (ev : gmap string pyval) :
  event_written a (event_written a ev) = event_written a ev.
Proof.
  apply map_eq. intros k.
  destruct (event_written_frame a ev) as (H1 & H2 & H3 & H4 & H5 & H6 & _).
  destruct (event_written_frame a (event_written a ev))
    as (H1' & H2' & H3' & H4' & H5' & H6' & Ho' & _).
  destruct (decide (k = "summary")) as [->|?].
  { destruct (me_summary a); cbn in H1, H1'; congruence. }
  destruct (decide (k = "description")) as [->|?].
  { destruct (me_description a); cbn in H2, H2'; congruence. }
  destruct (decide (k = "location")) as [->|?].
  { destruct (me_location a); cbn in H3, H3'; congruence. }
  destruct (decide (k = "attendees")) as [->|?].
  { destruct (me_attendees a); cbn in H4, H4'; congruence. }
  destruct (decide (k = "start")) as [->|?].
  { destruct (me_start a); cbn in H5, H5'; congruence. }
  destruct (decide (k = "end")) as [->|?].
  { destruct (me_end a); cbn in H6, H6'; congruence. }
  apply Ho'. repeat (apply not_elem_of_cons; split; [assumption|]). apply not_elem_of_nil.
Qed.

(** X16. Sending an update again writes the same resource.  Applying the
    assignments of [modify_event] to the event they produced gives that
    event back; so do the assignments of [update_task] at the same clock
    reading.  At another clock reading the task written can differ from the
    first one under [completed] only, which holds the time of the call. *)
Theorem repeated_update_writes_the_same :
  (forall (now now' : datetime) (a : UpdateTaskArgs) (t : gmap string pyval),
     exists body body',
       update_task_fields now a (PyDict t) = Return (PyDict body) /\
       update_task_fields now a (PyDict body) = Return (PyDict body) /\
       update_task_fields now' a (PyDict body) = Return (PyDict body') /\
       forall k, k <> "completed" -> body' !! k = body !! k) /\
  (forall (a : ModifyEventArgs) (ev : gmap string pyval),
     exists body,
       modify_event_fields a (PyDict ev) = Return (PyDict body) /\
       modify_event_fields a (PyDict body) = Return (PyDict body)).
Proof.
  split.
  - intros now now' a t.
    exists (task_written now a t), (task_written now' a (task_written now a t)).
    rewrite !update_task_fields_dict, task_written_again.
    split; [reflexivity|]. split; [reflexivity|]. split; [reflexivity|].
    intros k Hk. now apply task_rewritten.
  - intros a ev. exists (event_written a ev).
    now rewrite !modify_event_fields_dict, event_written_again.
Qed.

Lemma repeated_update_writes_the_same_witness :
  exists body body',
    update_task_fields Samples.now_2026 Samples.complete_T1 (PyDict Samples.sample_task) =
      Return (PyDict body) /\
    update_task_fields (Samples.now_2026 + Samples.hour) Samples.complete_T1 (PyDict body) =
      Return (PyDict body') /\
    body' !! "status" = body !! "status" /\
    body' !! "completed" <> body !! "completed".
Proof.
  destruct (proj1 repeated_update_writes_the_same Samples.now_2026
              (Samples.now_2026 + Samples.hour) Samples.complete_T1 Samples.sample_task)
    as (body & body' & H1 & _ & H2 & Hk).
  exists body, body'. split; [exact H1|]. split; [exact H2|].
  split; [apply Hk; discriminate|].
  rewrite update_task_fields_dict in H1. injection H1 as <-.
  rewrite update_task_fields_dict in H2. injection H2 as <-.
  vm_compute. discriminate.
Defined.

(** ** The requests of [create_event], [get_events] and [freebusy] *)

Lemma strftime_compact_seconds (t t' : datetime) :
  t `div` us_per_second = t' `div` us_per_second ->
  strftime_compact t = strftime_compact t'.
Proof.
  intros H.
  assert (Hd : forall x : Z, x `div` us_per_day = (x `div` us_per_second) `div` 86400).
  { intros x. unfold us_per_day, us_per_second.
    rewrite Z.mul_comm, <- Z.div_div by lia. reflexivity. }
  assert (Hs : forall x : Z,
             (x `mod` us_per_day) `div` us_per_second = (x `div` us_per_second) `mod` 86400).
  { intros x. unfold us_per_day, us_per_second.
    rewrite (Z.mul_comm 86400), Z.rem_mul_r by lia.
    rewrite Z.mul_comm, Z.div_add by lia.
    rewrite Z.div_small by (apply Z.mod_pos_bound; lia). reflexivity. }
  unfold strftime_compact. now rewrite !Hd, !Hs, H.
Qed.

(** X17. The request id of the video-conference request is made of the
    clock reading cut to whole seconds: two [create_event] calls with the
    same arguments whose clock readings fall in the same second send the
    same request, request id included. *)
Theorem meet_request_id_has_second_granularity (now now' : datetime)
    (a : CreateEventArgs) :
  now `div` us_per_second = now' `div` us_per_second ->
  create_event_request now a = create_event_request now' a.
Proof.
  intros H. unfold create_event_request, create_event_kwargs, create_event_data.
  now rewrite (strftime_compact_seconds now now' H).
Qed.

Lemma meet_request_id_has_second_granularity_witness :
  create_event_request Samples.now_2026 ListingSamples.standup =
  create_event_request (Samples.now_2026 + 999999) ListingSamples.standup.
Proof.
  apply (meet_request_id_has_second_granularity Samples.now_2026
           (Samples.now_2026 + 999999) ListingSamples.standup).
  vm_compute. reflexivity.
Defined.

Ltac past_inserts := repeat (rewrite lookup_insert_ne by discriminate).

Lemma create_event_data_times (now : datetime) (a : CreateEventArgs) :
  create_event_data now a !! "start" =
    Some (if is_date_only (ce_start a) then PyDict {[ "date" := PyStr (ce_start a) ]}
          else date_time_object (ce_start a) (ce_timezone a)) /\
  create_event_data now a !! "end" =
    Some (if is_date_only (ce_start a) then PyDict {[ "date" := PyStr (ce_end a) ]}
          else date_time_object (ce_end a) (ce_timezone a)) /\
  create_event_data now a !! "summary" = Some (PyStr (ce_summary a)).
Proof.
  unfold create_event_data.
  destruct (ce_add_meet a), (nonempty_list (ce_attendees a)), (nonempty (ce_location a)),
    (nonempty (ce_description a)), (is_date_only (ce_start a));
    (split; [|split]); past_inserts;
    first [ apply lookup_insert_eq
          | rewrite lookup_insert_ne by discriminate; apply lookup_insert_eq
          | apply lookup_singleton_eq ].
Qed.

Lemma create_event_data_conference (now : datetime) (a : CreateEventArgs) :
  create_event_data now a !! "conferenceData" =
  if ce_add_meet a then
    Some (PyDict {[ "createRequest" :=
                      PyDict {[ "requestId" := PyStr ("meet-" +:+ strftime_compact now) ]} ]})
  else None.
Proof.
  unfold create_event_data.
  destruct (ce_add_meet a); [apply lookup_insert_eq|].
  destruct (nonempty_list (ce_attendees a)), (nonempty (ce_location a)),
    (nonempty (ce_description a)), (is_date_only (ce_start a));
    past_inserts; now apply lookup_singleton_ne.
Qed.

(** X18. The video-conference request and its version flag go together.
    The request of [create_event] carries [conferenceDataVersion] (with
    value 1) exactly when the event sent carries a [conferenceData] entry,
    which is exactly when [add_meet] is set; the calendar id and the event
    are always sent. *)
Theorem meet_request_and_version_go_together (now : datetime) (a : CreateEventArgs) :
  exists body,
    kwargs (create_event_request now a) !! "calendarId" = Some (PyStr (ce_calendar_id a)) /\
    kwargs (create_event_request now a) !! "body" = Some (PyDict body) /\
    kwargs (create_event_request now a) !! "conferenceDataVersion" =
      (if ce_add_meet a then Some (PyInt 1) else None) /\
    body !! "conferenceData" =
      (if ce_add_meet a then
         Some (PyDict {[ "createRequest" :=
                 PyDict {[ "requestId" := PyStr ("meet-" +:+ strftime_compact now) ]} ]})
       else None) /\
    resource (create_event_request now a) = "events" /\
    method (create_event_request now a) = "insert".
Proof.
  exists (create_event_data now a). cbn [create_event_request kwargs resource method].
  unfold create_event_kwargs.
  split; [destruct (ce_add_meet a); past_inserts; apply lookup_insert_eq|].
  split.
  { destruct (ce_add_meet a); past_inserts; apply lookup_singleton_eq. }
  split.
  { destruct (ce_add_meet a); [apply lookup_insert_eq|].
    past_inserts. now apply lookup_singleton_ne. }
  split; [apply create_event_data_conference|]. split; reflexivity.
Qed.

Lemma normalize_time_sent (t : string) :
  str_len (normalize_time t) <> 10%nat.
Proof.
  unfold normalize_time, is_date_only.
  destruct (Nat.eqb_spec (str_len t) 10) as [Hlen|Hlen]; [|exact Hlen].
  rewrite str_len_append, Hlen. change (str_len "T00:00:00Z") with 10%nat. lia.
Qed.

(** X19. No bare date is sent as a time bound.  The [timeMin] and
    [timeMax] that [get_events] and [freebusy] send are the bounds given,
    with [T00:00:00Z] appended to a bound of ten characters, and never have
    ten characters themselves. *)
Theorem time_bounds_are_never_bare_dates :
  (forall a : GetEventsArgs,
     exists tmin tmax,
       kwargs (get_events_request a) !! "timeMin" = Some (PyStr tmin) /\
       kwargs (get_events_request a) !! "timeMax" = Some (PyStr tmax) /\
       str_len tmin <> 10%nat /\ str_len tmax <> 10%nat /\
       tmin = (if Nat.eqb (str_len (ge_time_min a)) 10
               then ge_time_min a +:+ "T00:00:00Z" else ge_time_min a) /\
       tmax = (if Nat.eqb (str_len (ge_time_max a)) 10
               then ge_time_max a +:+ "T00:00:00Z" else ge_time_max a)) /\
  (forall (time_min time_max : string) (calendar_ids : option (list string)),
     exists tmin tmax,
       freebusy_body time_min time_max calendar_ids !! "timeMin" = Some (PyStr tmin) /\
       freebusy_body time_min time_max calendar_ids !! "timeMax" = Some (PyStr tmax) /\
       str_len tmin <> 10%nat /\ str_len tmax <> 10%nat /\
       tmin = (if Nat.eqb (str_len time_min) 10
               then time_min +:+ "T00:00:00Z" else time_min) /\
       tmax = (if Nat.eqb (str_len time_max) 10
               then time_max +:+ "T00:00:00Z" else time_max)).
Proof.
  split.
  - intros a. exists (normalize_time (ge_time_min a)), (normalize_time (ge_time_max a)).
    cbn [get_events_request kwargs]. unfold get_events_kwargs.
    split; [destruct (nonempty (ge_query a)); past_inserts; apply lookup_insert_eq|].
    split; [destruct (nonempty (ge_query a)); past_inserts; apply lookup_insert_eq|].
    split; [apply normalize_time_sent|]. split; [apply normalize_time_sent|].
    split; reflexivity.
  - intros time_min time_max calendar_ids.
    exists (normalize_time time_min), (normalize_time time_max). unfold freebusy_body.
    split; [apply lookup_insert_eq|].
    split; [past_inserts; apply lookup_insert_eq|].
    split; [apply normalize_time_sent|]. split; [apply normalize_time_sent|].
    split; reflexivity.
Qed.

(** Characters are counted, not bytes: a bound of ten two-byte letters
    gets the suffix, a bound of eight characters in ten bytes does not. *)
Example time_bounds_count_characters :
  normalize_time "éééééééééé" = "ééééééééééT00:00:00Z" /\
  normalize_time "éé123456" = "éé123456".
Proof. split; reflexivity. Qed.

(** X20. [freebusy] always asks about at least one calendar: the calendars
    given, in the order given, and the primary calendar when none is given
    or the list given is empty. *)
Theorem freebusy_always_names_a_calendar (time_min time_max : string)
    (calendar_ids : option (list string)) :
  exists ids,
    freebusy_body time_min time_max calendar_ids !! "items" =
      Some (PyList ((fun cid => PyDict {[ "id" := PyStr cid ]}) <$> ids)) /\
    (0 < length ids)%nat /\
    ids = match calendar_ids with
          | Some (cid :: rest) => cid :: rest
          | _ => ["primary"]
          end.
Proof.
  unfold freebusy_body.
  destruct calendar_ids as [[|cid rest]|]; cbn [nonempty_list];
    (eexists; split; [past_inserts; apply lookup_singleton_eq|];
     split; [cbn; lia | reflexivity]).
Qed.

Lemma event_time_cases (t : string) (timezone : option string) :
  event_time t timezone =
  if is_date_only t then PyDict {[ "date" := PyStr t ]} else date_time_object t timezone.
Proof. reflexivity. Qed.

Lemma date_object_is_no_date_time_object (t t' : string) (timezone : option string) :
  PyDict {[ "date" := PyStr t ]} <> date_time_object t' timezone.
Proof.
  unfold date_time_object. intros Heq.
  destruct (nonempty timezone) as [tz|];
    apply (f_equal (fun v => match v with PyDict m => m !! "date" | _ => None end)) in Heq;
    cbv beta iota in Heq; rewrite lookup_singleton_eq in Heq;
    rewrite ?(lookup_insert_ne _ "timeZone" "date") in Heq by discriminate;
    rewrite lookup_singleton_ne in Heq by discriminate; discriminate.
Qed.

(** X21. [create_event] decides between an all-day and a timed event by the
    start alone.  The [start] it sends is [{"date": start}] when the start
    has ten characters and otherwise [{"dateTime": start}], with the
    [timeZone] when a non-empty one is given; the [end] is a date object
    when the start has ten characters and a date-time object otherwise,
    whatever the end looks like.  [modify_event] looks at each text by
    itself, so the two tools write the same [end] for the same text exactly
    when start and end both have ten characters or both do not. *)
Theorem create_event_decides_all_day_by_start (now : datetime) (a : CreateEventArgs) :
  create_event_data now a !! "start" = Some (time_object (ce_start a) (ce_timezone a)) /\
  create_event_data now a !! "end" =
    Some (if Nat.eqb (str_len (ce_start a)) 10
          then PyDict {[ "date" := PyStr (ce_end a) ]}
          else match ce_timezone a with
               | None | Some EmptyString => PyDict {[ "dateTime" := PyStr (ce_end a) ]}
               | Some tz =>
                   PyDict (<["timeZone" := PyStr tz]> {[ "dateTime" := PyStr (ce_end a) ]})
               end) /\
  (forall t timezone, event_time t timezone = time_object t timezone) /\
  (create_event_data now a !! "end" = Some (time_object (ce_end a) (ce_timezone a)) <->
   Nat.eqb (str_len (ce_end a)) 10 = Nat.eqb (str_len (ce_start a)) 10).
Proof.
  destruct (create_event_data_times now a) as (Hs & He & _).
  split; [now rewrite Hs, <- event_time_is_time_object, event_time_cases|].
  split.
  { rewrite He. unfold is_date_only, date_time_object.
    destruct (Nat.eqb (str_len (ce_start a)) 10); [reflexivity|].
    destruct (ce_timezone a) as [[|c tz]|]; reflexivity. }
  split; [exact event_time_is_time_object|].
  rewrite He, <- event_time_is_time_object, event_time_cases. unfold is_date_only.
  destruct (Nat.eqb (str_len (ce_start a)) 10), (Nat.eqb (str_len (ce_end a)) 10); split;
    try reflexivity; try discriminate; intros [= Heq].
  - now apply date_object_is_no_date_time_object in Heq.
  - symmetry in Heq. now apply date_object_is_no_date_time_object in Heq.
Qed.

(** Characters are counted, not bytes: a start of eight characters in ten
    bytes makes a timed event. *)
Example all_day_counts_characters :
  create_event_data Samples.now_2026
    {| ce_summary := "s"; ce_start := "éé123456"; ce_end := "2026-03-01";
       ce_description := None; ce_location := None; ce_attendees := None;
       ce_timezone := None; ce_add_meet := false; ce_calendar_id := "primary" |}
    !! "start" = Some (PyDict {[ "dateTime" := PyStr "éé123456" ]}).
Proof. vm_compute. reflexivity. Qed.

Lemma shown_time_date (t : string) :
  shown_time {[ "date" := PyStr t ]} = PyStr t.
Proof.
  unfold shown_time. rewrite lookup_singleton_eq.
  now rewrite lookup_singleton_ne by discriminate.
Qed.

Lemma date_time_object_shown (t : string) (timezone : option string) :
  exists when, date_time_object t timezone = PyDict when /\ shown_time when = PyStr t.
Proof.
  unfold date_time_object, shown_time. destruct (nonempty timezone) as [tz|].
  - eexists. split; [reflexivity|].
    rewrite (lookup_insert_ne _ "timeZone" "dateTime") by discriminate.
    now rewrite lookup_singleton_eq.
  - eexists. split; [reflexivity|]. now rewrite lookup_singleton_eq.
Qed.

(** X22. An event is printed as it was created.  For the event
    [create_event] sends, [_fmt_event] returns a block whose first three
    lines are the summary, the start and the end that were given. *)
Theorem created_event_is_printed_as_given (env : Env) (now : datetime)
    (a : CreateEventArgs) :
  exists lines,
    _fmt_event env (PyDict (create_event_data now a)) = Return (join nl lines) /\
    lines !! 0%nat = Some ("- " +:+ ce_summary a) /\
    lines !! 1%nat = Some ("  Start: " +:+ ce_start a) /\
    lines !! 2%nat = Some ("  End: " +:+ ce_end a).
Proof.
  destruct (create_event_data_times now a) as (Hs & He & Hsum).
  assert (exists sd ed,
            create_event_data now a !! "start" = Some (PyDict sd) /\
            create_event_data now a !! "end" = Some (PyDict ed) /\
            shown_time sd = PyStr (ce_start a) /\ shown_time ed = PyStr (ce_end a))
    as (sd & ed & Hsd & Hed & Hshs & Hshe).
  { rewrite Hs, He. destruct (is_date_only (ce_start a)).
    - do 2 eexists. split; [reflexivity|]. split; [reflexivity|].
      split; apply shown_time_date.
    - destruct (date_time_object_shown (ce_start a) (ce_timezone a)) as (sd & -> & Hshs).
      destruct (date_time_object_shown (ce_end a) (ce_timezone a)) as (ed & -> & Hshe).
      exists sd, ed. auto. }
  exists (event_lines env (create_event_data now a) sd ed). split.
  { apply fmt_event_printable; [now rewrite Hsd | now rewrite Hed]. }
  unfold event_lines. rewrite Hsum, Hshs, Hshe.
  split; [reflexivity|]. split; reflexivity.
Qed.

(** ** Authorizing once *)

(** X23. The consent flow is run once.  After a first [_load_creds] that
    found no credential file and obtained credentials with a token from
    the consent flow, the next [_load_creds], at whatever time and with
    whatever collaborators, reads those credentials back from the file
    (without their expiry) and adds no effect: no second consent flow, no
    refresh, no write. *)
Theorem consent_is_asked_once (env env' : Env) (st : State) (c : Credentials)
    (l : list pyval) :
  creds_file st = None ->
  client_secret_exists env = true ->
  consent_flow env SCOPES = Return c ->
  py_list (py_or (scopes c) (PyList (PyStr <$> SCOPES))) = Return l ->
  is_not_None (token c) = true ->
  exists st1 c',
    _load_creds env st = (Return c, st1) /\
    _load_creds env' st1 = (Return c', st1) /\
    c' = {| token := token c; refresh_token := refresh_token c;
            token_uri := token_uri c; client_id := client_id c;
            client_secret := client_secret c; scopes := PyList l; expiry := None |}.
Proof.
  intros Hfile Hsecret Hflow Hl Htoken.
  set (d := match expiry c with
            | Some e => <["expiry" := PyStr (isoformat false e)]> (creds_data c l)
            | None => creds_data c l
            end).
  assert (Hd : creds_of_dict d =
               {| token := token c; refresh_token := refresh_token c;
                  token_uri := token_uri c; client_id := client_id c;
                  client_secret := client_secret c; scopes := PyList l; expiry := None |}).
  { apply (creds_of_saved c l). subst d. destruct (expiry c) as [e|]; eauto. }
  set (st1 := {| creds_file := Some (json_dumps (PyDict d));
                 trace := trace st ++
                            [ConsentFlow SCOPES; WriteCreds (json_dumps (PyDict d))] |}).
  exists st1, (creds_of_dict d).
  split.
  { rewrite (load_creds_no_file env st Hfile).
    unfold authorize, bind at 1, ask. rewrite Hsecret.
    unfold bind, emit, lift, ret. rewrite Hflow.
    rewrite (save_creds_writes env _ c l Hl). cbv zeta. cbn [trace creds_file].
    rewrite <- app_assoc. reflexivity. }
  split; [|exact Hd].
  rewrite (load_creds_of_object env' st1 d eq_refl).
  change (default PyNone (d !! "token")) with (token (creds_of_dict d)).
  rewrite Hd. cbn [token]. now rewrite Htoken.
Qed.

Lemma consent_is_asked_once_witness :
  exists st1 c',
    _load_creds (Samples.sample_env true) (Samples.state_with None) =
      (Return Samples.fresh_creds, st1) /\
    _load_creds ListingSamples.missing_env st1 = (Return c', st1) /\
    token c' = PyStr "ya29.fresh" /\ expiry c' = None.
Proof.
  destruct (consent_is_asked_once (Samples.sample_env true) ListingSamples.missing_env
              (Samples.state_with None) Samples.fresh_creds (PyStr <$> SCOPES)
              eq_refl eq_refl eq_refl eq_refl eq_refl)
    as (st1 & c' & H1 & H2 & Hc).
  exists st1, c'. split; [exact H1|]. split; [exact H2|]. now rewrite Hc.
Defined.
